(** * Formula integrity and addressing core of the Excel agent

    A shallow embedding of [core/excel_agent_core.py]: the address model, the
    formula sanitizer, the sheet-reference validator and the error scan and
    repair engine, followed by the properties established about them.

    Python [str] values are modelled as [string]: a sequence of characters,
    each an [ascii].  Character classes and case mapping are the ASCII ones;
    characters above 127 are carried through unchanged and belong to no
    class.  On ASCII texts this is what Python does.  On other characters
    Python follows Unicode, which the embedding does not: [str.upper] maps
    some of them to ASCII letters, [\d], [\s] and [\w] hold more than
    the ASCII classes, and [re.IGNORECASE] folds some of them to ASCII
    letters.  A statement that needs a class to be exactly the one of
    Python is made for ASCII texts ([is_ascii]).  Python [int] is [Z]. *)

From Stdlib Require Import List String Ascii ZArith NArith Lia Bool Arith.
From Stdlib Require Import DecimalString.
Import ListNotations.
Local Open Scope string_scope.

(* ================================================================== *)
(** * Python primitives used by the core *)
(* ================================================================== *)

Module Py.

(** The newline character. *)
Definition LF : ascii := ascii_of_nat 10.

Definition in_range (lo hi : N) (c : ascii) : bool :=
  ((lo <=? N_of_ascii c) && (N_of_ascii c <=? hi))%N.

(** The ASCII letters and digits: [[A-Z]], [[a-z]] and, on ASCII
    characters, [\d]. *)
Definition is_upper : ascii -> bool := in_range 65 90.
Definition is_lower : ascii -> bool := in_range 97 122.
Definition is_digit : ascii -> bool := in_range 48 57.

(** The class [[A-Za-z0-9_]]. *)
Definition is_ident (c : ascii) : bool :=
  is_upper c || is_lower c || is_digit c || Ascii.eqb c "_".

(** [\s] on ASCII characters: tab, line feed, vertical tab, form feed,
    carriage return, the four separators 0x1c-0x1f and the space. *)
Definition is_space (c : ascii) : bool :=
  in_range 9 13 c || in_range 28 32 c.

(** [c.upper()] on one ASCII character. *)
Definition upper_char (c : ascii) : ascii :=
  if is_lower c then ascii_of_N (N_of_ascii c - 32) else c.

(** [s.upper()] on an ASCII text. *)
Fixpoint upper (s : string) : string :=
  match s with
  | EmptyString => EmptyString
  | String c s' => String (upper_char c) (upper s')
  end.

(** [s.startswith(p)] *)
Definition startswith (p s : string) : bool := String.prefix p s.

(** [sub in s] *)
Fixpoint contains (sub s : string) : bool :=
  String.prefix sub s ||
  match s with
  | EmptyString => false
  | String _ s' => contains sub s'
  end.

(** [char in s] for a one-character [char]. *)
Fixpoint contains_char (char : ascii) (s : string) : bool :=
  match s with
  | EmptyString => false
  | String c s' => Ascii.eqb c char || contains_char char s'
  end.

(** [s.replace(old, new)] for one-character [old] and [new]. *)
Fixpoint replace_char (old new : ascii) (s : string) : string :=
  match s with
  | EmptyString => EmptyString
  | String c s' =>
      String (if Ascii.eqb c old then new else c) (replace_char old new s')
  end.

(** [s[:n]] *)
Definition slice_to (n : nat) (s : string) : string := substring 0 n s.

(** [s[1:]] *)
Definition slice_from_1 (s : string) : string :=
  match s with
  | EmptyString => EmptyString
  | String _ s' => s'
  end.

(** [s.count(char)] for a one-character [char]. *)
Fixpoint count_char (char : ascii) (s : string) : Z :=
  match s with
  | EmptyString => 0
  | String c s' =>
      ((if Ascii.eqb c char then 1 else 0) + count_char char s')%Z
  end.

(** [len(s)] *)
Definition len (s : string) : Z := Z.of_nat (String.length s).

(** [str(n)] for an integer. *)
Definition str_of_int (n : Z) : string :=
  NilZero.string_of_int (Z.to_int n).

(** [int(s)] on a string of decimal digits. *)
Fixpoint int_of_digits (acc : Z) (s : string) : Z :=
  match s with
  | EmptyString => acc
  | String c s' =>
      int_of_digits (acc * 10 + (Z.of_N (N_of_ascii c) - 48))%Z s'
  end.

Definition int (s : string) : Z := int_of_digits 0 s.

(** The longest prefix of [s] made of characters in [p], and the rest. *)
Fixpoint span (p : ascii -> bool) (s : string) : string * string :=
  match s with
  | EmptyString => (EmptyString, EmptyString)
  | String c s' =>
      if p c then let '(a, b) := span p s' in (String c a, b)
      else (EmptyString, s)
  end.

Fixpoint all_chars (p : ascii -> bool) (s : string) : bool :=
  match s with
  | EmptyString => true
  | String c s' => p c && all_chars p s'
  end.

(** [l.append(x)] *)
Definition list_append {A : Type} (l : list A) (x : A) : list A :=
  (l ++ [x])%list.

End Py.

(* ================================================================== *)
(** * Regular-expression matching

    The patterns of the core are built from a handful of constructs.  A
    [matcher] is the rest of a pattern seen from some position: it tells
    whether the pattern can be completed on the remaining input, which is
    all that the callers of [re.match] and [re.search] ask.  [findall]
    scans for the matches of a pattern with one group. *)
(* ================================================================== *)

Module Re.
Import Py.

Definition matcher := string -> bool.

(** End of pattern. *)
Definition accept : matcher := fun _ => true.

(** [$]: the end of the string, or just before a newline that ends it. *)
Definition eos : matcher :=
  fun s => (s =? EmptyString) || (s =? String LF EmptyString).

(** One character of a class. *)
Definition chr (p : ascii -> bool) (k : matcher) : matcher :=
  fun s =>
    match s with
    | EmptyString => false
    | String c s' => p c && k s'
    end.

(** One given character. *)
Definition exactly (a : ascii) : ascii -> bool := fun c => Ascii.eqb c a.

(** One given character under [re.IGNORECASE]. *)
Definition ignorecase (a : ascii) : ascii -> bool :=
  fun c => Ascii.eqb (upper_char c) (upper_char a).

(** A literal under [re.IGNORECASE]. *)
Fixpoint lit_ci (l : string) (k : matcher) : matcher :=
  match l with
  | EmptyString => k
  | String a l' => chr (ignorecase a) (lit_ci l' k)
  end.

(** [p*] *)
Fixpoint star (p : ascii -> bool) (k : matcher) (s : string) : bool :=
  k s ||
  match s with
  | EmptyString => false
  | String c s' => p c && star p k s'
  end.

(** [p+] *)
Definition plus (p : ascii -> bool) (k : matcher) : matcher :=
  chr p (star p k).

(** [p{lo,hi}] *)
Fixpoint rep (lo hi : nat) (p : ascii -> bool) (k : matcher) (s : string)
  : bool :=
  match hi with
  | O => match lo with O => k s | S _ => false end
  | S hi' =>
      match lo with O => k s | S _ => false end ||
      match s with
      | EmptyString => false
      | String c s' => p c && rep (Nat.pred lo) hi' p k s'
      end
  end.

(** [.]: any character but a newline. *)
Definition dot (c : ascii) : bool := negb (Ascii.eqb c LF).

(** [re.search]: the pattern matches from some position of the input. *)
Fixpoint search (m : matcher) (s : string) : bool :=
  m s ||
  match s with
  | EmptyString => false
  | String _ s' => search m s'
  end.

(** [re.findall] for a pattern with one group that never matches the
    empty string.  [m] tries the pattern at the current position and
    gives the group and the length of the whole match; after a match the
    scan resumes where it ended ([skip] counts the characters still
    covered by the last match). *)
Fixpoint findall (m : string -> option (string * nat)) (skip : nat)
         (s : string) : list string :=
  match s with
  | EmptyString => []
  | String _ s' =>
      match skip with
      | S k => findall m k s'
      | O =>
          match m s with
          | Some (group, n) => group :: findall m (Nat.pred n) s'
          | None => findall m 0 s'
          end
      end
  end.

End Re.

(* ================================================================== *)
(** * Exceptions *)
(* ================================================================== *)

Inductive exception : Type :=
| InvalidCellReferenceError (message : string)
| ValueError (message : string)
| FileNotFoundError (message : string)
| KeyError (message : string)
| OSError (message : string)
| InvalidFileException (message : string).

(** [str(e)] *)
Definition str_of_exception (e : exception) : string :=
  match e with
  | InvalidCellReferenceError m | ValueError m | FileNotFoundError m
  | KeyError m | OSError m | InvalidFileException m => m
  end.

(** The outcome of a call that may raise. *)
Inductive result (A : Type) : Type :=
| Ok (a : A)
| Raise (e : exception).
Arguments Ok {A} a.
Arguments Raise {A} e.

Definition bind {A B : Type} (r : result A) (f : A -> result B) : result B :=
  match r with
  | Ok a => f a
  | Raise e => Raise e
  end.

Declare Scope result_scope.
Notation "x <- r ;; k" := (bind r (fun x => k))
  (at level 61, r at next level, right associativity) : result_scope.

(* ================================================================== *)
(** * Constants *)
(* ================================================================== *)

Definition MAX_FORMULA_LENGTH : Z := 8000.
Definition MAX_FORMULA_NESTING : Z := 64.
Definition EXCEL_MAX_ROWS : Z := 1048576.
Definition EXCEL_MAX_COLS : Z := 16384.

(** [FormulaErrors]: the values of the enumeration, in declaration order. *)
Definition ERROR_VALUES : list string :=
  ["#DIV/0!"; "#REF!"; "#VALUE!"; "#NAME?"; "#NULL!"; "#NUM!"; "#N/A"].

(* ================================================================== *)
(** * Address model *)
(* ================================================================== *)

Module Address.
Import Py.
Local Open Scope result_scope.

(** Modelled from the spec: column decoding belongs to a library outside
    the repository ([openpyxl.utils]).  Column letters are decoded in base
    26 with no zero digit (A=1 ... Z=26, AA=27 ...). *)
Fixpoint decode_letters (acc : Z) (s : string) : Z :=
  match s with
  | EmptyString => acc
  | String c s' =>
      decode_letters (acc * 26 + (Z.of_N (N_of_ascii c) - 64))%Z s'
  end.

(** Modelled from the spec: [openpyxl.utils.column_index_from_string] is
    imported from a library outside the repository.  It decodes the
    letters, whatever their case, and refuses with a [ValueError] a text
    that is not one to three letters (A..ZZZ). *)
Definition column_index_from_string (str_col : string) : result Z :=
  let s := upper str_col in
  if all_chars is_upper s && (1 <=? String.length s)%nat
     && (String.length s <=? 3)%nat
  then Ok (decode_letters 0 s)
  else Raise (ValueError (str_col ++ " is not a valid column name")).

(** Modelled from the spec: the inverse of column decoding belongs to the
    same library.  The letters are produced from the last to the first,
    and an exact multiple of 26 borrows from the next digit.  Each turn
    divides the index by 26 at least, so [fuel] turns are enough once
    [fuel] exceeds its binary logarithm. *)
Fixpoint column_letters (fuel : nat) (col_idx : Z) (letters : string)
  : string :=
  match fuel with
  | O => letters
  | S fuel' =>
      if (col_idx <=? 0)%Z then letters
      else
        let q := (col_idx / 26)%Z in
        let r := (col_idx mod 26)%Z in
        let '(q, r) := if (r =? 0)%Z then ((q - 1)%Z, 26%Z) else (q, r) in
        column_letters fuel' q
          (String (ascii_of_N (Z.to_N (r + 64))) letters)
  end.

(** Modelled from the spec: [openpyxl.utils.get_column_letter] is imported
    from a library outside the repository.  It is the inverse of column
    decoding on A..ZZZ (1..18278) and refuses any other index with a
    [ValueError]. *)
Definition openpyxl_get_column_letter (col_idx : Z) : result string :=
  if ((1 <=? col_idx) && (col_idx <=? 18278))%Z
  then Ok (column_letters (S (Z.to_nat (Z.log2 col_idx))) col_idx
             EmptyString)
  else Raise (ValueError ("Invalid column index " ++ str_of_int col_idx)).

(** The pattern [^[A-Z]{1,3}\d{1,7}$]. *)
Definition cell_pattern : Re.matcher :=
  Re.rep 1 3 is_upper (Re.rep 1 7 is_digit Re.eos).

(** The test as it goes on an ASCII text; on other texts [ref.upper()] and
    [\d] let more through than the ASCII classes do. *)
Definition is_valid_cell_reference (ref : string) : bool :=
  if ref =? EmptyString then false
  else cell_pattern (upper ref).

(** [re.match(r'^([A-Z]+)(\d+)$', s)] and its two groups: both runs are
    greedy, and what follows the digits must satisfy [$]. *)
Definition match_col_row (s : string) : option (string * string) :=
  let '(col_str, rest) := span is_upper s in
  let '(row_str, tail) := span is_digit rest in
  if negb (col_str =? EmptyString) && negb (row_str =? EmptyString)
     && Re.eos tail
  then Some (col_str, row_str)
  else None.

Definition get_cell_coordinates (cell_ref : string) : result (Z * Z) :=
  if negb (is_valid_cell_reference cell_ref) then
    Raise (InvalidCellReferenceError
             ("Invalid cell reference: " ++ cell_ref))
  else
    match match_col_row (upper cell_ref) with
    | None =>
        Raise (InvalidCellReferenceError
                 ("Cannot parse reference: " ++ cell_ref))
    | Some (col_str, row_str) =>
        col_num <- column_index_from_string col_str ;;
        let row_num := int row_str in
        if ((row_num >? EXCEL_MAX_ROWS) || (col_num >? EXCEL_MAX_COLS))%Z
        then Raise (InvalidCellReferenceError
                      ("Reference out of bounds: " ++ cell_ref))
        else Ok (row_num, col_num)
    end.

Definition get_column_letter (col_num : Z) : result string :=
  if negb ((1 <=? col_num) && (col_num <=? EXCEL_MAX_COLS))%Z then
    Raise (ValueError
             ("Column number " ++ str_of_int col_num
              ++ " out of range (1-" ++ str_of_int EXCEL_MAX_COLS ++ ")"))
  else openpyxl_get_column_letter col_num.

Definition invalid_chars : list ascii :=
  [":"; "\"; "/"; "?"; "*"; "["; "]"]%char.

Definition is_valid_sheet_name (name : string) : bool :=
  if (name =? EmptyString) || (31 <? String.length name)%nat then false
  else negb (existsb (fun char => contains_char char name) invalid_chars).

Definition sanitize_sheet_name (name : string) : string :=
  if name =? EmptyString then "Sheet1"
  else
    let name :=
      fold_left (fun name char => replace_char char "_" name)
                invalid_chars name in
    let name := slice_to 31 name in
    if name =? EmptyString then "Sheet1" else name.

End Address.

(* ================================================================== *)
(** * Formula security and validation *)
(* ================================================================== *)

Module Formula.
Import Py Re.

(** [\w] *)
Definition is_word : ascii -> bool := is_ident.

Definition open_paren : ascii -> bool := exactly "(".

(** The table of [dangerous_patterns], in the order of the source:
    [WEBSERVICE\s*\(], [HYPERLINK\s*\(], [CALL\s*\(], [\[[\w\s]+\.xl] and
    [INDIRECT\s*\(.*HYPERLINK], with [\s], [\w] and the folding of case
    as they are on ASCII texts: what these matchers find in a text the
    patterns find too, and on an ASCII text they find the same. *)
Definition dangerous_patterns : list (matcher * string) :=
  [ (lit_ci "WEBSERVICE" (star is_space (chr open_paren accept)),
     "WEBSERVICE function (network access)");
    (lit_ci "HYPERLINK" (star is_space (chr open_paren accept)),
     "HYPERLINK function (potential phishing)");
    (lit_ci "CALL" (star is_space (chr open_paren accept)),
     "CALL function (external DLL execution)");
    (chr (exactly "[")
         (plus (fun c => is_word c || is_space c)
               (chr (exactly ".") (lit_ci "xl" accept))),
     "External workbook reference");
    (lit_ci "INDIRECT"
            (star is_space
                  (chr open_paren (star dot (lit_ci "HYPERLINK" accept)))),
     "INDIRECT+HYPERLINK combination (security risk)") ].

Definition sanitize_formula (formula : string) (allow_external : bool)
  : string * list string :=
  let warnings : list string := [] in
  let formula :=
    if negb (startswith "=" formula) then "=" ++ formula else formula in
  let warnings :=
    fold_left
      (fun warnings '(pattern, warning) =>
         if search pattern formula then list_append warnings warning
         else warnings)
      dangerous_patterns warnings in
  let warnings :=
    if (len formula >? MAX_FORMULA_LENGTH)%Z then
      list_append warnings
        ("Formula exceeds recommended length ("
           ++ str_of_int (len formula) ++ " chars)")
    else warnings in
  let nesting := (count_char "(" formula - count_char ")" formula)%Z in
  let warnings :=
    if (Z.abs nesting >? MAX_FORMULA_NESTING)%Z then
      list_append warnings
        ("Formula nesting depth suspicious ("
           ++ str_of_int nesting ++ ")")
    else warnings in
  (formula, warnings).

(** The pattern ['([^']+)'!] tried at one position: a quote, the longest
    run of characters other than a quote, a quote and an exclamation
    mark. *)
Definition quoted_ref_at (s : string) : option (string * nat) :=
  match s with
  | EmptyString => None
  | String c rest =>
      if Ascii.eqb c "'" then
        let '(name, after) := span (fun c => negb (Ascii.eqb c "'")) rest in
        if negb (name =? EmptyString) && startswith "'!" after
        then Some (name, String.length name + 3)
        else None
      else None
  end.

(** The pattern [([A-Za-z0-9_]+)!] tried at one position: the longest run
    of identifier characters and an exclamation mark. *)
Definition bare_ref_at (s : string) : option (string * nat) :=
  let '(name, after) := span is_ident s in
  if negb (name =? EmptyString) && startswith "!" after
  then Some (name, String.length name + 1)
  else None.

(** [sheet_ref in existing_sheets] *)
Definition mem (x : string) (l : list string) : bool :=
  existsb (String.eqb x) l.

Fixpoint check_sheet_refs (sheet_refs existing_sheets : list string)
  : bool * option string :=
  match sheet_refs with
  | [] => (true, None)
  | sheet_ref :: rest =>
      if negb (mem sheet_ref existing_sheets) then
        (false,
         Some ("Referenced sheet '" ++ sheet_ref ++ "' does not exist"))
      else check_sheet_refs rest existing_sheets
  end.

(** [list(set(xs))] lists each element of [xs] once, in an order the
    language does not fix; [set_order] stands for that listing. *)
Definition validate_formula_references
           (set_order : list string -> list string)
           (formula : string) (existing_sheets : list string)
  : bool * option string :=
  if formula =? EmptyString then
    (false, Some "Formula must be a non-empty string")
  else
    let sheet_refs := findall quoted_ref_at 0 formula in
    let sheet_refs := (sheet_refs ++ findall bare_ref_at 0 formula)%list in
    let sheet_refs := set_order sheet_refs in
    check_sheet_refs sheet_refs existing_sheets.

End Formula.

(* ================================================================== *)
(** * Workbooks *)
(* ================================================================== *)

Module Workbook.
Import Py.
Local Open Scope result_scope.

(** What a cell may hold.  [PyObject] stands for any other object (a
    float, a date, an array formula): all the core asks of it is its truth
    value and its [str()]. *)
Inductive pyvalue : Type :=
| PyNone
| PyStr (s : string)
| PyInt (n : Z)
| PyBool (b : bool)
| PyObject (truth : bool) (text : string).

(** [bool(v)] *)
Definition truthy (v : pyvalue) : bool :=
  match v with
  | PyNone => false
  | PyStr s => negb (s =? EmptyString)
  | PyInt n => negb (n =? 0)%Z
  | PyBool b => b
  | PyObject truth _ => truth
  end.

(** [str(v)] *)
Definition str (v : pyvalue) : string :=
  match v with
  | PyNone => "None"
  | PyStr s => s
  | PyInt n => str_of_int n
  | PyBool true => "True"
  | PyBool false => "False"
  | PyObject _ text => text
  end.

(** Modelled from the spec: the workbook abstraction (sheets, rows, cells)
    belongs to a library outside the repository.  A cell is the three
    attributes the core reads of it: its coordinate, its data type (['f']
    for a formula) and its value. *)
Record cell : Type := Cell {
  coordinate : string;
  data_type : string;
  value : pyvalue
}.

(** Modelled from the spec: the grid iteration of the library.  A
    worksheet is what [ws.iter_rows()] goes through: its rows from the
    first to the last, each with its cells from the first column on. *)
Definition worksheet := list (list cell).

(** Modelled from the spec: the ordered list of named sheets of the
    library.  A workbook is its sheets, title first, in their declared
    order. *)
Definition workbook := list (string * worksheet).

Definition sheetnames (wb : workbook) : list string := map fst wb.

(** Modelled from the spec: the lookup of a sheet by name, [wb[name]], of
    the library: the first sheet with that title, [KeyError] when there is
    none. *)
Fixpoint getitem (wb : workbook) (name : string) : result worksheet :=
  match wb with
  | [] => Raise (KeyError ("Worksheet " ++ name ++ " does not exist."))
  | (title, ws) :: rest =>
      if title =? name then Ok ws else getitem rest name
  end.

(** Modelled from the spec: the cell write of the library changes the
    sheet in place; this is the workbook once the cells of [wb[name]] were
    assigned. *)
Fixpoint setitem (wb : workbook) (name : string) (ws' : worksheet)
  : workbook :=
  match wb with
  | [] => []
  | (title, ws) :: rest =>
      if title =? name then (title, ws') :: rest
      else (title, ws) :: setitem rest name ws'
  end.

(** Modelled from the spec: the cell write of the library, [cell.value = v]
    for a text [v].  The cell takes the value, and its type becomes formula
    when the text starts with [=] and goes on, plain text otherwise. *)
Definition set_str_value (c : cell) (v : string) : cell :=
  {| coordinate := coordinate c;
     data_type :=
       if (1 <? String.length v)%nat && startswith "=" v then "f" else "s";
     value := PyStr v |}.

(** ** Validation reports *)

Record bucket : Type := Bucket {
  count : Z;
  locations : list string
}.

(** The dictionary built by a scan, keys in insertion order. *)
Definition buckets := list (string * bucket).

Fixpoint dict_get (d : buckets) (k : string) : option bucket :=
  match d with
  | [] => None
  | (k', b) :: rest => if k' =? k then Some b else dict_get rest k
  end.

(** [d[k] = b] *)
Fixpoint dict_set (d : buckets) (k : string) (b : bucket) : buckets :=
  match d with
  | [] => [(k, b)]
  | (k', b') :: rest =>
      if k' =? k then (k', b) :: rest else (k', b') :: dict_set rest k b
  end.

(** The entry [d[k]] changed in place. *)
Fixpoint dict_update (d : buckets) (k : string) (f : bucket -> bucket)
  : buckets :=
  match d with
  | [] => []
  | (k', b') :: rest =>
      if k' =? k then (k', f b') :: rest
      else (k', b') :: dict_update rest k f
  end.

(** The [error_summary] of a report: the buckets of a scan, or the
    [{'error': {'message': ...}}] of a failure. *)
Inductive summary : Type :=
| Errors (d : buckets)
| Failure (message : string).

Record ValidationReport : Type := Report {
  status : string;
  total_errors : Z;
  total_formulas : Z;
  error_summary : summary;
  validation_method : string
}.

Definition ValidationReport_success (formulas : Z) (method : string)
  : ValidationReport :=
  {| status := "success";
     total_errors := 0;
     total_formulas := formulas;
     error_summary := Errors [];
     validation_method := method |}.

(** ** The scan loop of [validate_workbook_python] *)

(** [str(cell.value) if cell.value else ""] *)
Definition cell_value (c : cell) : string :=
  if truthy (value c) then str (value c) else "".

Definition is_error_value (v : string) : bool :=
  existsb (String.eqb v) ERROR_VALUES.

Definition scan_cell (sheet_name : string) (st : buckets * Z) (c : cell)
  : buckets * Z :=
  let '(error_summary, total_formulas) := st in
  if data_type c =? "f" then
    let total_formulas := (total_formulas + 1)%Z in
    let cell_value := cell_value c in
    if is_error_value cell_value then
      let error_type := cell_value in
      let error_summary :=
        match dict_get error_summary error_type with
        | None => dict_set error_summary error_type (Bucket 0 [])
        | Some _ => error_summary
        end in
      let error_summary :=
        dict_update error_summary error_type
          (fun b =>
             {| count := (count b + 1)%Z;
                locations :=
                  list_append (locations b)
                              (sheet_name ++ "!" ++ coordinate c) |}) in
      (error_summary, total_formulas)
    else (error_summary, total_formulas)
  else (error_summary, total_formulas).

Definition scan_sheet (sheet_name : string) (ws : worksheet)
           (st : buckets * Z) : buckets * Z :=
  fold_left (fun st row => fold_left (scan_cell sheet_name) row st) ws st.

Fixpoint scan_sheets (wb : workbook) (names : list string)
         (st : buckets * Z) : result (buckets * Z) :=
  match names with
  | [] => Ok st
  | sheet_name :: rest =>
      ws <- getitem wb sheet_name ;;
      scan_sheets wb rest (scan_sheet sheet_name ws st)
  end.

(** [sum(e['count'] for e in error_summary.values())] *)
Definition sum_counts (d : buckets) : Z :=
  fold_left (fun acc kb => (acc + count (snd kb))%Z) d 0%Z.

(** The body of the [try] block once the workbook is loaded. *)
Definition scan_workbook (wb : workbook) : result ValidationReport :=
  st <- scan_sheets wb (sheetnames wb) ([], 0%Z) ;;
  let '(error_summary, total_formulas) := st in
  match error_summary with
  | _ :: _ =>
      Ok {| status := "errors_found";
            total_errors := sum_counts error_summary;
            total_formulas := total_formulas;
            error_summary := Errors error_summary;
            validation_method := "python_fallback" |}
  | [] => Ok (ValidationReport_success total_formulas "python_fallback")
  end.

(** ** The repair loop of [repair_errors] *)

Definition repair_cell (counts : Z * Z) (c : cell) : cell * (Z * Z) :=
  let '(div0_count, div0_success) := counts in
  match value c with
  | PyStr formula =>
      if (data_type c =? "f") && negb (contains "IFERROR" (upper formula))
      then
        let formula :=
          if startswith "=" formula then slice_from_1 formula
          else formula in
        (set_str_value c ("=IFERROR(" ++ formula ++ ", 0)"),
         ((div0_count + 1)%Z, (div0_success + 1)%Z))
      else (c, counts)
  | _ => (c, counts)
  end.

(** A loop that changes the elements of a list in place while it
    accumulates. *)
Fixpoint map_accum {A S : Type} (f : S -> A -> A * S) (s : S) (l : list A)
  : list A * S :=
  match l with
  | [] => ([], s)
  | a :: rest =>
      let '(a', s') := f s a in
      let '(rest', s'') := map_accum f s' rest in
      (a' :: rest', s'')
  end.

Definition repair_sheet (ws : worksheet) (counts : Z * Z)
  : worksheet * (Z * Z) :=
  map_accum (fun counts row => map_accum repair_cell counts row) counts ws.

Fixpoint repair_sheets (wb : workbook) (names : list string)
         (counts : Z * Z) : result (workbook * (Z * Z)) :=
  match names with
  | [] => Ok (wb, counts)
  | sheet_name :: rest =>
      ws <- getitem wb sheet_name ;;
      let '(ws', counts') := repair_sheet ws counts in
      repair_sheets (setitem wb sheet_name ws') rest counts'
  end.

Record detail : Type := Detail {
  attempted : Z;
  successful : Z;
  method : string
}.

Record repair_results : Type := Results {
  repairs_attempted : Z;
  repairs_successful : Z;
  backup_file : option string;
  details : list (string * detail);
  error : option string
}.

Definition with_error (results : repair_results) (e : exception)
  : repair_results :=
  {| repairs_attempted := repairs_attempted results;
     repairs_successful := repairs_successful results;
     backup_file := backup_file results;
     details := details results;
     error := Some (str_of_exception e) |}.

(** [error_types is None or "#DIV/0!" in error_types] *)
Definition selects_div0 (error_types : option (list string)) : bool :=
  match error_types with
  | None => true
  | Some l => existsb (String.eqb "#DIV/0!") l
  end.

(** The part of the [try] block between loading and saving. *)
Definition repair_loaded (wb : workbook) (error_types : option (list string))
           (results : repair_results)
  : result (workbook * repair_results) :=
  if selects_div0 error_types then
    r <- repair_sheets wb (sheetnames wb) (0%Z, 0%Z) ;;
    let '(wb', (div0_count, div0_success)) := r in
    Ok (wb',
        {| repairs_attempted := (repairs_attempted results + div0_count)%Z;
           repairs_successful :=
             (repairs_successful results + div0_success)%Z;
           backup_file := backup_file results;
           details :=
             list_append (details results)
               ("#DIV/0!",
                {| attempted := div0_count;
                   successful := div0_success;
                   method := "IFERROR wrapper" |});
           error := error results |})
  else Ok (wb, results).

End Workbook.

(* ================================================================== *)
(** * Files *)
(* ================================================================== *)

Module Files.
Import Py Workbook.
Local Open Scope result_scope.

(** A path: the directory, written as it stands in front of the name
    ([/work/], [/], or nothing for the current directory), and the name of
    the file in it. *)
Record path : Type := Path {
  parent : string;
  name : string
}.

Definition path_eqb (p q : path) : bool :=
  (parent p =? parent q) && (name p =? name q).

(** [str(p)] *)
Definition str_of_path (p : path) : string := parent p ++ name p.

(** [name.rfind('.')] *)
Fixpoint rfind_dot (s : string) : option nat :=
  match s with
  | EmptyString => None
  | String c s' =>
      match rfind_dot s' with
      | Some i => Some (S i)
      | None => if Ascii.eqb c "." then Some 0%nat else None
      end
  end.

(** A final component [.ext] counts as a suffix when the dot is neither
    the first nor the last character of the name. *)
Definition suffix_index (s : string) : option nat :=
  match rfind_dot s with
  | Some i =>
      if (0 <? i)%nat && (i <? String.length s - 1)%nat then Some i
      else None
  | None => None
  end.

(** [p.stem] *)
Definition stem (p : path) : string :=
  match suffix_index (name p) with
  | Some i => substring 0 i (name p)
  | None => name p
  end.

(** [p.suffix] *)
Definition suffix (p : path) : string :=
  match suffix_index (name p) with
  | Some i => substring i (String.length (name p) - i) (name p)
  | None => EmptyString
  end.

(** Modelled from the spec: load-from-path, save-to-path and the backup
    copy are collaborators outside the repository.  A path holds a workbook
    that loads, or content on which [load_workbook] raises. *)
Inductive file : Type :=
| Loads (wb : workbook)
| Corrupt (e : exception).

(** Modelled from the spec: the environment the collaborators act on.  It
    is the files, the paths that can be written, and what running
    [soffice --version] gives ([None] when the program is missing or does
    not answer in time, its return code otherwise). *)
Record world : Type := World {
  files : path -> option file;
  writable : path -> bool;
  soffice : option Z
}.

Definition write (w : world) (p : path) (f : file) : world :=
  {| files := fun q => if path_eqb q p then Some f else files w q;
     writable := writable w;
     soffice := soffice w |}.

(** [filepath.exists()] *)
Definition path_exists (w : world) (p : path) : bool :=
  match files w p with Some _ => true | None => false end.

(** Modelled from the spec: load-from-path of the library.  It gives the
    workbook a file holds and raises on a missing or unreadable file. *)
Definition load_workbook (w : world) (p : path) : result workbook :=
  match files w p with
  | None =>
      Raise (FileNotFoundError
               ("No such file or directory: " ++ str_of_path p))
  | Some (Corrupt e) => Raise e
  | Some (Loads wb) => Ok wb
  end.

(** Modelled from the spec: save-to-path of the library, [wb.save(p)].  It
    replaces the content of the path, or raises when the path cannot be
    written. *)
Definition save (w : world) (p : path) (wb : workbook) : result world :=
  if writable w p then Ok (write w p (Loads wb))
  else Raise (OSError ("Permission denied: " ++ str_of_path p)).

(** Modelled from the spec: the backup collaborator, [shutil.copy2(src,
    dst)].  It gives [dst] the content of [src], or raises when there is no
    [src] or [dst] cannot be written. *)
Definition copy2 (w : world) (src dst : path) : result world :=
  match files w src with
  | None =>
      Raise (FileNotFoundError
               ("No such file or directory: " ++ str_of_path src))
  | Some f =>
      if writable w dst then Ok (write w dst f)
      else Raise (OSError ("Permission denied: " ++ str_of_path dst))
  end.

Definition validate_workbook_python (w : world) (filepath : path)
  : ValidationReport :=
  match (wb <- load_workbook w filepath ;; scan_workbook wb) with
  | Ok report => report
  | Raise e =>
      {| status := "error";
         total_errors := 0;
         total_formulas := 0;
         error_summary := Failure (str_of_exception e);
         validation_method := "python_fallback" |}
  end.

Definition check_libreoffice_available (w : world) : bool :=
  match soffice w with
  | Some returncode => (returncode =? 0)%Z
  | None => false
  end.

Definition validate_workbook (w : world) (filepath : path)
           (method : string) (timeout : Z) : result ValidationReport :=
  if negb (path_exists w filepath) then
    Raise (FileNotFoundError ("File not found: " ++ str_of_path filepath))
  else
    let method :=
      if method =? "auto" then
        if check_libreoffice_available w then "libreoffice" else "python"
      else method in
    if method =? "libreoffice" then
      Ok (validate_workbook_python w filepath)
    else if method =? "python" then
      Ok (validate_workbook_python w filepath)
    else Raise (ValueError ("Unknown validation method: " ++ method)).

(** The sibling path of the backup; [now] is the current time written as
    [%Y%m%d_%H%M%S]. *)
Definition backup_path_of (filepath : path) (now : string) : path :=
  {| parent := parent filepath;
     name := stem filepath ++ "_backup_" ++ now ++ suffix filepath |}.

(** [repair_errors]: the outcome of the call and the files after it. *)
Definition repair_errors (w : world) (now : string) (filepath : path)
           (error_types : option (list string)) (backup : bool)
  : result repair_results * world :=
  let backed_up :=
    if backup then
      let backup_path := backup_path_of filepath now in
      w' <- copy2 w filepath backup_path ;;
      Ok (w', Some (str_of_path backup_path))
    else Ok (w, None) in
  match backed_up with
  | Raise e => (Raise e, w)
  | Ok (w1, backup_file) =>
      let results :=
        {| repairs_attempted := 0;
           repairs_successful := 0;
           backup_file := backup_file;
           details := [];
           error := None |} in
      match load_workbook w1 filepath with
      | Raise e => (Ok (with_error results e), w1)
      | Ok wb =>
          match repair_loaded wb error_types results with
          | Raise e => (Ok (with_error results e), w1)
          | Ok (wb', results') =>
              match save w1 filepath wb' with
              | Raise e => (Ok (with_error results' e), w1)
              | Ok w2 => (Ok results', w2)
              end
          end
      end
  end.

End Files.

(* ================================================================== *)
(** * Ranges *)
(* ================================================================== *)

Module Ranges.
Import Py Address.
Local Open Scope result_scope.

(** [s.split(sep)] for a one-character separator: the texts between the
    separators, at least one. *)
Fixpoint split (sep : ascii) (s : string) : list string :=
  match s with
  | EmptyString => [EmptyString]
  | String c s' =>
      if Ascii.eqb c sep then EmptyString :: split sep s'
      else
        match split sep s' with
        | head :: tail => String c head :: tail
        | [] => [String c EmptyString]
        end
  end.

(** [s.split(sep, 1)]: the text before the first separator and the text
    after it, or the whole text alone when there is no separator. *)
Fixpoint split_once (sep : ascii) (s : string) : list string :=
  match s with
  | EmptyString => [EmptyString]
  | String c s' =>
      if Ascii.eqb c sep then [EmptyString; s']
      else
        match split_once sep s' with
        | head :: tail => String c head :: tail
        | [] => [String c EmptyString]
        end
  end.

(** [a, b = parts]: the unpacking of a list into two names. *)
Definition unpack2 (parts : list string) : result (string * string) :=
  match parts with
  | [a; b] => Ok (a, b)
  | _ =>
      Raise (ValueError
               (if (List.length parts <? 2)%nat
                then "not enough values to unpack (expected 2, got "
                       ++ str_of_int (Z.of_nat (List.length parts)) ++ ")"
                else "too many values to unpack (expected 2)"))
  end.

Definition is_valid_range_reference (range_ref : string) : bool :=
  if range_ref =? EmptyString then false
  else
    let qualified :=
      if contains_char "!" range_ref then
        let parts := split "!" range_ref in
        if negb (List.length parts =? 2)%nat then None
        else Some (nth 1 parts EmptyString)
      else Some range_ref in
    match qualified with
    | None => false
    | Some range_ref =>
        if negb (contains_char ":" range_ref) then
          is_valid_cell_reference range_ref
        else
          let parts := split ":" range_ref in
          if negb (List.length parts =? 2)%nat then false
          else is_valid_cell_reference (nth 0 parts EmptyString)
               && is_valid_cell_reference (nth 1 parts EmptyString)
    end.

Definition parse_range (range_ref : string) : result (string * string) :=
  range_ref <-
    (if contains_char "!" range_ref then
       parts <- unpack2 (split_once "!" range_ref) ;;
       Ok (snd parts)
     else Ok range_ref) ;;
  if negb (contains_char ":" range_ref) then Ok (range_ref, range_ref)
  else unpack2 (split_once ":" range_ref).

End Ranges.

(* ================================================================== *)
(** * Reading a report *)
(* ================================================================== *)

Module Reports.
Import Py Workbook.

(** [report.has_errors()] *)
Definition has_errors (r : ValidationReport) : bool :=
  (total_errors r >? 0)%Z.

(** [report.get_error_locations(error_type)]: the entry of a failure holds
    a message and no location. *)
Definition get_error_locations (r : ValidationReport)
           (error_type : option string) : list string :=
  match error_summary r with
  | Errors d =>
      fold_left
        (fun locations_so_far kb =>
           let '(err_type, details) := kb in
           if match error_type with
              | None => true
              | Some wanted => err_type =? wanted
              end
           then (locations_so_far ++ locations details)%list
           else locations_so_far)
        d []
  | Failure _ => []
  end.

End Reports.

(* ================================================================== *)
(** * The command-line tools *)
(* ================================================================== *)

Module Tools.
Import Py Workbook Files Reports.
Local Open Scope result_scope.

(** The dictionary returned by [repair_workbook_errors], its optional keys
    as options; the keys merged from the result of [repair_errors] are kept
    together under [repair]. *)
Record repair_report : Type := RepairReport {
  rr_file : string;
  rr_dry_run : bool;
  rr_pre_validation : option ValidationReport;
  rr_status : string;
  rr_message : string;
  rr_errors_that_would_be_repaired : option Z;
  rr_repair : option repair_results;
  rr_post_validation : option ValidationReport;
  rr_remaining_errors : option Z
}.

(** [repair_workbook_errors] of [tools/excel_repair_errors.py]: the outcome
    of the call and the files after it. *)
Definition repair_workbook_errors (w : world) (now : string) (filepath : path)
           (validate_first backup : bool)
           (error_types : option (list string)) (dry_run : bool)
  : result repair_report * world :=
  if negb (path_exists w filepath) then
    (Raise (FileNotFoundError ("File not found: " ++ str_of_path filepath)),
     w)
  else
    let validated :=
      if validate_first then
        pre <- validate_workbook w filepath "auto" 30 ;; Ok (Some pre)
      else Ok None in
    match validated with
    | Raise e => (Raise e, w)
    | Ok pre_validation =>
        let no_error_found :=
          match pre_validation with
          | Some pre => negb (has_errors pre)
          | None => false
          end in
        if no_error_found then
          (Ok {| rr_file := str_of_path filepath;
                 rr_dry_run := dry_run;
                 rr_pre_validation := pre_validation;
                 rr_status := "success";
                 rr_message := "No errors found, no repairs needed";
                 rr_errors_that_would_be_repaired := None;
                 rr_repair := None;
                 rr_post_validation := None;
                 rr_remaining_errors := None |},
           w)
        else if dry_run then
          (Ok {| rr_file := str_of_path filepath;
                 rr_dry_run := dry_run;
                 rr_pre_validation := pre_validation;
                 rr_status := "dry_run";
                 rr_message := "Dry run - no changes made";
                 rr_errors_that_would_be_repaired :=
                   option_map total_errors pre_validation;
                 rr_repair := None;
                 rr_post_validation := None;
                 rr_remaining_errors := None |},
           w)
        else
          match repair_errors w now filepath error_types backup with
          | (Raise e, w1) => (Raise e, w1)
          | (Ok repair_result, w1) =>
              match validate_workbook w1 filepath "auto" 30 with
              | Raise e => (Raise e, w1)
              | Ok post_validation =>
                  if (total_errors post_validation =? 0)%Z then
                    (Ok {| rr_file := str_of_path filepath;
                           rr_dry_run := dry_run;
                           rr_pre_validation := pre_validation;
                           rr_status := "success";
                           rr_message := "All errors repaired successfully";
                           rr_errors_that_would_be_repaired := None;
                           rr_repair := Some repair_result;
                           rr_post_validation := Some post_validation;
                           rr_remaining_errors := None |},
                     w1)
                  else
                    (Ok {| rr_file := str_of_path filepath;
                           rr_dry_run := dry_run;
                           rr_pre_validation := pre_validation;
                           rr_status := "partial_success";
                           rr_message :=
                             str_of_int (repairs_successful repair_result)
                             ++ " repairs made, "
                             ++ str_of_int (total_errors post_validation)
                             ++ " errors remain";
                           rr_errors_that_would_be_repaired := None;
                           rr_repair := Some repair_result;
                           rr_post_validation := Some post_validation;
                           rr_remaining_errors :=
                             Some (total_errors post_validation) |},
                     w1)
              end
          end
    end.

End Tools.

Module ValidationTool.
Import Py Workbook Files Reports.
Local Open Scope result_scope.

(** A bucket as the tool shows it; [truncated] tells that the key is
    there, which it only is with the value [True]. *)
Record shown_bucket : Type := ShownBucket {
  shown_count : Z;
  shown_locations : list string;
  truncated : bool
}.

Inductive shown_summary : Type :=
| ShownErrors (d : list (string * shown_bucket))
| ShownFailure (message : string).

(** The dictionary returned by [validate_formulas]. *)
Record formulas_result : Type := FormulasResult {
  fr_status : string;
  fr_total_errors : Z;
  fr_total_formulas : Z;
  fr_error_summary : shown_summary;
  fr_validation_method : string;
  fr_file : string;
  fr_summary : string
}.

(** What the loop over the summary does to one bucket. *)
Definition shorten (detailed : bool) (details : bucket) : shown_bucket :=
  if negb detailed then
    let locations := firstn 5 (locations details) in
    {| shown_count := count details;
       shown_locations := locations;
       truncated := (Z.of_nat (List.length locations) <? count details)%Z |}
  else
    {| shown_count := count details;
       shown_locations := locations details;
       truncated := false |}.

Section ErrorRate.

(** [format_rate errors formulas] stands for the text that
    [f"{errors / formulas * 100:.1f}"] gives: a division of floats
    printed with one decimal. *)
Variable format_rate : Z -> Z -> string.

(** [validate_formulas] of [tools/excel_validate_formulas.py]. *)
Definition validate_formulas (w : world) (filepath : path) (method : string)
           (timeout : Z) (detailed : bool) : result formulas_result :=
  if negb (path_exists w filepath) then
    Raise (FileNotFoundError ("File not found: " ++ str_of_path filepath))
  else
    report <- validate_workbook w filepath method timeout ;;
    let error_summary :=
      match error_summary report with
      | Errors d =>
          ShownErrors
            (map (fun kb => (fst kb, shorten detailed (snd kb))) d)
      | Failure message => ShownFailure message
      end in
    let summary :=
      if has_errors report then
        let error_rate :=
          if (total_formulas report >? 0)%Z
          then format_rate (total_errors report) (total_formulas report)
          else "0.0" in
        str_of_int (total_errors report) ++ " errors found in "
          ++ str_of_int (total_formulas report) ++ " formulas ("
          ++ error_rate ++ "% error rate)"
      else
        "All " ++ str_of_int (total_formulas report)
          ++ " formulas validated successfully" in
    Ok {| fr_status := status report;
          fr_total_errors := total_errors report;
          fr_total_formulas := total_formulas report;
          fr_error_summary := error_summary;
          fr_validation_method := validation_method report;
          fr_file := str_of_path filepath;
          fr_summary := summary |}.

End ErrorRate.

End ValidationTool.

(* ================================================================== *)
(** * The agent *)
(* ================================================================== *)

Module Agent.
Import Py Address Formula Workbook Ranges.
Local Open Scope result_scope.

Definition STYLE_FORMULA : string := "FinancialFormula".

(** [s.replace(old, new)] for an [old] that is not empty: the occurrences
    of [old] from the left, none overlapping another. *)
Fixpoint replace_from (old new : string) (skip : nat) (s : string) : string :=
  match s with
  | EmptyString => EmptyString
  | String c s' =>
      match skip with
      | S k => replace_from old new k s'
      | O =>
          if startswith old s
          then new ++ replace_from old new (String.length old - 1) s'
          else String c (replace_from old new 0 s')
      end
  end.

Definition str_replace (old new s : string) : string :=
  replace_from old new 0 s.

(** [sep.join(l)] *)
Fixpoint join (sep : string) (l : list string) : string :=
  match l with
  | [] => EmptyString
  | [x] => x
  | x :: rest => x ++ sep ++ join sep rest
  end.

(** [range(start, stop)] *)
Definition range (start stop : Z) : list Z :=
  map (fun i => (start + Z.of_nat i)%Z) (seq 0 (Z.to_nat (stop - start))).

(** The calls the agent makes on the workbook library:
    [wb.create_sheet(name, index)], [ws[cell]], the assignments to the
    [value], [style] and [number_format] of the cell so obtained,
    [ws.cell(row=, column=, value=)], and the assignment to the
    [number_format] of the cell that call gives. *)
Inductive call : Type :=
| CreateSheet (name : string) (index : option Z)
| GetCell (sheet ref : string)
| SetValue (sheet ref : string) (v : pyvalue)
| SetStyle (sheet ref style : string)
| SetNumberFormat (sheet ref number_format : string)
| CellAt (sheet : string) (row column : Z) (v : option pyvalue)
| SetNumberFormatAt (sheet : string) (row column : Z) (number_format : string).

(** The workbook library and the language facilities the agent relies on
    are collaborators outside the repository; nothing is assumed of them.
    [book] is the workbook object with all it holds; [perform] is what a
    call does: the exception it raises, if any, and the workbook after it;
    [repr_names] is the text of a list of names inside a message; and
    [set_order] is the order in which [list(set(xs))] lists [xs]. *)
Record library : Type := Library {
  book : Type;
  library_exception : Type;
  sheetnames_of : book -> list string;
  named_styles_of : book -> list string;
  perform : call -> book -> option library_exception * book;
  repr_names : list string -> string;
  set_order : list string -> list string
}.

Declare Scope agent_scope.

Section Methods.

Variable L : library.

Inductive agent_exception : Type :=
| ExcelAgentError (message : string)
| FormulaError (message : string)
| SecurityError (message : string)
| AttributeError (message : string)
| Builtin (e : exception)
| FromLibrary (e : library_exception L).

Inductive outcome (A : Type) : Type :=
| Returns (a : A)
| Raises (e : agent_exception).
Arguments Returns {A} a.
Arguments Raises {A} e.

(** A method of the agent: from [self.wb] to what the call gives and
    [self.wb] after it. *)
Definition agent (A : Type) : Type :=
  option (book L) -> outcome A * option (book L).

Definition ret {A : Type} (a : A) : agent A := fun wb => (Returns a, wb).

Definition raise {A : Type} (e : agent_exception) : agent A :=
  fun wb => (Raises e, wb).

Definition and_then {A B : Type} (m : agent A) (k : A -> agent B) : agent B :=
  fun wb =>
    match m wb with
    | (Returns a, wb') => k a wb'
    | (Raises e, wb') => (Raises e, wb')
    end.

Definition lift {A : Type} (r : result A) : agent A :=
  match r with
  | Ok a => ret a
  | Raise e => raise (Builtin e)
  end.

(** A call on the library.  None is made without a workbook: [get_sheet]
    has raised before. *)
Definition do_call (c : call) : agent unit :=
  fun wb =>
    match wb with
    | Some b =>
        match perform L c b with
        | (None, b') => (Returns tt, Some b')
        | (Some e, b') => (Raises (FromLibrary e), Some b')
        end
    | None => (Raises (ExcelAgentError "No workbook loaded"), None)
    end.

(** [self.wb.sheetnames] *)
Definition sheetnames : agent (list string) :=
  fun wb =>
    match wb with
    | Some b => (Returns (sheetnames_of L b), wb)
    | None =>
        (Raises (AttributeError
                   "'NoneType' object has no attribute 'sheetnames'"), wb)
    end.

(** [self.wb.named_styles] *)
Definition named_styles : agent (list string) :=
  fun wb =>
    match wb with
    | Some b => (Returns (named_styles_of L b), wb)
    | None =>
        (Raises (AttributeError
                   "'NoneType' object has no attribute 'named_styles'"), wb)
    end.

Notation "x <- m ;; k" := (and_then m (fun x => k))
  (at level 61, m at next level, right associativity) : agent_scope.
Local Open Scope agent_scope.

(** The sheet is handed on by its name. *)
Definition get_sheet (name : string) : agent string :=
  fun wb =>
    match wb with
    | None => (Raises (ExcelAgentError "No workbook loaded"), wb)
    | Some b =>
        if negb (mem name (sheetnames_of L b)) then
          (Raises (Builtin
                     (KeyError ("Sheet '" ++ name ++ "' not found. Available: "
                                  ++ repr_names L (sheetnames_of L b)))),
           wb)
        else (Returns name, wb)
    end.

(** The new sheet is handed on by its name, like any sheet. *)
Definition add_sheet (name : string) (index : option Z) : agent string :=
  fun wb =>
    match wb with
    | None => (Raises (ExcelAgentError "No workbook loaded"), wb)
    | Some b =>
        if negb (is_valid_sheet_name name) then
          (Raises (Builtin (ValueError ("Invalid sheet name: " ++ name))), wb)
        else if mem name (sheetnames_of L b) then
          (Raises (Builtin (ValueError
                              ("Sheet '" ++ name ++ "' already exists"))),
           wb)
        else
          (_ <- do_call (CreateSheet name index) ;; ret name) wb
    end.

Definition set_cell_value (sheet cell : string) (value : pyvalue)
           (style number_format : option string) : agent unit :=
  ws <- get_sheet sheet ;;
  _ <- do_call (GetCell ws cell) ;;
  _ <- do_call (SetValue ws cell value) ;;
  _ <- match style with
       | Some style =>
           if negb (style =? EmptyString) then
             styles <- named_styles ;;
             if mem style styles then do_call (SetStyle ws cell style)
             else ret tt
           else ret tt
       | None => ret tt
       end ;;
  match number_format with
  | Some number_format =>
      if negb (number_format =? EmptyString)
      then do_call (SetNumberFormat ws cell number_format)
      else ret tt
  | None => ret tt
  end.

(** [f"{error}"] for an optional text. *)
Definition str_of_optional (error : option string) : string :=
  match error with
  | Some message => message
  | None => "None"
  end.

Definition add_formula (sheet cell formula : string)
           (validate_refs allow_external : bool) : agent unit :=
  let '(formula, warnings) := sanitize_formula formula allow_external in
  if negb (match warnings with [] => true | _ :: _ => false end)
     && negb allow_external
  then
    raise (SecurityError
             ("Formula contains potentially unsafe operations: "
                ++ join "; " warnings))
  else
    _ <- (if validate_refs then
            names <- sheetnames ;;
            let '(is_valid, error) :=
              validate_formula_references (set_order L) formula names in
            if negb is_valid then
              raise (FormulaError
                       ("Invalid reference: " ++ str_of_optional error))
            else ret tt
          else ret tt) ;;
    set_cell_value sheet cell (PyStr formula) (Some STYLE_FORMULA) None.

(** A [for] loop that counts: the body gets the count and gives the new
    one, and an exception ends the loop. *)
Fixpoint for_each {A : Type} (items : list A) (body : A -> Z -> agent Z)
         (count : Z) : agent Z :=
  match items with
  | [] => ret count
  | item :: rest =>
      count <- body item count ;; for_each rest body count
  end.

Definition apply_range_formula (sheet range_ref formula_template : string)
  : agent Z :=
  ws <- get_sheet sheet ;;
  cells <- lift (parse_range range_ref) ;;
  let '(start_cell, end_cell) := cells in
  start <- lift (get_cell_coordinates start_cell) ;;
  let '(start_row, start_col) := start in
  stop <- lift (get_cell_coordinates end_cell) ;;
  let '(end_row, end_col) := stop in
  for_each (range start_row (end_row + 1))
    (fun row count =>
       for_each (range start_col (end_col + 1))
         (fun col count =>
            let formula :=
              str_replace "{row}" (str_of_int row) formula_template in
            letter <- lift (get_column_letter col) ;;
            let formula := str_replace "{col}" letter formula in
            letter <- lift (get_column_letter col) ;;
            let formula :=
              str_replace "{cell}" (letter ++ str_of_int row) formula in
            let formula :=
              if negb (startswith "=" formula) then "=" ++ formula
              else formula in
            _ <- do_call (CellAt ws row col (Some (PyStr formula))) ;;
            ret (count + 1)%Z)
         count)
    0%Z.

Definition format_range (sheet range_ref number_format : string) : agent Z :=
  ws <- get_sheet sheet ;;
  cells <- lift (parse_range range_ref) ;;
  let '(start_cell, end_cell) := cells in
  start <- lift (get_cell_coordinates start_cell) ;;
  let '(start_row, start_col) := start in
  stop <- lift (get_cell_coordinates end_cell) ;;
  let '(end_row, end_col) := stop in
  for_each (range start_row (end_row + 1))
    (fun row count =>
       for_each (range start_col (end_col + 1))
         (fun col count =>
            _ <- do_call (CellAt ws row col None) ;;
            _ <- do_call (SetNumberFormatAt ws row col number_format) ;;
            ret (count + 1)%Z)
         count)
    0%Z.

End Methods.

Arguments Returns {L A} a.
Arguments Raises {L A} e.
Arguments ExcelAgentError {L} message.
Arguments FormulaError {L} message.
Arguments SecurityError {L} message.
Arguments AttributeError {L} message.
Arguments Builtin {L} e.
Arguments FromLibrary {L} e.

End Agent.

(* ================================================================== *)
(** * Vocabulary of the statements *)
(* ================================================================== *)

Import Py Address Formula Workbook Files.

(** What the specification says of one character: a forbidden character
    becomes an underscore, any other is kept. *)
Definition scrub_char (c : ascii) : ascii :=
  if existsb (Ascii.eqb c) invalid_chars then "_"%char else c.

Fixpoint map_chars (f : ascii -> ascii) (s : string) : string :=
  match s with
  | EmptyString => EmptyString
  | String c s' => String (f c) (map_chars f s')
  end.

(** The grammar of a cell text as the specification words it: one to three
    letters of either case, then one to seven digits, and nothing else. *)
Definition is_letter (c : ascii) : bool := is_upper c || is_lower c.

Definition cell_grammar (text : string) : bool :=
  let '(letters, rest) := span is_letter text in
  let '(digits, tail) := span is_digit rest in
  (1 <=? String.length letters)%nat && (String.length letters <=? 3)%nat
  && (1 <=? String.length digits)%nat && (String.length digits <=? 7)%nat
  && (tail =? "").

(** The round trip of one column number, as a boolean test. *)
Definition column_round_trip (n : Z) : bool :=
  match get_column_letter n with
  | Ok letters =>
      match get_cell_coordinates (letters ++ "1") with
      | Ok (row, col) => ((row =? 1) && (col =? n))%Z
      | Raise _ => false
      end
  | Raise _ => false
  end.

(** The test on [count] consecutive numbers from [start] on. *)
Fixpoint round_trips_from (count : nat) (start : Z) : bool :=
  match count with
  | O => true
  | S count' =>
      column_round_trip start && round_trips_from count' (start + 1)%Z
  end.

(** The names a formula refers to: what the two patterns find. *)
Definition extracted_names (formula : string) : list string :=
  (Re.findall quoted_ref_at 0 formula
     ++ Re.findall bare_ref_at 0 formula)%list.

Definition missing_sheet_message (name : string) : string :=
  "Referenced sheet '" ++ name ++ "' does not exist".

(** The cells of a workbook in the order of the scan, each with the title
    of its sheet: sheet after sheet as declared, row after row, and from
    the first column on within a row. *)
Definition located_cells (wb : workbook) : list (string * cell) :=
  flat_map (fun sheet => map (pair (fst sheet)) (List.concat (snd sheet))) wb.

Definition is_formula (lc : string * cell) : bool :=
  data_type (snd lc) =? "f".

(** The text [SheetName!CellRef] of a cell. *)
Definition location (lc : string * cell) : string :=
  fst lc ++ "!" ++ coordinate (snd lc).

(** A cell of type ['f'] whose value, read as the scan reads it, is exactly
    [sentinel]. *)
Definition has_error (sentinel : string) (lc : string * cell) : bool :=
  is_formula lc && (cell_value (snd lc) =? sentinel).

(** A cell of type ['f'] whose value, read as the scan reads it, is one of
    the sentinels. *)
Definition has_any_error (lc : string * cell) : bool :=
  is_formula lc && is_error_value (cell_value (snd lc)).

Definition error_locations (sentinel : string) (cells : list (string * cell))
  : list string :=
  map location (filter (has_error sentinel) cells).

(** The bucket that holds a list of locations: none when it is empty. *)
Definition bucket_of_locations (l : list string) : option bucket :=
  match l with
  | [] => None
  | _ :: _ => Some {| count := Z.of_nat (List.length l); locations := l |}
  end.

(** [report.error_summary.get(sentinel)] *)
Definition report_bucket (r : ValidationReport) (sentinel : string)
  : option bucket :=
  match error_summary r with
  | Errors d => dict_get d sentinel
  | Failure _ => None
  end.

Definition scan_step (st : buckets * Z) (lc : string * cell) : buckets * Z :=
  scan_cell (fst lc) st (snd lc).

Definition scanned (cells : list (string * cell)) (st : buckets * Z) : Prop :=
  snd st = Z.of_nat (List.length (filter is_formula cells))
  /\ (forall sentinel,
         dict_get (fst st) sentinel
         = if is_error_value sentinel
           then bucket_of_locations (error_locations sentinel cells)
           else None)
  /\ sum_counts (fst st)
     = Z.of_nat (List.length (filter has_any_error cells)).

(** A workbook made to exercise the loops: two number cells, an empty cell,
    and a cell of type ['f'] whose value is the sentinel [#DIV/0!] itself.
    No file loads to this: the value of a formula cell of a file is the
    text of its formula ([spec_example_workbook] is the example of the
    specification as it loads). *)
Definition sample_workbook : workbook :=
  [("Sheet1",
    [[Cell "A1" "n" (PyInt 10); Cell "B1" "f" (PyStr "#DIV/0!")];
     [Cell "A2" "n" (PyInt 20); Cell "B2" "n" PyNone]])].

Definition sample_path : path :=
  {| parent := "/work/"; name := "model.xlsx" |}.

(** A directory whose only file is taken to load as the sample workbook,
    where every path can be written. *)
Definition sample_world : world :=
  {| files := fun p => if path_eqb p sample_path
                       then Some (Loads sample_workbook) else None;
     writable := fun _ => true;
     soffice := None |}.

(** A workbook without any error: two numbers and their sum. *)
Definition healthy_workbook : workbook :=
  [("Sheet1",
    [[Cell "A1" "n" (PyInt 10); Cell "B1" "f" (PyStr "=SUM(A1:A2)")];
     [Cell "A2" "n" (PyInt 20); Cell "B2" "n" PyNone]])].

Definition healthy_world : world :=
  {| files := fun p => if path_eqb p sample_path
                       then Some (Loads healthy_workbook) else None;
     writable := fun _ => true;
     soffice := None |}.

(** A cell the repair loop leaves alone: not a formula held as text, or
    one whose upper-cased text contains [IFERROR]. *)
Definition settled (c : cell) : bool :=
  match value c with
  | PyStr formula =>
      negb ((data_type c =? "f") && negb (contains "IFERROR" (upper formula)))
  | _ => true
  end.

Definition sheet_settled (ws : worksheet) : bool :=
  forallb (forallb settled) ws.

(** The sheet reached under a title, if any, is settled. *)
Definition settled_at (wb : workbook) (title : string) : Prop :=
  forall ws, getitem wb title = Ok ws -> sheet_settled ws = true.

Definition initial_results (backup_file : option string) : repair_results :=
  {| repairs_attempted := 0;
     repairs_successful := 0;
     backup_file := backup_file;
     details := [];
     error := None |}.

(** A directory like [healthy_world] in which nothing can be written. *)
Definition readonly_world : world :=
  {| files := files healthy_world;
     writable := fun _ => false;
     soffice := None |}.

(** The report of a scan that could not read the workbook. *)
Definition error_report (e : exception) : ValidationReport :=
  {| status := "error";
     total_errors := 0;
     total_formulas := 0;
     error_summary := Failure (str_of_exception e);
     validation_method := "python_fallback" |}.

Definition known_methods : list string := ["auto"; "libreoffice"; "python"].

(** A directory whose only file is not a workbook. *)
Definition corrupt_world : world :=
  {| files := fun p => if path_eqb p sample_path
                       then Some (Corrupt (InvalidFileException
                                             "File is not a zip file"))
                       else None;
     writable := fun _ => true;
     soffice := None |}.

Definition missing_path : path :=
  {| parent := "/work/"; name := "absent.xlsx" |}.

Import Ranges Reports Tools ValidationTool.

(** An ASCII character. *)
Definition is_ascii (c : ascii) : bool := (N_of_ascii c <? 128)%N.

(** Modelled from the spec: what the grid iteration of the workbook
    abstraction yields for a formula cell: its coordinate, its value, which
    is the text of the formula, and the display value cached at its last
    computation. *)
Record stored_formula : Type := StoredFormula {
  sf_coordinate : string;
  sf_formula : string;
  sf_cached : string
}.

(** Modelled from the spec: the cell the library makes of it when the file
    is loaded with [data_only=False], as [validate_workbook_python] and
    [repair_errors] load it.  Its type is ['f'] and its value is the text
    of the formula: it is the value that [repair_errors] takes for the
    formula and wraps.  The cached display value is not on the cell. *)
Definition loaded_formula (s : stored_formula) : cell :=
  {| coordinate := sf_coordinate s;
     data_type := "f";
     value := PyStr (sf_formula s) |}.

(** The formula cell of the example of the specification, cached as
    [#DIV/0!]; for its formula, which the example leaves open, a division
    by zero. *)
Definition example_formula : stored_formula :=
  {| sf_coordinate := "B1"; sf_formula := "=A1/0"; sf_cached := "#DIV/0!" |}.

(** The example of the specification as it loads: the numbers 10 and 20
    and the formula cell. *)
Definition spec_example_workbook : workbook :=
  [("Sheet1",
    [[Cell "A1" "n" (PyInt 10); loaded_formula example_formula];
     [Cell "A2" "n" (PyInt 20); Cell "B2" "n" PyNone]])].

(** A directory with the file of the example and nothing else. *)
Definition spec_example_world : world :=
  {| files := fun p => if path_eqb p sample_path
                       then Some (Loads spec_example_workbook) else None;
     writable := fun _ => true;
     soffice := None |}.

(** A text that holds, in whatever case, the name of a function, then any
    white space, then an opening parenthesis. *)
Definition calls_function (name text : string) : Prop :=
  exists before word spaces after,
    text = before ++ word ++ spaces ++ "(" ++ after
    /\ upper word = upper name
    /\ all_chars is_space spaces = true.

(** A text that holds an opening bracket, then word characters and white
    space, at least one, then [.xl] in whatever case. *)
Definition names_workbook (text : string) : Prop :=
  exists before inside extension after,
    text = before ++ "[" ++ inside ++ "." ++ extension ++ after
    /\ inside <> ""
    /\ all_chars (fun c => is_word c || is_space c) inside = true
    /\ upper extension = "XL".

(** A text that holds a call of [INDIRECT] and, further on the same line,
    the name [HYPERLINK]. *)
Definition indirect_hyperlink (text : string) : Prop :=
  exists before word spaces line link after,
    text = before ++ word ++ spaces ++ "(" ++ line ++ link ++ after
    /\ upper word = "INDIRECT"
    /\ all_chars is_space spaces = true
    /\ all_chars Re.dot line = true
    /\ upper link = "HYPERLINK".

(** The coordinates of an outcome, whatever the message of a failure. *)
Definition coordinates_of (r : result (Z * Z)) : option (Z * Z) :=
  match r with
  | Ok rc => Some rc
  | Raise _ => None
  end.

(** The warnings of the threat signatures found in a text, in the order of
    the table. *)
Definition matching_warnings (text : string) : list string :=
  map snd (filter (fun entry => Re.search (fst entry) text) dangerous_patterns).

(** A bucket as a scan builds it: under a sentinel, with as many locations
    as it counts, and at least one. *)
Definition bucket_ok (entry : string * bucket) : Prop :=
  is_error_value (fst entry) = true
  /\ count (snd entry) = Z.of_nat (List.length (locations (snd entry)))
  /\ (1 <= count (snd entry))%Z.

(** What holds of the dictionary and the formula counter all along a scan:
    every bucket is as above, no sentinel has two buckets, and no more
    errors are counted than formulas. *)
Definition tallied (st : buckets * Z) : Prop :=
  Forall bucket_ok (fst st)
  /\ NoDup (map fst (fst st))
  /\ (sum_counts (fst st) <= snd st)%Z.

(** The directory of [sample_world] on a machine where [soffice --version]
    answers with return code 0. *)
Definition office_world : world :=
  {| files := files sample_world;
     writable := writable sample_world;
     soffice := Some 0%Z |}.

(** What the repair loop makes of a cell: a formula held as text that does
    not name [IFERROR] gets the wrapper around its body, any other cell
    stays. *)
Definition wrapped (c : cell) : cell :=
  match value c with
  | PyStr formula =>
      if settled c then c
      else set_str_value c
             ("=IFERROR("
                ++ (if startswith "=" formula then slice_from_1 formula
                    else formula)
                ++ ", 0)")
  | _ => c
  end.

Definition wrapped_workbook (wb : workbook) : workbook :=
  map (fun sheet => (fst sheet, map (map wrapped) (snd sheet))) wb.

(** The cells of a workbook in the order of the loops. *)
Definition workbook_cells (wb : workbook) : list cell :=
  flat_map (fun sheet => List.concat (snd sheet)) wb.

(** The number of cells the repair loop rewrites. *)
Definition unsettled (cells : list cell) : Z :=
  Z.of_nat (List.length (filter (fun c => negb (settled c)) cells)).

Definition holds_text (c : cell) : bool :=
  match value c with
  | PyStr _ => true
  | _ => false
  end.

(** The calls of a list made one after the other, up to the first that
    raises. *)
Fixpoint run_calls (L : Agent.library) (calls : list Agent.call)
  : Agent.agent L unit :=
  match calls with
  | [] => Agent.ret L tt
  | c :: rest =>
      Agent.and_then L (Agent.do_call L c) (fun _ => run_calls L rest)
  end.

(** The outcome of a run of calls, with [n] for what is returned when none
    of them raised. *)
Definition counted {L : Agent.library} (n : Z)
           (r : Agent.outcome L unit * option (Agent.book L))
  : Agent.outcome L Z * option (Agent.book L) :=
  match r with
  | (Agent.Returns _, wb) => (Agent.Returns n, wb)
  | (Agent.Raises e, wb) => (Agent.Raises e, wb)
  end.

(** A method that never raises the exceptions of the two guards of
    formulas, [SecurityError] and [FormulaError]. *)
Definition unguarded {L : Agent.library} {A : Type} (m : Agent.agent L A)
  : Prop :=
  forall wb message,
    fst (m wb) <> Agent.Raises (Agent.SecurityError message)
    /\ fst (m wb) <> Agent.Raises (Agent.FormulaError message).

(** The cells of a rectangle, row after row and along each row. *)
Definition rectangle (start_row start_col end_row end_col : Z)
  : list (Z * Z) :=
  flat_map (fun row => map (pair row) (Agent.range start_col (end_col + 1)))
           (Agent.range start_row (end_row + 1)).

(** The text that [apply_range_formula] makes of a template for the cell
    at a row and a column. *)
Definition filled (formula_template : string) (row col : Z) : string :=
  let letter :=
    match get_column_letter col with
    | Ok letter => letter
    | Raise _ => ""
    end in
  let formula :=
    Agent.str_replace "{row}" (str_of_int row) formula_template in
  let formula := Agent.str_replace "{col}" letter formula in
  let formula :=
    Agent.str_replace "{cell}" (letter ++ str_of_int row) formula in
  if startswith "=" formula then formula else "=" ++ formula.

(** A library that refuses no call and keeps the list of the calls made,
    for a workbook with a single sheet and the style of formulas. *)
Definition log_library : Agent.library :=
  {| Agent.book := list Agent.call;
     Agent.library_exception := Empty_set;
     Agent.sheetnames_of := fun _ => ["Sheet1"];
     Agent.named_styles_of := fun _ => ["FinancialFormula"];
     Agent.perform := fun c b => (None, (b ++ [c])%list);
     Agent.repr_names := Agent.join ", ";
     Agent.set_order := nodup string_dec |}.

(** A bucket cut to its first five locations, marked when it had more. *)
Definition first_five (details : bucket) : shown_bucket :=
  {| shown_count := count details;
     shown_locations := firstn 5 (locations details);
     truncated := (5 <? count details)%Z |}.

(** A stand-in for the printing of the rate, for the examples. *)
Definition sample_rate (errors formulas : Z) : string :=
  str_of_int (errors * 100 / formulas) ++ ".0".

(** What a repair that selects [#DIV/0!] reports when it rewrote [n] cells
    and met no error. *)
Definition repaired_results (backup_file : option string) (n : Z)
  : repair_results :=
  {| repairs_attempted := n;
     repairs_successful := n;
     backup_file := backup_file;
     details := [("#DIV/0!",
                  {| attempted := n; successful := n;
                     method := "IFERROR wrapper" |})];
     error := None |}.

(* ================================================================== *)
(** * Properties *)
(* ================================================================== *)

Example get_cell_coordinates_BZ5000 :
  get_cell_coordinates "bz5000" = Ok (5000%Z, 78%Z).
Proof. reflexivity. Qed.

Example get_cell_coordinates_last_cell :
  get_cell_coordinates "XFD1048576" = Ok (1048576%Z, 16384%Z).
Proof. reflexivity. Qed.

Example get_cell_coordinates_column_beyond :
  get_cell_coordinates "XFE1"
  = Raise (InvalidCellReferenceError "Reference out of bounds: XFE1").
Proof. reflexivity. Qed.

Example get_cell_coordinates_row_beyond :
  get_cell_coordinates "A1048577"
  = Raise (InvalidCellReferenceError "Reference out of bounds: A1048577").
Proof. reflexivity. Qed.

Example get_cell_coordinates_no_digits :
  get_cell_coordinates "ABC"
  = Raise (InvalidCellReferenceError "Invalid cell reference: ABC").
Proof. reflexivity. Qed.

Example get_column_letter_703 : get_column_letter 703 = Ok "AAA".
Proof. reflexivity. Qed.

Example get_column_letter_0 :
  get_column_letter 0 = Raise (ValueError "Column number 0 out of range (1-16384)").
Proof. reflexivity. Qed.

(* ------------------------------------------------------------------ *)
(** ** Sheet names *)
(* ------------------------------------------------------------------ *)

Section SheetNames.

Lemma replace_all_invalid (name : string) :
  fold_left (fun name char => replace_char char "_" name) invalid_chars name
  = map_chars scrub_char name.
Proof.
  induction name as [|c name IH]; [reflexivity|].
  cbn [invalid_chars fold_left] in IH |- *.
  cbn [replace_char map_chars]. rewrite IH. f_equal.
  destruct c as [[] [] [] [] [] [] [] []]; reflexivity.
Qed.

Lemma contains_char_scrubbed (char : ascii) (s : string) :
  In char invalid_chars -> contains_char char (map_chars scrub_char s) = false.
Proof.
  intros Hin. induction s as [|c s IH]; [reflexivity|].
  cbn [map_chars contains_char]. rewrite IH, orb_false_r.
  apply Ascii.eqb_neq. intros E. unfold scrub_char in E.
  destruct (existsb (Ascii.eqb c) invalid_chars) eqn:Ex.
  - subst char. cbn in Hin. intuition discriminate.
  - subst char.
    assert (existsb (Ascii.eqb c) invalid_chars = true) as Ht.
    { apply existsb_exists. exists c.
      split; [assumption | apply Ascii.eqb_refl]. }
    congruence.
Qed.

Lemma contains_char_substring (char : ascii) (m : nat) (s : string) :
  contains_char char s = false ->
  contains_char char (substring 0 m s) = false.
Proof.
  revert m. induction s as [|c s IH]; intros [|m] H; try reflexivity.
  cbn [contains_char substring] in *.
  apply orb_false_iff in H as [Hc Hs].
  rewrite Hc. cbn. now apply IH.
Qed.

Lemma length_substring_0 (m : nat) (s : string) :
  String.length (substring 0 m s) = Nat.min m (String.length s).
Proof.
  revert m. induction s as [|c s IH]; intros [|m]; cbn; try reflexivity.
  now rewrite IH.
Qed.

Lemma existsb_false_forall {A} (f : A -> bool) (l : list A) :
  (forall x, In x l -> f x = false) -> existsb f l = false.
Proof.
  induction l as [|a l IH]; intros H; [reflexivity|].
  cbn. rewrite (H a (or_introl eq_refl)). apply IH.
  intros x Hx. apply H. now right.
Qed.

(** The shape of the result, as the specification words it. *)
Lemma sanitize_sheet_name_shape (name : string) :
  sanitize_sheet_name name =
    let text := slice_to 31 (map_chars scrub_char name) in
    if text =? "" then "Sheet1" else text.
Proof.
  unfold sanitize_sheet_name. rewrite replace_all_invalid.
  destruct (String.eqb_spec name "") as [->|Hne]; reflexivity.
Qed.

(** C10. Whatever the input, the name returned by [sanitize_sheet_name] is
    accepted by [is_valid_sheet_name]: it is not empty, it has at most 31
    characters and none of [: \ / ? * [ ]] occurs in it.  It is the input
    with each forbidden character replaced by an underscore, cut to 31
    characters, or the default name ["Sheet1"] when that text is empty. *)
Theorem C10_sanitize_sheet_name_valid (name : string) :
  is_valid_sheet_name (sanitize_sheet_name name) = true
  /\ sanitize_sheet_name name <> ""
  /\ (String.length (sanitize_sheet_name name) <= 31)%nat
  /\ (forall char, In char invalid_chars ->
        contains_char char (sanitize_sheet_name name) = false)
  /\ sanitize_sheet_name name =
       (let text := slice_to 31 (map_chars scrub_char name) in
        if text =? "" then "Sheet1" else text).
Proof.
  assert (Hshape := sanitize_sheet_name_shape name).
  cbv zeta in Hshape.
  assert (Hne : sanitize_sheet_name name <> "").
  { rewrite Hshape.
    destruct (String.eqb_spec (slice_to 31 (map_chars scrub_char name)) "");
      [discriminate | assumption]. }
  assert (Hlen : (String.length (sanitize_sheet_name name) <= 31)%nat).
  { rewrite Hshape.
    destruct (String.eqb_spec (slice_to 31 (map_chars scrub_char name)) "").
    - cbn. lia.
    - unfold slice_to. rewrite length_substring_0. lia. }
  assert (Hchars : forall char, In char invalid_chars ->
             contains_char char (sanitize_sheet_name name) = false).
  { intros char Hin. rewrite Hshape.
    destruct (String.eqb_spec (slice_to 31 (map_chars scrub_char name)) "").
    - cbn in Hin.
      repeat (destruct Hin as [<-|Hin]; [reflexivity|]). contradiction.
    - unfold slice_to. apply contains_char_substring.
      now apply contains_char_scrubbed. }
  repeat split; try assumption.
  unfold is_valid_sheet_name.
  destruct (String.eqb_spec (sanitize_sheet_name name) "") as [E|_];
    [contradiction|].
  destruct (Nat.ltb_spec 31 (String.length (sanitize_sheet_name name)));
    [lia|].
  cbn [orb]. rewrite existsb_false_forall; [reflexivity | assumption].
Qed.

End SheetNames.

Example sanitize_sheet_name_mixed :
  sanitize_sheet_name "Q1/Q2: [draft]*?" = "Q1_Q2_ _draft___".
Proof. reflexivity. Qed.

(* ------------------------------------------------------------------ *)
(** ** Cell addresses *)
(* ------------------------------------------------------------------ *)

Section CellAddresses.
Local Open Scope Z_scope.

Lemma round_trips_from_sound (count : nat) :
  forall start n,
    round_trips_from count start = true ->
    start <= n < start + Z.of_nat count ->
    column_round_trip n = true.
Proof.
  induction count as [|count IH]; intros start n Hall Hn; [lia|].
  cbn [round_trips_from] in Hall.
  apply andb_true_iff in Hall as [Hhere Hrest].
  destruct (Z.eq_dec n start) as [->|Hne]; [assumption|].
  apply (IH (start + 1)); [assumption | lia].
Qed.

Lemma column_round_trip_all :
  round_trips_from (Z.to_nat 16384) 1 = true.
Proof. vm_compute. reflexivity. Qed.

Lemma column_round_trip_in_range (n : Z) :
  1 <= n <= 16384 -> column_round_trip n = true.
Proof.
  intros Hn.
  apply (round_trips_from_sound (Z.to_nat 16384) 1 n).
  - exact column_round_trip_all.
  - lia.
Qed.

Lemma get_column_letter_out_of_range (n : Z) :
  ~ (1 <= n <= 16384) ->
  get_column_letter n =
    Raise (ValueError ("Column number " ++ str_of_int n
                       ++ " out of range (1-16384)")).
Proof.
  intros Hn. unfold get_column_letter, EXCEL_MAX_COLS.
  destruct (Z.leb_spec 1 n); destruct (Z.leb_spec n 16384);
    cbn [andb negb]; try reflexivity.
  lia.
Qed.

(** C5 (as the code has it). For every column number [n] in [1, 16384],
    [get_column_letter n] succeeds and parsing its letters followed by
    ["1"] succeeds with row 1 and column [n].  For every [n] outside that
    range [get_column_letter] fails, and the failure is a [ValueError],
    not an [InvalidCellReferenceError]. *)
Theorem C5_column_round_trip (n : Z) :
  (1 <= n <= 16384 ->
     exists letters,
       get_column_letter n = Ok letters
       /\ get_cell_coordinates (letters ++ "1") = Ok (1, n))
  /\ (~ (1 <= n <= 16384) ->
        exists message, get_column_letter n = Raise (ValueError message)).
Proof.
  split; intros Hn.
  - apply column_round_trip_in_range in Hn.
    unfold column_round_trip in Hn.
    destruct (get_column_letter n) as [letters|]; [|discriminate].
    exists letters. split; [reflexivity|].
    destruct (get_cell_coordinates (letters ++ "1")) as [[row col]|];
      [|discriminate].
    apply andb_true_iff in Hn as [Hr Hc].
    apply Z.eqb_eq in Hr, Hc. now subst.
  - eexists. now apply get_column_letter_out_of_range.
Qed.

(** C5 at column 28 (AB) and at 16385, the first number past the grid. *)
Lemma C5_column_round_trip_witness :
  (exists letters,
      get_column_letter 28 = Ok letters
      /\ get_cell_coordinates (letters ++ "1") = Ok (1, 28))
  /\ (exists message, get_column_letter 16385 = Raise (ValueError message)).
Proof.
  split.
  - apply (proj1 (C5_column_round_trip 28)). lia.
  - apply (proj2 (C5_column_round_trip 16385)). lia.
Defined.

(** C5, the claim as worded, fails: a column number outside the grid is
    refused with a [ValueError]; no [InvalidCellReferenceError] is
    raised. *)
Lemma C5_out_of_range_is_value_error :
  ~ (forall n, ~ (1 <= n <= 16384) ->
       exists message,
         get_column_letter n = Raise (InvalidCellReferenceError message)).
Proof.
  intros H. destruct (H 0) as [message Hm]; [lia|]. discriminate Hm.
Qed.

(** C6. A cell text made of a valid reference followed by a newline is
    accepted: ["A1\n"] is not letters followed by digits, and yet it is a
    valid cell reference for the code and parses to row 1, column 1. *)
Theorem C6_trailing_newline_accepted :
  let text := String "A" (String "1" (String LF "")) in
  cell_grammar text = false
  /\ is_valid_cell_reference text = true
  /\ get_cell_coordinates text = Ok (1, 1).
Proof. cbv zeta. split; [|split]; reflexivity. Qed.

End CellAddresses.

(* ------------------------------------------------------------------ *)
(** ** Formula sanitizer *)
(* ------------------------------------------------------------------ *)

Section Sanitizer.

Lemma in_list_append {A} (l : list A) (x y : A) :
  In y l -> In y (list_append l x).
Proof. intros H. unfold list_append. apply in_or_app. now left. Qed.

Lemma in_list_append_last {A} (l : list A) (x : A) :
  In x (list_append l x).
Proof. unfold list_append. apply in_or_app. right. now left. Qed.

(** The loop over the threat table keeps what was found and adds the
    warning of every signature that matches. *)
Lemma threat_loop_reports (text : string) (table : list (Re.matcher * string)) :
  forall found,
    let step := fun warnings '(pattern, warning) =>
                  if Re.search pattern text
                  then list_append warnings warning else warnings in
    (forall w, In w found -> In w (fold_left step table found))
    /\ (forall pattern warning,
           In (pattern, warning) table ->
           Re.search pattern text = true ->
           In warning (fold_left step table found)).
Proof.
  induction table as [|[p w] table IH]; intros found step.
  - split; [trivial | intros ? ? []].
  - cbn [fold_left].
    destruct (IH (step found (p, w))) as [Hkeep Hadd].
    split.
    + intros w0 Hin. apply Hkeep. unfold step.
      destruct (Re.search p text); [now apply in_list_append | assumption].
    + intros pattern warning [E|Hin] Hs.
      * injection E as -> ->. apply Hkeep. unfold step. rewrite Hs.
        apply in_list_append_last.
      * now apply (Hadd pattern warning).
Qed.

(** C8. The text returned by [sanitize_formula] is the input with [=] put
    in front when it does not start with one, and the input itself
    otherwise, whatever the scan finds: a threat signature that matches
    the returned text is still in it and has its warning in the list.  In
    particular ["SUM(A1:A10)"] comes back as ["=SUM(A1:A10)"] with no
    warning. *)
Theorem C8_sanitize_only_normalizes (formula : string) (allow_external : bool) :
  fst (sanitize_formula formula allow_external)
  = (if startswith "=" formula then formula else "=" ++ formula)
  /\ (forall pattern warning,
         In (pattern, warning) dangerous_patterns ->
         Re.search pattern (fst (sanitize_formula formula allow_external))
         = true ->
         In warning (snd (sanitize_formula formula allow_external)))
  /\ sanitize_formula "SUM(A1:A10)" false = ("=SUM(A1:A10)", []).
Proof.
  split; [|split].
  - unfold sanitize_formula. cbn [fst].
    destruct (startswith "=" formula); reflexivity.
  - intros pattern warning Hin Hs.
    unfold sanitize_formula in *. cbn [fst snd] in *.
    set (text := if negb (startswith "=" formula)
                 then "=" ++ formula else formula) in *.
    destruct (threat_loop_reports text dangerous_patterns []) as [_ Hadd].
    specialize (Hadd pattern warning Hin Hs).
    destruct (len text >? MAX_FORMULA_LENGTH)%Z;
      destruct (Z.abs (count_char "(" text - count_char ")" text)
                >? MAX_FORMULA_NESTING)%Z;
      repeat apply in_list_append; exact Hadd.
  - reflexivity.
Qed.

End Sanitizer.

Example sanitize_formula_indirect :
  snd (sanitize_formula "=INDIRECT (HYPERLINK(x))" false)
  = ["HYPERLINK function (potential phishing)";
     "INDIRECT+HYPERLINK combination (security risk)"].
Proof. reflexivity. Qed.

Example sanitize_formula_external_workbook :
  snd (sanitize_formula "=[Book1 2.xlsx]Sheet1!A1" true)
  = ["External workbook reference"].
Proof. reflexivity. Qed.

Example sanitize_formula_webservice :
  sanitize_formula "=WebService (A1)" false
  = ("=WebService (A1)", ["WEBSERVICE function (network access)"]).
Proof. reflexivity. Qed.

(* ------------------------------------------------------------------ *)
(** ** Reference validator *)
(* ------------------------------------------------------------------ *)

Section StringFacts.

Lemma startswith_split (p s : string) :
  startswith p s = true -> exists rest, s = p ++ rest.
Proof.
  unfold startswith. revert s.
  induction p as [|x p IH]; intros s H.
  - exists s. reflexivity.
  - destruct s as [|y s]; cbn in H; [discriminate|].
    destruct (ascii_dec x y) as [->|]; [|discriminate].
    destruct (IH s H) as [rest ->]. now exists rest.
Qed.

Lemma span_split (p : ascii -> bool) (s : string) :
  forall a b, span p s = (a, b) -> s = a ++ b /\ all_chars p a = true.
Proof.
  induction s as [|c s IH]; intros a b H; cbn in H.
  - injection H as <- <-. now split.
  - destruct (p c) eqn:Hc.
    + destruct (span p s) as [a' b'] eqn:Hs.
      injection H as <- <-.
      destruct (IH a' b' eq_refl) as [-> Ha].
      split; [reflexivity | cbn; now rewrite Hc, Ha].
    + injection H as <- <-. now split.
Qed.

End StringFacts.

Section ReferenceValidator.

Example findall_quoted_refs :
  Re.findall quoted_ref_at 0 "='My Sheet'!A1+'a'b'!+''!+'x'!'y'!"
  = ["My Sheet"; "b"; "x"; "y"].
Proof. reflexivity. Qed.

Example findall_bare_refs :
  Re.findall bare_ref_at 0 "='My Sheet'!A1+Sheet1!A1+Data!B2+!+a b!+c!!d!"
  = ["Sheet1"; "Data"; "b"; "c"; "d"].
Proof. reflexivity. Qed.

(** Every group found by [findall] comes from a match at some position. *)
Lemma findall_sound (m : string -> option (string * nat)) (s : string) :
  forall skip group,
    In group (Re.findall m skip s) ->
    exists before rest n,
      s = before ++ rest /\ m rest = Some (group, n).
Proof.
  induction s as [|c s IH]; intros skip group Hin; [contradiction|].
  cbn [Re.findall] in Hin.
  assert (Hlater : forall k, In group (Re.findall m k s) ->
            exists before rest n,
              String c s = before ++ rest /\ m rest = Some (group, n)).
  { intros k Hk. destruct (IH k group Hk) as (before & rest & n & -> & Hm).
    exists (String c before), rest, n. now split. }
  destruct skip as [|k]; [|now apply (Hlater k)].
  destruct (m (String c s)) as [[g n]|] eqn:Hm; [|now apply (Hlater 0%nat)].
  destruct Hin as [->|Hin]; [|now apply (Hlater (Nat.pred n))].
  exists "", (String c s), n. now split.
Qed.

Lemma quoted_ref_at_shape (s name : string) (n : nat) :
  quoted_ref_at s = Some (name, n) ->
  name <> ""
  /\ contains_char "'" name = false
  /\ exists rest, s = "'" ++ name ++ "'!" ++ rest.
Proof.
  unfold quoted_ref_at. destruct s as [|c s]; [discriminate|].
  destruct (Ascii.eqb_spec c "'") as [->|]; [|discriminate].
  destruct (span (fun c => negb (Ascii.eqb c "'")) s) as [a after] eqn:Hs.
  destruct (String.eqb_spec a "") as [|Hne]; [discriminate|].
  destruct (startswith "'!" after) eqn:Hp; [|discriminate].
  cbn [negb andb]. intros H. injection H as <- <-.
  apply span_split in Hs as [-> Hall].
  apply startswith_split in Hp as [rest ->].
  split; [assumption|]. split.
  - clear Hne. induction a as [|x a IH]; [reflexivity|].
    cbn in Hall |- *. apply andb_true_iff in Hall as [Hx Ha].
    apply negb_true_iff in Hx. now rewrite Hx, IH.
  - exists rest. reflexivity.
Qed.

Lemma bare_ref_at_shape (s name : string) (n : nat) :
  bare_ref_at s = Some (name, n) ->
  name <> ""
  /\ all_chars is_ident name = true
  /\ exists rest, s = name ++ "!" ++ rest.
Proof.
  unfold bare_ref_at.
  destruct (span is_ident s) as [a after] eqn:Hs.
  destruct (String.eqb_spec a "") as [|Hne]; [discriminate|].
  destruct (startswith "!" after) eqn:Hp; [|discriminate].
  cbn [negb andb]. intros H. injection H as <- <-.
  apply span_split in Hs as [-> Hall].
  apply startswith_split in Hp as [rest ->].
  split; [assumption|]. split; [assumption|]. now exists rest.
Qed.

Lemma mem_In (x : string) (l : list string) : mem x l = true <-> In x l.
Proof.
  unfold mem. rewrite existsb_exists. split.
  - intros (y & Hy & E). apply String.eqb_eq in E. now subst.
  - intros H. exists x. split; [assumption | apply String.eqb_refl].
Qed.

Lemma check_sheet_refs_true (refs existing : list string) :
  check_sheet_refs refs existing = (true, None) ->
  forall name, In name refs -> In name existing.
Proof.
  induction refs as [|r refs IH]; intros E name Hin; [contradiction|].
  cbn [check_sheet_refs] in E.
  destruct (mem r existing) eqn:Hr; cbn [negb] in E; [|discriminate].
  destruct Hin as [->|Hin]; [now apply mem_In | now apply IH].
Qed.

Lemma check_sheet_refs_outcome (refs existing : list string) :
  check_sheet_refs refs existing = (true, None)
  \/ exists name,
       In name refs /\ ~ In name existing
       /\ check_sheet_refs refs existing
          = (false, Some (missing_sheet_message name)).
Proof.
  induction refs as [|r refs IH]; [now left|].
  cbn [check_sheet_refs].
  destruct (mem r existing) eqn:Hm; cbn [negb].
  - destruct IH as [->|(name & Hin & Hnot & ->)]; [now left|].
    right. exists name. repeat split; [now right | assumption].
  - right. exists r. repeat split; [now left|].
    intros Hin. apply mem_In in Hin. congruence.
Qed.

(** [list(set(xs))] has the elements of [xs], each once. *)
Variable set_order : list string -> list string.
Hypothesis set_order_elements :
  forall xs x, In x (set_order xs) <-> In x xs.
Hypothesis set_order_NoDup : forall xs, NoDup (set_order xs).

Lemma validate_outcome (formula : string) (existing_sheets : list string) :
  formula <> "" ->
  let outcome :=
    validate_formula_references set_order formula existing_sheets in
  (outcome = (true, None)
   /\ forall name, In name (extracted_names formula) ->
                   In name existing_sheets)
  \/ (exists name,
        In name (extracted_names formula)
        /\ ~ In name existing_sheets
        /\ outcome = (false, Some (missing_sheet_message name))).
Proof.
  intros Hne outcome.
  assert (Hout : outcome
                 = check_sheet_refs (set_order (extracted_names formula))
                                    existing_sheets).
  { unfold outcome, validate_formula_references.
    destruct (String.eqb_spec formula ""); [contradiction | reflexivity]. }
  rewrite Hout.
  destruct (check_sheet_refs_outcome
              (set_order (extracted_names formula)) existing_sheets)
    as [E|(bad & Hin & Hnot & E)].
  - left. split; [assumption|]. intros name Hin.
    apply (check_sheet_refs_true _ _ E). now apply set_order_elements.
  - right. exists bad. repeat split; try assumption.
    now apply set_order_elements.
Qed.

(** C7 (as the code has it). For a formula that is not empty, the names
    checked are those found by the two patterns, each once: a quote, a
    non-empty text without quotes, a quote and [!]; or a non-empty run
    of letters, digits and underscores followed by [!].  The call succeeds
    exactly when each of them is a known sheet, and otherwise fails with a
    message naming one that is not.  So ["=Sheet1!A1+Data!B2"] fails on
    [Data] when only [Sheet1] is known, and ["='My Sheet'!A1"] passes when
    [My Sheet] is known. *)
Theorem C7_validate_references (formula : string) (existing_sheets : list string) :
  formula <> "" ->
  let outcome :=
    validate_formula_references set_order formula existing_sheets in
  (fst outcome = true <->
     forall name, In name (extracted_names formula) ->
                  In name existing_sheets)
  /\ (fst outcome = true -> outcome = (true, None))
  /\ (fst outcome = false ->
        exists name,
          In name (extracted_names formula)
          /\ ~ In name existing_sheets
          /\ outcome = (false, Some (missing_sheet_message name)))
  /\ NoDup (set_order (extracted_names formula))
  /\ (forall name,
         In name (Re.findall quoted_ref_at 0 formula) ->
         name <> "" /\ contains_char "'" name = false
         /\ exists before rest,
              formula = before ++ "'" ++ name ++ "'!" ++ rest)
  /\ (forall name,
         In name (Re.findall bare_ref_at 0 formula) ->
         name <> "" /\ all_chars is_ident name = true
         /\ exists before rest, formula = before ++ name ++ "!" ++ rest)
  /\ validate_formula_references set_order "=Sheet1!A1+Data!B2" ["Sheet1"]
     = (false, Some "Referenced sheet 'Data' does not exist")
  /\ validate_formula_references set_order "='My Sheet'!A1" ["My Sheet"]
     = (true, None).
Proof.
  intros Hne outcome.
  assert (Hcases := validate_outcome formula existing_sheets Hne).
  cbv zeta in Hcases. fold outcome in Hcases.
  split; [|split; [|split; [|split; [|split; [|split; [|split]]]]]].
  - split.
    + intros Ht. destruct Hcases as [[_ Hall]|(bad & _ & _ & E)];
        [assumption | rewrite E in Ht; discriminate].
    + intros Hall. destruct Hcases as [[-> _]|(bad & Hin & Hnot & _)];
        [reflexivity | now apply Hall in Hin].
  - intros Ht. destruct Hcases as [[E _]|(bad & _ & _ & E)];
      [assumption | rewrite E in Ht; discriminate].
  - intros Hf. destruct Hcases as [[E _]|Hbad];
      [rewrite E in Hf; discriminate | assumption].
  - apply set_order_NoDup.
  - intros name H.
    apply findall_sound in H as (before & rest & n & -> & Hm).
    apply quoted_ref_at_shape in Hm as (Hn & Hq & tail & ->).
    repeat split; try assumption. now exists before, tail.
  - intros name H.
    apply findall_sound in H as (before & rest & n & -> & Hm).
    apply bare_ref_at_shape in Hm as (Hn & Hq & tail & ->).
    repeat split; try assumption. now exists before, tail.
  - destruct (validate_outcome "=Sheet1!A1+Data!B2" ["Sheet1"])
      as [[_ Hall]|(bad & Hin & Hnot & E)]; [discriminate| |].
    + exfalso. destruct (Hall "Data") as [E|[]]; [|discriminate E].
      cbv. auto.
    + rewrite E.
      assert (Hb : bad = "Sheet1" \/ bad = "Data").
      { cbv in Hin. intuition auto. }
      destruct Hb as [->| ->]; [|reflexivity].
      exfalso. apply Hnot. now left.
  - destruct (validate_outcome "='My Sheet'!A1" ["My Sheet"])
      as [[E _]|(bad & Hin & Hnot & _)]; [discriminate|assumption|].
    exfalso. apply Hnot.
    cbv in Hin. destruct Hin as [<-|[]]. now left.
Qed.

End ReferenceValidator.

(** C7: the formula ["=Sheet1!A1+Data!B2"] against the only sheet [Sheet1],
    with the names listed in order of first occurrence. *)
Lemma C7_validate_references_witness :
  validate_formula_references (nodup string_dec) "=Sheet1!A1+Data!B2" ["Sheet1"]
  = (false, Some "Referenced sheet 'Data' does not exist").
Proof.
  assert (Hel : forall xs x, In x (nodup string_dec xs) <-> In x xs)
    by (intros; apply nodup_In).
  assert (Hnd : forall xs, NoDup (nodup string_dec xs))
    by (intros; apply NoDup_nodup).
  assert (Hne : "=Sheet1!A1+Data!B2" <> "") by discriminate.
  exact (proj1 (proj2 (proj2 (proj2 (proj2 (proj2 (proj2
           (C7_validate_references (nodup string_dec) Hel Hnd
              "=Sheet1!A1+Data!B2" ["Sheet1"] Hne)))))))).
Defined.

(** C7, the claim as worded, fails on the empty formula: it refers to no
    sheet at all, so every name it refers to is known, and yet it is
    refused. *)
Lemma C7_empty_formula_rejected :
  (forall name, In name (extracted_names "") -> In name [])
  /\ validate_formula_references (nodup string_dec) "" []
     = (false, Some "Formula must be a non-empty string").
Proof. split; [intros name [] | reflexivity]. Qed.

(* ------------------------------------------------------------------ *)
(** ** Scan *)
(* ------------------------------------------------------------------ *)

Section Dictionaries.

Lemma dict_get_set (d : buckets) (k k' : string) (b : bucket) :
  dict_get (dict_set d k b) k'
  = if k =? k' then Some b else dict_get d k'.
Proof.
  induction d as [|[k0 b0] d IH]; cbn [dict_set dict_get].
  - destruct (String.eqb_spec k k'); reflexivity.
  - destruct (String.eqb_spec k0 k) as [->|Hne]; cbn [dict_get].
    + destruct (String.eqb_spec k k'); reflexivity.
    + destruct (String.eqb_spec k0 k') as [->|]; [|exact IH].
      destruct (String.eqb_spec k k'); [congruence | reflexivity].
Qed.

Lemma dict_get_update (d : buckets) (k k' : string) (f : bucket -> bucket) :
  dict_get (dict_update d k f) k'
  = if k =? k' then option_map f (dict_get d k) else dict_get d k'.
Proof.
  induction d as [|[k0 b0] d IH]; cbn [dict_update dict_get].
  - destruct (k =? k'); reflexivity.
  - destruct (String.eqb_spec k0 k) as [->|Hne]; cbn [dict_get].
    + destruct (String.eqb_spec k k'); reflexivity.
    + destruct (String.eqb_spec k0 k') as [->|]; [|exact IH].
      destruct (String.eqb_spec k k'); [congruence | reflexivity].
Qed.

Lemma sum_counts_from (d : buckets) (a : Z) :
  fold_left (fun acc kb => (acc + count (snd kb))%Z) d a
  = (a + sum_counts d)%Z.
Proof.
  unfold sum_counts. revert a.
  induction d as [|kb d IH]; intros a; cbn [fold_left]; [lia|].
  rewrite (IH (a + count (snd kb))%Z), (IH (0 + count (snd kb))%Z). lia.
Qed.

Lemma sum_counts_cons (k : string) (b : bucket) (d : buckets) :
  sum_counts ((k, b) :: d) = (count b + sum_counts d)%Z.
Proof.
  unfold sum_counts at 1. cbn [fold_left snd]. rewrite sum_counts_from. lia.
Qed.

Lemma sum_counts_set_new (d : buckets) (k : string) (b : bucket) :
  dict_get d k = None ->
  sum_counts (dict_set d k b) = (sum_counts d + count b)%Z.
Proof.
  induction d as [|[k0 b0] d IH]; cbn [dict_set dict_get]; intros Hg.
  - rewrite sum_counts_cons. unfold sum_counts. cbn. lia.
  - destruct (k0 =? k); [discriminate|].
    rewrite !sum_counts_cons, IH by assumption. lia.
Qed.

Lemma sum_counts_update (d : buckets) (k : string) (f : bucket -> bucket)
      (b : bucket) :
  dict_get d k = Some b ->
  sum_counts (dict_update d k f)
  = (sum_counts d - count b + count (f b))%Z.
Proof.
  induction d as [|[k0 b0] d IH]; cbn [dict_update dict_get]; intros Hg;
    [discriminate|].
  destruct (k0 =? k).
  - injection Hg as ->. rewrite !sum_counts_cons. lia.
  - rewrite !sum_counts_cons, IH by assumption. lia.
Qed.

End Dictionaries.

Section Scan.

Lemma filter_snoc {A} (f : A -> bool) (l : list A) (x : A) :
  filter f (l ++ [x])%list = (filter f l ++ if f x then [x] else [])%list.
Proof. now rewrite filter_app. Qed.

Lemma bucket_of_locations_snoc (l : list string) (x : string) :
  bucket_of_locations (l ++ [x])%list
  = Some {| count := (Z.of_nat (List.length l) + 1)%Z;
            locations := list_append l x |}.
Proof.
  unfold bucket_of_locations, list_append.
  destruct (l ++ [x])%list eqn:E.
  - now destruct l.
  - rewrite <- E, length_app. cbn [List.length]. do 2 f_equal. lia.
Qed.

(** *** The loops visit the cells in order *)

Lemma getitem_skip (pre : workbook) (title : string) (ws : worksheet)
      (rest : workbook) :
  ~ In title (sheetnames pre) ->
  getitem (pre ++ (title, ws) :: rest)%list title = Ok ws.
Proof.
  induction pre as [|[t w] pre IH]; intros Hnot; cbn [getitem app].
  - now rewrite String.eqb_refl.
  - destruct (String.eqb_spec t title) as [->|].
    + exfalso. apply Hnot. now left.
    + apply IH. intros Hin. apply Hnot. now right.
Qed.

Lemma scan_sheets_visits_all (post : workbook) :
  forall (pre : workbook) (st : buckets * Z),
    NoDup (sheetnames (pre ++ post)%list) ->
    scan_sheets (pre ++ post)%list (sheetnames post) st
    = Ok (fold_left (fun st sheet => scan_sheet (fst sheet) (snd sheet) st)
                    post st).
Proof.
  induction post as [|[title ws] post IH]; intros pre st Hnd;
    [reflexivity|].
  cbn [sheetnames map fst scan_sheets fold_left snd].
  rewrite getitem_skip.
  - cbn [bind].
    specialize (IH (pre ++ [(title, ws)])%list
                   (scan_sheet title ws st)).
    rewrite <- app_assoc in IH. cbn [app] in IH.
    now apply IH.
  - unfold sheetnames in Hnd. rewrite map_app in Hnd. cbn [map fst] in Hnd.
    now apply NoDup_remove_2 in Hnd as Hn; rewrite in_app_iff in Hn; tauto.
Qed.

Lemma scan_sheet_flat (title : string) (ws : worksheet) (st : buckets * Z) :
  scan_sheet title ws st
  = fold_left scan_step (map (pair title) (List.concat ws)) st.
Proof.
  unfold scan_sheet. revert st.
  induction ws as [|row ws IH]; intros st; [reflexivity|].
  cbn [fold_left List.concat]. rewrite map_app, fold_left_app, IH. f_equal.
  clear. revert st.
  induction row as [|c row IH]; intros st; [reflexivity | apply IH].
Qed.

Lemma scan_all_flat (wb : workbook) (st : buckets * Z) :
  fold_left (fun st sheet => scan_sheet (fst sheet) (snd sheet) st) wb st
  = fold_left scan_step (located_cells wb) st.
Proof.
  unfold located_cells. revert st.
  induction wb as [|[title ws] wb IH]; intros st; [reflexivity|].
  cbn [fold_left flat_map fst snd].
  now rewrite fold_left_app, IH, scan_sheet_flat.
Qed.

(** *** What the loop has accumulated after a list of cells *)

Lemma scanned_nil : scanned [] ([], 0%Z).
Proof.
  repeat split. intros sentinel.
  destruct (is_error_value sentinel); reflexivity.
Qed.

Lemma scanned_step (cells : list (string * cell)) (st : buckets * Z)
      (lc : string * cell) :
  scanned cells st -> scanned (cells ++ [lc])%list (scan_step st lc).
Proof.
  destruct st as [d n]. intros (Hn & Hd & Hs). cbn [fst snd] in *.
  unfold scanned, error_locations.
  rewrite !filter_snoc, !length_app.
  assert (Hloc : forall sentinel,
             filter (has_error sentinel) (cells ++ [lc])%list
             = (filter (has_error sentinel) cells
                  ++ if has_error sentinel lc then [lc] else [])%list)
    by (intros; apply filter_snoc).
  unfold scan_step, scan_cell.
  destruct (data_type (snd lc) =? "f") eqn:Hf.
  2:{ assert (Hfl : is_formula lc = false) by exact Hf.
      assert (Hany : has_any_error lc = false)
        by (unfold has_any_error; now rewrite Hfl).
      rewrite Hfl, Hany. cbn [fst snd List.length].
      repeat split; [lia | | lia].
      intros sentinel. rewrite Hd, Hloc. unfold has_error. rewrite Hfl.
      cbn [andb]. now rewrite app_nil_r. }
  assert (Hfl : is_formula lc = true) by exact Hf.
  assert (Hany : has_any_error lc = is_error_value (cell_value (snd lc)))
    by (unfold has_any_error; now rewrite Hfl).
  rewrite Hfl, Hany.
  destruct (is_error_value (cell_value (snd lc))) eqn:He; cbn [fst snd].
  2:{ cbn [List.length]. repeat split; [lia | | lia].
      intros sentinel. rewrite Hd, Hloc. unfold has_error. rewrite Hfl.
      cbn [andb].
      destruct (String.eqb_spec (cell_value (snd lc)) sentinel) as [E|_];
        [|now rewrite app_nil_r].
      rewrite <- E, He. reflexivity. }
  set (v := cell_value (snd lc)) in *.
  change (fst lc ++ "!" ++ coordinate (snd lc)) with (location lc).
  set (incr := fun b : bucket =>
                 {| count := (count b + 1)%Z;
                    locations := list_append (locations b) (location lc) |}).
  assert (Hv := Hd v). rewrite He in Hv.
  cbn [List.length]. split; [lia|]. split.
  - intros sentinel.
    rewrite dict_get_update, Hloc.
    unfold has_error at 2. rewrite Hfl. cbn [andb]. fold v.
    destruct (String.eqb_spec v sentinel) as [<-|Hne].
    + rewrite He, map_app. cbn [map].
      fold (error_locations v cells).
      rewrite bucket_of_locations_snoc.
      unfold bucket_of_locations in Hv.
      destruct (dict_get d v) as [b|] eqn:Hg.
      * rewrite Hg. cbn [option_map].
        destruct (error_locations v cells) as [|x l] eqn:El;
          [discriminate|].
        injection Hv as ->. reflexivity.
      * rewrite dict_get_set, String.eqb_refl. cbn [option_map].
        destruct (error_locations v cells) as [|x l] eqn:El;
          [reflexivity | discriminate].
    + rewrite app_nil_r.
      destruct (dict_get d v) as [b|] eqn:Hg; [apply Hd|].
      rewrite dict_get_set.
      destruct (String.eqb_spec v sentinel); [contradiction | apply Hd].
  - destruct (dict_get d v) as [b|] eqn:Hg.
    + rewrite (sum_counts_update d v incr b Hg). cbn [incr count]. lia.
    + rewrite (sum_counts_update _ v incr {| count := 0%Z; locations := [] |}).
      * rewrite sum_counts_set_new by assumption. cbn [incr count]. lia.
      * now rewrite dict_get_set, String.eqb_refl.
Qed.

Lemma scanned_fold (cells : list (string * cell)) :
  scanned cells (fold_left scan_step cells ([], 0%Z)).
Proof.
  induction cells as [|lc cells IH] using rev_ind; [apply scanned_nil|].
  rewrite fold_left_app. cbn [fold_left]. now apply scanned_step.
Qed.

Lemma is_error_value_In (v : string) :
  is_error_value v = true <-> In v ERROR_VALUES.
Proof.
  unfold is_error_value. rewrite existsb_exists. split.
  - intros (x & Hx & E). apply String.eqb_eq in E. now subst.
  - intros H. exists v. split; [assumption | apply String.eqb_refl].
Qed.

(** The text of a formula, which starts with [=], is no sentinel. *)
Lemma formula_text_is_no_sentinel (text : string) :
  startswith "=" text = true -> is_error_value text = false.
Proof.
  destruct text as [|c text]; [discriminate|].
  unfold startswith. cbn [String.prefix].
  destruct (ascii_dec "=" c) as [<-|]; [reflexivity | discriminate].
Qed.

Lemma has_error_any (sentinel : string) (cells : list (string * cell)) :
  is_error_value sentinel = true ->
  error_locations sentinel cells <> [] ->
  filter has_any_error cells <> [].
Proof.
  intros He. unfold error_locations.
  induction cells as [|lc cells IH]; cbn [filter map]; [congruence|].
  intros Hne.
  destruct (has_error sentinel lc) eqn:Hh.
  - unfold has_error in Hh. apply andb_true_iff in Hh as [Hf Hv].
    apply String.eqb_eq in Hv.
    unfold has_any_error. rewrite Hf, Hv, He. discriminate.
  - destruct (has_any_error lc); [discriminate | now apply IH].
Qed.

Lemma scan_workbook_loop (wb : workbook) :
  NoDup (sheetnames wb) ->
  scan_sheets wb (sheetnames wb) ([], 0%Z)
  = Ok (fold_left scan_step (located_cells wb) ([], 0%Z)).
Proof.
  intros Hnd.
  assert (H := scan_sheets_visits_all wb [] ([], 0%Z) Hnd).
  cbn [app] in H. rewrite H.
  now rewrite scan_all_flat.
Qed.

(** What the scan makes of the values of the cells.  For a workbook that
    loads, with its sheets under distinct titles, the report of
    [validate_workbook_python] counts as [total_formulas] the cells of type
    ['f']; for each sentinel the bucket of the summary holds the locations
    ["SheetName!CellRef"] of the cells of type ['f'] whose value reads as
    that sentinel, in the order of the scan (sheets as declared, rows from
    the first, cells along the row), with their number as count, and
    there is no bucket for any other key; [total_errors] is the number of
    matches; the status is ['success'] when nothing matches and
    ['errors_found'] otherwise.  It is the value of the cell that is
    compared, not the display value cached in the file. *)
Lemma scan_report_of_values (w : world) (filepath : path) (wb : workbook) :
  files w filepath = Some (Loads wb) ->
  NoDup (sheetnames wb) ->
  let report := validate_workbook_python w filepath in
  let cells := located_cells wb in
  total_formulas report = Z.of_nat (List.length (filter is_formula cells))
  /\ (forall sentinel,
         In sentinel ERROR_VALUES ->
         report_bucket report sentinel
         = bucket_of_locations (error_locations sentinel cells))
  /\ (forall key, ~ In key ERROR_VALUES -> report_bucket report key = None)
  /\ total_errors report
     = Z.of_nat (List.length (filter has_any_error cells))
  /\ status report
     = (if (List.length (filter has_any_error cells) =? 0)%nat
        then "success" else "errors_found").
Proof.
  intros Hfile Hnd report cells.
  assert (Hinv := scanned_fold cells).
  assert (Hrep : report
                 = match scan_workbook wb with
                   | Ok r => r
                   | Raise e =>
                       {| status := "error"; total_errors := 0;
                          total_formulas := 0;
                          error_summary := Failure (str_of_exception e);
                          validation_method := "python_fallback" |}
                   end).
  { unfold report, validate_workbook_python, load_workbook.
    now rewrite Hfile. }
  unfold scan_workbook in Hrep.
  rewrite (scan_workbook_loop wb Hnd) in Hrep. cbn [bind] in Hrep.
  fold cells in Hrep.
  destruct (fold_left scan_step cells ([], 0%Z)) as [d n].
  destruct Hinv as (Hn & Hd & Hs). cbn [fst snd] in Hn, Hd, Hs.
  assert (Hin : forall sentinel, In sentinel ERROR_VALUES ->
            dict_get d sentinel
            = bucket_of_locations (error_locations sentinel cells)).
  { intros sentinel Hin. apply is_error_value_In in Hin.
    now rewrite Hd, Hin. }
  assert (Hout : forall key, ~ In key ERROR_VALUES -> dict_get d key = None).
  { intros key Hnot. rewrite Hd.
    destruct (is_error_value key) eqn:E; [|reflexivity].
    now apply is_error_value_In in E. }
  destruct d as [|[k b] d]; rewrite Hrep; unfold report_bucket;
    cbn [ValidationReport_success total_formulas error_summary total_errors
         status].
  - unfold sum_counts in Hs. cbn [fold_left] in Hs.
    assert (Hz : List.length (filter has_any_error cells) = 0%nat) by lia.
    rewrite Hz. cbn [Nat.eqb].
    repeat split; try assumption; try reflexivity; lia.
  - assert (Hk : dict_get ((k, b) :: d) k = Some b)
      by (cbn [dict_get]; now rewrite String.eqb_refl).
    rewrite Hd in Hk.
    destruct (is_error_value k) eqn:Ek; [|discriminate].
    assert (Hany : filter has_any_error cells <> []).
    { apply (has_error_any k); [assumption|].
      intros E. rewrite E in Hk. discriminate. }
    destruct (filter has_any_error cells) as [|x l] eqn:El; [congruence|].
    cbn [List.length Nat.eqb].
    repeat split; assumption.
Qed.

End Scan.

Example scan_sample_workbook :
  validate_workbook_python sample_world sample_path
  = {| status := "errors_found";
       total_errors := 1;
       total_formulas := 1;
       error_summary :=
         Errors [("#DIV/0!", {| count := 1; locations := ["Sheet1!B1"] |})];
       validation_method := "python_fallback" |}.
Proof. reflexivity. Qed.

(** The scan of the sample workbook. *)
Lemma scan_report_of_values_sample :
  total_formulas (validate_workbook_python sample_world sample_path) = 1%Z
  /\ report_bucket (validate_workbook_python sample_world sample_path)
                   "#DIV/0!"
     = Some {| count := 1; locations := ["Sheet1!B1"] |}
  /\ status (validate_workbook_python sample_world sample_path)
     = "errors_found".
Proof.
  assert (Hnd : NoDup (sheetnames sample_workbook)).
  { repeat constructor. intros []. }
  destruct (scan_report_of_values sample_world sample_path sample_workbook
              eq_refl Hnd) as (Hf & Hb & _ & _ & Hs).
  split; [exact Hf|]. split; [|exact Hs].
  apply (Hb "#DIV/0!"). now left.
Defined.

(* ------------------------------------------------------------------ *)
(** ** Repair *)
(* ------------------------------------------------------------------ *)

(** C2. On a workbook whose only formula has no error at all, a repair with
    unspecified error types still rewrites that formula: no cell shows a
    sentinel, the scan reports no error, and the repair wraps
    [=SUM(A1:A2)] in [IFERROR(..., 0)] and counts one repair attempted and
    successful. *)
Theorem C2_repair_rewrites_error_free_formula :
  filter has_any_error (located_cells healthy_workbook) = []
  /\ validate_workbook_python healthy_world sample_path
     = ValidationReport_success 1 "python_fallback"
  /\ fst (repair_errors healthy_world "20240115_143022" sample_path None true)
     = Ok {| repairs_attempted := 1;
             repairs_successful := 1;
             backup_file := Some "/work/model_backup_20240115_143022.xlsx";
             details :=
               [("#DIV/0!",
                 {| attempted := 1; successful := 1;
                    method := "IFERROR wrapper" |})];
             error := None |}
  /\ files (snd (repair_errors healthy_world "20240115_143022" sample_path
                               None true)) sample_path
     = Some (Loads
               [("Sheet1",
                 [[Cell "A1" "n" (PyInt 10);
                   Cell "B1" "f" (PyStr "=IFERROR(SUM(A1:A2), 0)")];
                  [Cell "A2" "n" (PyInt 20); Cell "B2" "n" PyNone]])]).
Proof. repeat split; reflexivity. Qed.

Section Repair.

Lemma wrapper_found (body : string) :
  contains "IFERROR" (upper ("=IFERROR(" ++ body)) = true.
Proof. reflexivity. Qed.

Lemma repair_cell_settled (counts : Z * Z) (c : cell) :
  settled c = true -> repair_cell counts c = (c, counts).
Proof.
  unfold settled, repair_cell. destruct counts as [a b].
  destruct (value c); try reflexivity.
  intros H. apply negb_true_iff in H. now rewrite H.
Qed.

Lemma repair_cell_settles (counts : Z * Z) (c : cell) :
  settled (fst (repair_cell counts c)) = true.
Proof.
  unfold repair_cell. destruct counts as [a b].
  destruct (value c) as [|formula| | |] eqn:Hv;
    try (cbn [fst]; unfold settled; now rewrite Hv).
  destruct ((data_type c =? "f")
            && negb (contains "IFERROR" (upper formula))) eqn:Hw.
  - cbn [fst]. unfold settled, set_str_value. cbn [value data_type].
    now rewrite wrapper_found, andb_false_r.
  - cbn [fst]. unfold settled. now rewrite Hv, Hw.
Qed.

Lemma repair_row_settled (row : list cell) :
  forall counts,
    forallb settled row = true ->
    map_accum repair_cell counts row = (row, counts).
Proof.
  induction row as [|c row IH]; intros counts H; [reflexivity|].
  cbn [forallb] in H. apply andb_true_iff in H as [Hc Hr].
  cbn [map_accum]. now rewrite (repair_cell_settled counts c Hc), IH.
Qed.

Lemma repair_row_settles (row : list cell) :
  forall counts,
    forallb settled (fst (map_accum repair_cell counts row)) = true.
Proof.
  induction row as [|c row IH]; intros counts; [reflexivity|].
  cbn [map_accum].
  assert (Hc := repair_cell_settles counts c).
  destruct (repair_cell counts c) as [c' counts'].
  specialize (IH counts').
  destruct (map_accum repair_cell counts' row) as [row' counts''].
  cbn [fst forallb] in *. now rewrite Hc, IH.
Qed.

Lemma repair_sheet_settled (ws : worksheet) :
  forall counts,
    sheet_settled ws = true -> repair_sheet ws counts = (ws, counts).
Proof.
  unfold sheet_settled, repair_sheet.
  induction ws as [|row ws IH]; intros counts H; [reflexivity|].
  cbn [forallb] in H. apply andb_true_iff in H as [Hr Hw].
  cbn [map_accum]. now rewrite (repair_row_settled row counts Hr), IH.
Qed.

Lemma repair_sheet_settles (ws : worksheet) :
  forall counts, sheet_settled (fst (repair_sheet ws counts)) = true.
Proof.
  unfold sheet_settled, repair_sheet.
  induction ws as [|row ws IH]; intros counts; [reflexivity|].
  cbn [map_accum].
  assert (Hr := repair_row_settles row counts).
  destruct (map_accum repair_cell counts row) as [row' counts'].
  specialize (IH counts').
  destruct (map_accum _ counts' ws) as [ws' counts''].
  cbn [fst forallb] in *. now rewrite Hr, IH.
Qed.

(** *** Sheets reached by title *)

Lemma getitem_setitem_same (wb : workbook) (title : string)
      (ws ws' : worksheet) :
  getitem wb title = Ok ws -> getitem (setitem wb title ws') title = Ok ws'.
Proof.
  induction wb as [|[t w] wb IH]; cbn [getitem setitem]; [discriminate|].
  destruct (String.eqb_spec t title) as [->|Hne]; cbn [getitem].
  - now rewrite String.eqb_refl.
  - destruct (String.eqb_spec t title); [contradiction | exact IH].
Qed.

Lemma getitem_setitem_other (wb : workbook) (title other : string)
      (ws' : worksheet) :
  other <> title ->
  getitem (setitem wb title ws') other = getitem wb other.
Proof.
  intros Hne.
  induction wb as [|[t w] wb IH]; cbn [getitem setitem]; [reflexivity|].
  destruct (String.eqb_spec t title) as [->|Ht]; cbn [getitem].
  - destruct (String.eqb_spec title other); [congruence | reflexivity].
  - now rewrite IH.
Qed.

Lemma setitem_same (wb : workbook) (title : string) (ws : worksheet) :
  getitem wb title = Ok ws -> setitem wb title ws = wb.
Proof.
  induction wb as [|[t w] wb IH]; cbn [getitem setitem]; [reflexivity|].
  destruct (String.eqb_spec t title) as [->|Hne].
  - now intros [= ->].
  - intros H. now rewrite IH.
Qed.

Lemma sheetnames_setitem (wb : workbook) (title : string) (ws' : worksheet) :
  sheetnames (setitem wb title ws') = sheetnames wb.
Proof.
  unfold sheetnames.
  induction wb as [|[t w] wb IH]; cbn [setitem map fst]; [reflexivity|].
  destruct (t =? title); cbn [map fst]; [reflexivity | now rewrite IH].
Qed.

(** After the loop every sheet it went through is settled, and so is
    every sheet that was settled before. *)
Lemma repair_sheets_settles (names : list string) :
  forall wb counts wb' counts',
    repair_sheets wb names counts = Ok (wb', counts') ->
    sheetnames wb' = sheetnames wb
    /\ forall title,
         In title names \/ settled_at wb title -> settled_at wb' title.
Proof.
  induction names as [|n names IH]; intros wb counts wb' counts' H.
  - injection H as <- <-. split; [reflexivity|]. now intros title [[]|].
  - cbn [repair_sheets] in H.
    destruct (getitem wb n) as [ws|e] eqn:Hg; [|discriminate].
    cbn [bind] in H.
    assert (Hs := repair_sheet_settles ws counts).
    destruct (repair_sheet ws counts) as [ws1 counts1]. cbn [fst] in Hs.
    apply IH in H as [Hnames Hsettled].
    rewrite sheetnames_setitem in Hnames. split; [assumption|].
    intros title Ht. apply Hsettled.
    destruct (string_dec title n) as [->|Hne].
    + right. intros ws2 Hg2.
      rewrite (getitem_setitem_same wb n ws ws1 Hg) in Hg2.
      now injection Hg2 as <-.
    + destruct Ht as [[E|Hin]|Hold]; [congruence | now left |].
      right. intros ws2 Hg2.
      rewrite getitem_setitem_other in Hg2 by assumption.
      now apply Hold.
Qed.

(** On sheets that are settled the loop changes nothing and counts
    nothing. *)
Lemma repair_sheets_settled (names : list string) :
  forall wb counts,
    (forall title, In title names -> settled_at wb title) ->
    repair_sheets wb names counts = Ok (wb, counts)
    \/ exists e, repair_sheets wb names counts = Raise e.
Proof.
  induction names as [|n names IH]; intros wb counts Hall; [now left|].
  cbn [repair_sheets].
  destruct (getitem wb n) as [ws|e] eqn:Hg; [|right; now exists e].
  cbn [bind].
  rewrite (repair_sheet_settled ws counts)
    by (apply (Hall n); [now left | assumption]).
  rewrite (setitem_same wb n ws Hg).
  apply IH. intros title Hin. apply Hall. now right.
Qed.

(** A second pass of the repair over the workbook left by a first pass
    counts nothing. *)
Lemma repair_loaded_twice (wb wb1 : workbook)
      (error_types : option (list string)) (results0 results1 : repair_results) :
  repair_loaded wb error_types results0 = Ok (wb1, results1) ->
  forall results,
    (exists e, repair_loaded wb1 error_types results = Raise e)
    \/ repair_loaded wb1 error_types results
       = Ok (wb1,
             if selects_div0 error_types then
               {| repairs_attempted := (repairs_attempted results + 0)%Z;
                  repairs_successful := (repairs_successful results + 0)%Z;
                  backup_file := backup_file results;
                  details :=
                    list_append (details results)
                      ("#DIV/0!",
                       {| attempted := 0; successful := 0;
                          method := "IFERROR wrapper" |});
                  error := error results |}
             else results).
Proof.
  unfold repair_loaded. intros H results.
  destruct (selects_div0 error_types).
  - destruct (repair_sheets wb (sheetnames wb) (0%Z, 0%Z))
      as [[wb' [a b]]|e] eqn:Hr; [|discriminate].
    cbn [bind] in H. injection H as <- _.
    apply repair_sheets_settles in Hr as [Hnames Hsettled].
    rewrite Hnames.
    destruct (repair_sheets_settled (sheetnames wb) wb' (0%Z, 0%Z))
      as [->|[e ->]].
    + intros title Hin. apply Hsettled. now left.
    + right. reflexivity.
    + left. now exists e.
  - injection H as <- _. now right.
Qed.

End Repair.

(* ------------------------------------------------------------------ *)
(** ** Files: backup, repair twice, unreadable workbooks *)
(* ------------------------------------------------------------------ *)

Section Paths.

Example stem_and_suffix :
  map (fun n => (stem (Path "/tmp/" n), suffix (Path "/tmp/" n)))
      ["model.xlsx"; ".bashrc"; "a.tar.gz"; "a."; "noext"]
  = [("model", ".xlsx"); (".bashrc", ""); ("a.tar", ".gz"); ("a.", "");
     ("noext", "")].
Proof. reflexivity. Qed.

Lemma length_append (a b : string) :
  String.length (a ++ b) = (String.length a + String.length b)%nat.
Proof. induction a as [|c a IH]; cbn; [reflexivity | now rewrite IH]. Qed.

Lemma substring_all (s : string) : substring 0 (String.length s) s = s.
Proof. induction s as [|c s IH]; cbn; [reflexivity | now rewrite IH]. Qed.

Lemma substring_cut (s : string) :
  forall i, substring 0 i s ++ substring i (String.length s - i) s = s.
Proof.
  induction s as [|c s IH]; intros [|i]; cbn; try reflexivity.
  - now rewrite substring_all.
  - now rewrite IH.
Qed.

(** The name of a file is its stem followed by its suffix. *)
Lemma stem_suffix (p : path) : stem p ++ suffix p = name p.
Proof.
  unfold stem, suffix.
  destruct (suffix_index (name p)) as [i|]; [apply substring_cut|].
  induction (name p) as [|c s IH]; cbn; [reflexivity | now rewrite IH].
Qed.

Lemma path_eqb_refl (p : path) : path_eqb p p = true.
Proof. unfold path_eqb. now rewrite !String.eqb_refl. Qed.

Lemma path_eqb_eq (p q : path) : path_eqb p q = true <-> p = q.
Proof.
  unfold path_eqb. destruct p as [pp pn], q as [qp qn]. cbn [parent name].
  rewrite andb_true_iff, !String.eqb_eq. split.
  - now intros [-> ->].
  - now intros [= -> ->].
Qed.

Lemma backup_path_name (filepath : path) (now : string) :
  name (backup_path_of filepath now) <> name filepath.
Proof.
  cbn [backup_path_of name]. intros E.
  apply (f_equal String.length) in E.
  rewrite <- (stem_suffix filepath) in E.
  rewrite !length_append in E. cbn [String.length] in E. lia.
Qed.

Lemma backup_path_distinct (filepath : path) (now : string) :
  path_eqb (backup_path_of filepath now) filepath = false.
Proof.
  destruct (path_eqb (backup_path_of filepath now) filepath) eqn:E;
    [|reflexivity].
  apply path_eqb_eq in E. apply (f_equal name) in E.
  now apply backup_path_name in E.
Qed.

End Paths.

Section RepairFiles.

(** What a call that ends without an error has done: it loaded a
    workbook, went through it and saved it under the same path. *)
Lemma repair_errors_completed (w w1 : world) (now : string) (filepath : path)
      (error_types : option (list string)) (backup : bool)
      (results : repair_results) :
  repair_errors w now filepath error_types backup = (Ok results, w1) ->
  error results = None ->
  exists wb wb' backup_file,
    repair_loaded wb error_types (initial_results backup_file)
    = Ok (wb', results)
    /\ files w1 filepath = Some (Loads wb').
Proof.
  unfold repair_errors. intros H Herr.
  destruct (if backup
            then bind (copy2 w filepath (backup_path_of filepath now))
                      (fun w' => Ok (w', Some (str_of_path
                                            (backup_path_of filepath now))))
            else Ok (w, None)) as [[w0 bf]|e]; [|discriminate].
  fold (initial_results bf) in H.
  destruct (load_workbook w0 filepath) as [wb|e].
  2:{ injection H as <- _. discriminate. }
  destruct (repair_loaded wb error_types (initial_results bf))
    as [[wb' results']|e] eqn:Hl.
  2:{ injection H as <- _. discriminate. }
  unfold save in H.
  destruct (writable w0 filepath).
  2:{ injection H as <- _. discriminate. }
  injection H as <- <-.
  exists wb, wb', bf. split; [assumption|].
  cbn [write files]. now rewrite path_eqb_refl.
Qed.

(** A call on a file that holds a workbook already gone through, once the
    backup is made. *)
Lemma repair_errors_again (w0 : world) (filepath : path) (wb wb1 : workbook)
      (error_types : option (list string)) (results0 results1 : repair_results)
      (backup_file : option string) :
  repair_loaded wb error_types results0 = Ok (wb1, results1) ->
  load_workbook w0 filepath = Ok wb1 ->
  forall outcome : result repair_results * world,
    outcome
    = match repair_loaded wb1 error_types (initial_results backup_file) with
      | Raise e =>
          (Ok (with_error (initial_results backup_file) e), w0)
      | Ok (wb', results') =>
          match save w0 filepath wb' with
          | Raise e => (Ok (with_error results' e), w0)
          | Ok w2 => (Ok results', w2)
          end
      end ->
    exists results,
      fst outcome = Ok results
      /\ repairs_attempted results = 0%Z
      /\ repairs_successful results = 0%Z.
Proof.
  intros Hfirst Hload outcome ->.
  destruct (repair_loaded_twice wb wb1 error_types results0 results1 Hfirst
                                (initial_results backup_file))
    as [[e ->]| ->].
  - eexists. repeat split.
  - destruct (save w0 filepath wb1);
      destruct (selects_div0 error_types); eexists; repeat split.
Qed.

(** C3. When a repair has run to its end without an error, a second
    repair of the same file with the same error types finds the wrapper
    name in every formula the first one dealt with and passes over it: it
    reports no repair attempted and none successful.  The only way the
    second call does not report is a backup that cannot be made. *)
Theorem C3_repair_idempotent
        (w w1 : world) (now1 now2 : string) (filepath : path)
        (error_types : option (list string)) (backup1 backup2 : bool)
        (results1 : repair_results) :
  repair_errors w now1 filepath error_types backup1 = (Ok results1, w1) ->
  error results1 = None ->
  match fst (repair_errors w1 now2 filepath error_types backup2) with
  | Ok results2 =>
      repairs_attempted results2 = 0%Z /\ repairs_successful results2 = 0%Z
  | Raise e =>
      backup2 = true
      /\ copy2 w1 filepath (backup_path_of filepath now2) = Raise e
  end.
Proof.
  intros Hrun Herr.
  destruct (repair_errors_completed _ _ _ _ _ _ _ Hrun Herr)
    as (wb & wb1 & bf & Hfirst & Hfile).
  unfold repair_errors at 1.
  destruct backup2.
  - unfold copy2 at 1. unfold copy2. rewrite Hfile.
    destruct (writable w1 (backup_path_of filepath now2)) eqn:Hw;
      cbn [bind fst]; [|now split].
    set (w0 := write w1 (backup_path_of filepath now2) (Loads wb1)).
    assert (Hload : load_workbook w0 filepath = Ok wb1).
    { unfold load_workbook, w0. cbn [write files].
      destruct (path_eqb filepath (backup_path_of filepath now2));
        [reflexivity | now rewrite Hfile]. }
    rewrite Hload.
    fold (initial_results
            (Some (str_of_path (backup_path_of filepath now2)))).
    destruct (repair_errors_again w0 filepath wb wb1 error_types _ _
                (Some (str_of_path (backup_path_of filepath now2)))
                Hfirst Hload _ eq_refl) as (results & -> & Ha & Hs).
    now split.
  - assert (Hload : load_workbook w1 filepath = Ok wb1)
      by (unfold load_workbook; now rewrite Hfile).
    rewrite Hload. fold (initial_results None).
    destruct (repair_errors_again w1 filepath wb wb1 error_types _ _ None
                Hfirst Hload _ eq_refl) as (results & -> & Ha & Hs).
    now split.
Qed.

End RepairFiles.

(** C3 on the healthy workbook: a repair, then a second one a second
    later. *)
Lemma C3_repair_idempotent_witness :
  let w1 := snd (repair_errors healthy_world "20240115_143022" sample_path
                               None true) in
  match fst (repair_errors w1 "20240115_143023" sample_path None true) with
  | Ok results2 =>
      repairs_attempted results2 = 0%Z /\ repairs_successful results2 = 0%Z
  | Raise e =>
      true = true
      /\ copy2 w1 sample_path (backup_path_of sample_path "20240115_143023")
         = Raise e
  end.
Proof.
  exact (C3_repair_idempotent
           healthy_world
           (snd (repair_errors healthy_world "20240115_143022" sample_path
                               None true))
           "20240115_143022" "20240115_143023" sample_path None true true
           {| repairs_attempted := 1;
              repairs_successful := 1;
              backup_file := Some "/work/model_backup_20240115_143022.xlsx";
              details :=
                [("#DIV/0!",
                  {| attempted := 1; successful := 1;
                     method := "IFERROR wrapper" |})];
              error := None |}
           eq_refl eq_refl).
Defined.

Section Backup.

(** C4. With [backup] set, the first thing a repair does is to copy the
    file to a sibling path, in the same directory, named after the stem,
    ["_backup_"], the time stamp and the suffix, which is never the path
    of the file itself.  When the copy fails the call ends there with the
    exception of the copy and the files are as they were.  When it is
    made the call ends with a result that records the path of the copy;
    the copy is of the file as it was before the call, taken while the
    file was still untouched, and it still holds that content when the
    call ends. *)
Theorem C4_backup_before_mutation
        (w : world) (now : string) (filepath : path)
        (error_types : option (list string)) :
  let backup_path := backup_path_of filepath now in
  parent backup_path = parent filepath
  /\ name backup_path
     = stem filepath ++ "_backup_" ++ now ++ suffix filepath
  /\ backup_path <> filepath
  /\ (forall e,
         copy2 w filepath backup_path = Raise e ->
         repair_errors w now filepath error_types true = (Raise e, w))
  /\ (forall w0,
         copy2 w filepath backup_path = Ok w0 ->
         files w0 backup_path = files w filepath
         /\ files w0 filepath = files w filepath
         /\ exists results w',
              repair_errors w now filepath error_types true
              = (Ok results, w')
              /\ backup_file results = Some (str_of_path backup_path)
              /\ files w' backup_path = files w filepath).
Proof.
  intros backup_path.
  assert (Hdistinct := backup_path_distinct filepath now).
  fold backup_path in Hdistinct.
  split; [reflexivity|]. split; [reflexivity|]. split; [|split].
  - intros E. rewrite E, path_eqb_refl in Hdistinct. discriminate.
  - intros e He. unfold repair_errors. fold backup_path.
    now rewrite He.
  - intros w0 Hcopy.
    assert (Hw0 : exists f, files w filepath = Some f
                            /\ w0 = write w backup_path f).
    { unfold copy2 in Hcopy.
      destruct (files w filepath) as [f|]; [|discriminate].
      destruct (writable w backup_path); [|discriminate].
      injection Hcopy as <-. now exists f. }
    destruct Hw0 as (f & Hf & ->).
    assert (Hb : files (write w backup_path f) backup_path
                 = files w filepath).
    { cbn [write files]. now rewrite path_eqb_refl. }
    assert (Ho : files (write w backup_path f) filepath = files w filepath).
    { cbn [write files].
      destruct (path_eqb filepath backup_path) eqn:E; [|reflexivity].
      apply path_eqb_eq in E. rewrite <- E, path_eqb_refl in Hdistinct.
      discriminate. }
    split; [assumption|]. split; [assumption|].
    unfold repair_errors. fold backup_path. rewrite Hcopy. cbn [bind].
    set (w0 := write w backup_path f) in *.
    assert (Hkept : forall wb,
               files (write w0 filepath (Loads wb)) backup_path
               = files w filepath).
    { intros wb. cbn [write files]. rewrite Hdistinct. exact Hb. }
    destruct (load_workbook w0 filepath) as [wb|e];
      [|eexists; eexists; repeat split; assumption].
    destruct (repair_loaded wb error_types _) as [[wb' results']|e] eqn:Hl;
      [|eexists; eexists; repeat split; assumption].
    assert (Hbf : backup_file results' = Some (str_of_path backup_path)).
    { unfold repair_loaded in Hl.
      destruct (selects_div0 error_types).
      - destruct (repair_sheets wb (sheetnames wb) (0%Z, 0%Z))
          as [[wb2 [a b]]|]; [|discriminate].
        cbn [bind] in Hl. now injection Hl as _ <-.
      - now injection Hl as _ <-. }
    unfold save. destruct (writable w0 filepath);
      eexists; eexists; repeat split; try eassumption.
    apply Hkept.
Qed.

End Backup.

(** C4 where the copy cannot be written, and where it can. *)
Lemma C4_backup_before_mutation_witness :
  repair_errors readonly_world "20240115_143022" sample_path None true
  = (Raise (OSError
              "Permission denied: /work/model_backup_20240115_143022.xlsx"),
     readonly_world)
  /\ files (snd (repair_errors healthy_world "20240115_143022" sample_path
                               None true))
           (backup_path_of sample_path "20240115_143022")
     = Some (Loads healthy_workbook).
Proof.
  destruct (C4_backup_before_mutation readonly_world "20240115_143022"
              sample_path None) as (_ & _ & _ & Hfail & _).
  destruct (C4_backup_before_mutation healthy_world "20240115_143022"
              sample_path None) as (_ & _ & _ & _ & Hdone).
  split.
  - apply Hfail. reflexivity.
  - destruct (Hdone _ eq_refl) as (_ & _ & results & w' & Hrun & _ & Hkept).
    rewrite Hrun. exact Hkept.
Defined.

Section Unreadable.

(** C9 (as the code has it). When loading the workbook raises,
    [validate_workbook_python] returns the report of status ['error']
    that carries the message of the exception.  [validate_workbook]
    returns that same report when the file exists and the method is one
    of ['auto'], ['libreoffice'] and ['python']; it raises
    [FileNotFoundError] when the file does not exist, and [ValueError]
    when the file exists and the method is none of the three. *)
Theorem C9_unreadable_workbook_reported
        (w : world) (filepath : path) (method : string) (timeout : Z)
        (e : exception) :
  load_workbook w filepath = Raise e ->
  validate_workbook_python w filepath = error_report e
  /\ (path_exists w filepath = true ->
      In method known_methods ->
      validate_workbook w filepath method timeout = Ok (error_report e))
  /\ (path_exists w filepath = false ->
      validate_workbook w filepath method timeout
      = Raise (FileNotFoundError
                 ("File not found: " ++ str_of_path filepath)))
  /\ (path_exists w filepath = true ->
      ~ In method known_methods ->
      validate_workbook w filepath method timeout
      = Raise (ValueError ("Unknown validation method: " ++ method))).
Proof.
  intros Hload.
  assert (Hpy : validate_workbook_python w filepath = error_report e).
  { unfold validate_workbook_python. now rewrite Hload. }
  split; [assumption|]. unfold validate_workbook. rewrite Hpy.
  split; [|split].
  - intros -> Hin. cbn [negb].
    destruct Hin as [<-|[<-|[<-|[]]]]; cbn.
    + now destruct (check_libreoffice_available w).
    + reflexivity.
    + reflexivity.
  - intros ->. reflexivity.
  - intros -> Hnot. cbn [negb].
    destruct (String.eqb_spec method "auto") as [->|_].
    { exfalso. apply Hnot. now left. }
    destruct (String.eqb_spec method "libreoffice") as [->|_].
    { exfalso. apply Hnot. right. now left. }
    destruct (String.eqb_spec method "python") as [->|_].
    { exfalso. apply Hnot. right. right. now left. }
    reflexivity.
Qed.

End Unreadable.

(** C9 on a file that is not a workbook. *)
Lemma C9_unreadable_workbook_reported_witness :
  validate_workbook_python corrupt_world sample_path
  = error_report (InvalidFileException "File is not a zip file")
  /\ validate_workbook corrupt_world sample_path "auto" 30
     = Ok (error_report (InvalidFileException "File is not a zip file")).
Proof.
  destruct (C9_unreadable_workbook_reported corrupt_world sample_path "auto" 30
              (InvalidFileException "File is not a zip file") eq_refl)
    as (Hpy & Hknown & _).
  split; [exact Hpy|].
  apply Hknown; [reflexivity | now left].
Defined.

(** C9, the claim as worded, fails: a scan of a path where no file can be
    read, because there is none, raises [FileNotFoundError]; and a scan of
    a corrupt file under a method the code does not know raises
    [ValueError].  Neither returns a report. *)
Lemma C9_scan_can_raise :
  (exists e, load_workbook corrupt_world missing_path = Raise e)
  /\ validate_workbook corrupt_world missing_path "auto" 30
     = Raise (FileNotFoundError "File not found: /work/absent.xlsx")
  /\ (exists e, load_workbook corrupt_world sample_path = Raise e)
  /\ validate_workbook corrupt_world sample_path "fast" 30
     = Raise (ValueError "Unknown validation method: fast").
Proof.
  split; [eexists; reflexivity|]. split; [reflexivity|].
  split; [eexists; reflexivity | reflexivity].
Qed.

(* ------------------------------------------------------------------ *)
(** ** Cell references: what is accepted and what comes out *)
(* ------------------------------------------------------------------ *)

Section CellReferences.

Lemma is_upper_upper_char (c : ascii) :
  is_upper (upper_char c) = is_letter c.
Proof. destruct c as [[] [] [] [] [] [] [] []]; vm_compute; reflexivity. Qed.

Lemma is_digit_upper_char (c : ascii) :
  is_digit (upper_char c) = is_digit c.
Proof. destruct c as [[] [] [] [] [] [] [] []]; vm_compute; reflexivity. Qed.

Lemma upper_char_digit (c : ascii) :
  is_digit c = true -> upper_char c = c.
Proof.
  destruct c as [[] [] [] [] [] [] [] []]; vm_compute;
    first [reflexivity | discriminate].
Qed.

Lemma digit_is_no_letter (c : ascii) :
  is_digit c = true -> is_letter c = false.
Proof.
  destruct c as [[] [] [] [] [] [] [] []]; vm_compute;
    first [reflexivity | discriminate].
Qed.

Lemma upper_char_idempotent (c : ascii) :
  upper_char (upper_char c) = upper_char c.
Proof. destruct c as [[] [] [] [] [] [] [] []]; vm_compute; reflexivity. Qed.

Lemma upper_char_newline (c : ascii) :
  Ascii.eqb (upper_char c) LF = Ascii.eqb c LF.
Proof. destruct c as [[] [] [] [] [] [] [] []]; vm_compute; reflexivity. Qed.

Lemma upper_idempotent (s : string) : upper (upper s) = upper s.
Proof.
  induction s as [|c s IH]; cbn [upper]; [reflexivity|].
  now rewrite upper_char_idempotent, IH.
Qed.

Lemma upper_append (a b : string) : upper (a ++ b) = upper a ++ upper b.
Proof. induction a as [|c a IH]; cbn; [reflexivity | now rewrite IH]. Qed.

Lemma upper_digits (s : string) : all_chars is_digit s = true -> upper s = s.
Proof.
  induction s as [|c s IH]; cbn [all_chars upper]; [reflexivity|].
  intros H. apply andb_true_iff in H as [Hc Hs].
  now rewrite (upper_char_digit c Hc), IH.
Qed.

Lemma length_upper (s : string) : String.length (upper s) = String.length s.
Proof. induction s as [|c s IH]; cbn; congruence. Qed.

Lemma upper_empty (s : string) : (upper s =? "") = (s =? "").
Proof. destruct s; reflexivity. Qed.

Lemma eos_upper (t : string) : Re.eos (upper t) = Re.eos t.
Proof.
  unfold Re.eos. destruct t as [|c t]; [reflexivity|].
  cbn [upper String.eqb orb].
  rewrite upper_char_newline. destruct (Ascii.eqb c LF); [|reflexivity].
  apply upper_empty.
Qed.

Lemma span_upper_letters (s : string) :
  span is_upper (upper s)
  = (upper (fst (span is_letter s)), upper (snd (span is_letter s))).
Proof.
  induction s as [|c s IH]; [reflexivity|].
  cbn [upper span]. rewrite is_upper_upper_char.
  destruct (is_letter c); [|reflexivity].
  rewrite IH. now destruct (span is_letter s).
Qed.

Lemma span_upper_digits (s : string) :
  span is_digit (upper s)
  = (fst (span is_digit s), upper (snd (span is_digit s))).
Proof.
  induction s as [|c s IH]; [reflexivity|].
  cbn [upper span]. rewrite is_digit_upper_char.
  destruct (is_digit c) eqn:Hc; [|reflexivity].
  rewrite IH, (upper_char_digit c Hc). now destruct (span is_digit s).
Qed.

Lemma span_empty_prefix (p : ascii -> bool) (s : string) :
  fst (span p s) = "" -> span p s = ("", s).
Proof.
  destruct s as [|c s]; [reflexivity|]. cbn [span].
  destruct (p c); [|reflexivity].
  destruct (span p s). discriminate.
Qed.

Lemma span_append (p : ascii -> bool) (a b : string) :
  all_chars p a = true -> fst (span p b) = "" -> span p (a ++ b) = (a, b).
Proof.
  intros Ha Hb. induction a as [|c a IH]; cbn [append].
  - now apply span_empty_prefix.
  - cbn [all_chars] in Ha. apply andb_true_iff in Ha as [Hc Ha].
    cbn [span]. now rewrite Hc, IH.
Qed.

(** A bounded repetition followed by a pattern that cannot start with the
    repeated class takes the whole run of the class. *)
Lemma rep_takes_the_run (p : ascii -> bool) (k : Re.matcher) :
  (forall t, k t = true -> fst (span p t) = "") ->
  forall hi lo s,
    Re.rep lo hi p k s = true ->
    (lo <= String.length (fst (span p s)) <= hi)%nat
    /\ k (snd (span p s)) = true.
Proof.
  intros Hk. induction hi as [|hi IH]; intros lo s H; cbn [Re.rep] in H.
  - destruct lo; [|discriminate].
    rewrite (span_empty_prefix p s (Hk s H)). cbn. split; [lia | assumption].
  - apply orb_true_iff in H as [H|H].
    + destruct lo; [|discriminate].
      rewrite (span_empty_prefix p s (Hk s H)). cbn.
      split; [lia | assumption].
    + destruct s as [|c s]; [discriminate|].
      apply andb_true_iff in H as [Hc H].
      apply IH in H as [Hlen Hrest].
      cbn [span]. rewrite Hc. destruct (span p s) as [a b].
      cbn [fst snd String.length] in *. split; [lia | assumption].
Qed.

Lemma rep_accepts_the_run (p : ascii -> bool) (k : Re.matcher) :
  forall hi lo s,
    (lo <= String.length (fst (span p s)) <= hi)%nat ->
    k (snd (span p s)) = true ->
    Re.rep lo hi p k s = true.
Proof.
  induction hi as [|hi IH]; intros lo s Hlen Hk; cbn [Re.rep].
  - assert (lo = 0%nat) by lia. subst lo.
    assert (E : fst (span p s) = "")
      by (destruct (fst (span p s)); [reflexivity | cbn in Hlen; lia]).
    now rewrite (span_empty_prefix p s E) in Hk.
  - destruct s as [|c s].
    + cbn in Hlen, Hk. assert (lo = 0%nat) by lia. subst lo.
      now rewrite Hk.
    + cbn [span] in Hlen, Hk. destruct (p c) eqn:Hc.
      * apply orb_true_iff. right. cbn [andb].
        destruct (span p s) as [a b] eqn:Hs. cbn [fst snd String.length] in *.
        apply IH; rewrite Hs; cbn [fst snd]; [lia | assumption].
      * cbn [fst snd String.length] in *.
        assert (lo = 0%nat) by lia. subst lo. now rewrite Hk.
Qed.

Lemma eos_starts_no_digit (t : string) :
  Re.eos t = true -> fst (span is_digit t) = "".
Proof.
  unfold Re.eos. intros H. apply orb_true_iff in H as [H|H];
    apply String.eqb_eq in H; subst t; reflexivity.
Qed.

Lemma digits_start_no_upper (t : string) :
  Re.rep 1 7 is_digit Re.eos t = true -> fst (span is_upper t) = "".
Proof.
  intros H.
  apply (rep_takes_the_run is_digit Re.eos eos_starts_no_digit) in H
    as [Hlen _].
  destruct t as [|c t]; [reflexivity|]. cbn [span] in *.
  destruct (is_digit c) eqn:Hd.
  - assert (Hu : is_upper c = false).
    { apply digit_is_no_letter in Hd. unfold is_letter in Hd.
      now apply orb_false_iff in Hd. }
    now rewrite Hu.
  - cbn in Hlen. lia.
Qed.

(** The pattern of a cell reference, read on the two runs of its text. *)
Lemma cell_pattern_runs (s : string) :
  cell_pattern s = true <->
  (1 <= String.length (fst (span is_upper s)) <= 3)%nat
  /\ (1 <= String.length
              (fst (span is_digit (snd (span is_upper s)))) <= 7)%nat
  /\ Re.eos (snd (span is_digit (snd (span is_upper s)))) = true.
Proof.
  unfold cell_pattern. split.
  - intros H.
    apply (rep_takes_the_run is_upper _ digits_start_no_upper) in H
      as [Hl H].
    apply (rep_takes_the_run is_digit _ eos_starts_no_digit) in H as [Hd H].
    now repeat split.
  - intros (Hl & Hd & He).
    apply rep_accepts_the_run; [assumption|].
    now apply rep_accepts_the_run.
Qed.

(** The same on the text as it is given, letters in either case. *)
Lemma is_valid_cell_reference_runs (ref : string) :
  is_valid_cell_reference ref = true <->
  (1 <= String.length (fst (span is_letter ref)) <= 3)%nat
  /\ (1 <= String.length
              (fst (span is_digit (snd (span is_letter ref)))) <= 7)%nat
  /\ Re.eos (snd (span is_digit (snd (span is_letter ref)))) = true.
Proof.
  unfold is_valid_cell_reference.
  destruct (String.eqb_spec ref "") as [->|Hne].
  - split; [discriminate|]. cbn. intros [H _]. lia.
  - rewrite cell_pattern_runs, span_upper_letters. cbn [fst snd].
    rewrite span_upper_digits. cbn [fst snd].
    now rewrite length_upper, eos_upper.
Qed.

End CellReferences.

Section CellCoordinates.
Local Open Scope Z_scope.

Lemma all_upper_of_letters (a : string) :
  all_chars is_letter a = true -> all_chars is_upper (upper a) = true.
Proof.
  induction a as [|c a IH]; cbn [all_chars upper]; [reflexivity|].
  intros H. apply andb_true_iff in H as [Hc Ha].
  now rewrite is_upper_upper_char, Hc, IH.
Qed.

Lemma nonempty_length (s : string) :
  (1 <= String.length s)%nat -> (s =? "")%string = false.
Proof. destruct s; cbn; [lia | reflexivity]. Qed.

(** The two runs of a text made of letters, digits and an end. *)
Lemma cell_text_runs (letters digits tail : string) :
  all_chars is_letter letters = true ->
  all_chars is_digit digits = true ->
  (1 <= String.length digits)%nat ->
  tail = "" \/ tail = String LF "" ->
  span is_letter (letters ++ digits ++ tail) = (letters, digits ++ tail)
  /\ span is_digit (digits ++ tail) = (digits, tail).
Proof.
  intros Hl Hd Hn Ht. split.
  - apply span_append; [assumption|].
    destruct digits as [|d digits]; [cbn in Hn; lia|].
    cbn [all_chars] in Hd. apply andb_true_iff in Hd as [Hd _].
    cbn [append span]. now rewrite (digit_is_no_letter d Hd).
  - apply span_append; [assumption|].
    destruct Ht as [-> | ->]; reflexivity.
Qed.

Lemma span_parts (p : ascii -> bool) (s : string) :
  s = fst (span p s) ++ snd (span p s)
  /\ all_chars p (fst (span p s)) = true.
Proof. destruct (span p s) as [a b] eqn:E. now apply span_split in E. Qed.

Lemma valid_cell_reference_of_shape (letters digits tail : string) :
  all_chars is_letter letters = true ->
  (1 <= String.length letters <= 3)%nat ->
  all_chars is_digit digits = true ->
  (1 <= String.length digits <= 7)%nat ->
  tail = "" \/ tail = String LF "" ->
  is_valid_cell_reference (letters ++ digits ++ tail) = true.
Proof.
  intros Hal Hl Had Hd Ht.
  apply is_valid_cell_reference_runs.
  destruct (cell_text_runs letters digits tail Hal Had (proj1 Hd) Ht)
    as [-> E].
  cbn [fst snd]. rewrite E. cbn [fst snd].
  repeat split; try lia.
  destruct Ht as [-> | ->]; reflexivity.
Qed.

(** X1. Among the ASCII texts [is_valid_cell_reference] accepts exactly
    those made of one to three letters of either case, then one to seven
    digits, then nothing or one final newline.  (Outside ASCII it accepts
    more: a character that [str.upper] turns into letters, a digit of
    another script.) *)
Theorem valid_cell_reference_shape (ref : string) :
  all_chars is_ascii ref = true ->
  (is_valid_cell_reference ref = true <->
   exists letters digits tail,
     ref = letters ++ digits ++ tail
     /\ all_chars is_letter letters = true
     /\ (1 <= String.length letters <= 3)%nat
     /\ all_chars is_digit digits = true
     /\ (1 <= String.length digits <= 7)%nat
     /\ (tail = "" \/ tail = String LF "")).
Proof.
  intros _. split.
  - intros Hv. apply is_valid_cell_reference_runs in Hv as (Hl & Hd & He).
    destruct (span_parts is_letter ref) as [E1 Hal].
    destruct (span_parts is_digit (snd (span is_letter ref))) as [E2 Had].
    exists (fst (span is_letter ref)),
           (fst (span is_digit (snd (span is_letter ref)))),
           (snd (span is_digit (snd (span is_letter ref)))).
    rewrite <- E2. repeat split; try assumption; try lia.
    unfold Re.eos in He. apply orb_true_iff in He as [He|He];
      apply String.eqb_eq in He; [now left | now right].
  - intros (letters & digits & tail & -> & Hal & Hl & Had & Hd & Ht).
    now apply valid_cell_reference_of_shape.
Qed.

(** X1 on [bz5000] and on a reference that lacks its digits. *)
Lemma valid_cell_reference_shape_witness :
  is_valid_cell_reference "bz5000" = true
  /\ ~ (exists letters digits tail,
          "AB" = letters ++ digits ++ tail
          /\ all_chars is_letter letters = true
          /\ (1 <= String.length letters <= 3)%nat
          /\ all_chars is_digit digits = true
          /\ (1 <= String.length digits <= 7)%nat
          /\ (tail = "" \/ tail = String LF "")).
Proof.
  split.
  - apply (proj2 (valid_cell_reference_shape "bz5000" eq_refl)).
    exists "bz", "5000", "". repeat split; try reflexivity; cbn; try lia.
    now left.
  - intros H.
    apply (proj2 (valid_cell_reference_shape "AB" eq_refl)) in H.
    discriminate H.
Defined.

(** The outcome on a text that is accepted, read on its two runs. *)
Lemma get_cell_coordinates_by_runs (ref : string) :
  is_valid_cell_reference ref = true ->
  let letters := fst (span is_letter ref) in
  let digits := fst (span is_digit (snd (span is_letter ref))) in
  all_chars is_letter letters = true
  /\ (1 <= String.length letters <= 3)%nat
  /\ all_chars is_digit digits = true
  /\ get_cell_coordinates ref =
       if (int digits >? EXCEL_MAX_ROWS)
          || (decode_letters 0 (upper letters) >? EXCEL_MAX_COLS)
       then Raise (InvalidCellReferenceError
                     ("Reference out of bounds: " ++ ref))
       else Ok (int digits, decode_letters 0 (upper letters)).
Proof.
  intros Hv letters digits.
  assert (Hruns := proj1 (is_valid_cell_reference_runs ref) Hv).
  destruct Hruns as (Hl & Hd & He). fold letters in Hl. fold digits in Hd.
  assert (Hal : all_chars is_letter letters = true).
  { unfold letters. destruct (span is_letter ref) as [a b] eqn:E.
    now apply span_split in E. }
  assert (Had : all_chars is_digit digits = true).
  { unfold digits. destruct (span is_digit (snd (span is_letter ref)))
      as [a b] eqn:E. now apply span_split in E. }
  repeat split; try assumption; try lia.
  unfold get_cell_coordinates. rewrite Hv. cbn [negb].
  unfold match_col_row. rewrite span_upper_letters.
  rewrite span_upper_digits. cbn [fst snd]. fold letters. fold digits.
  rewrite eos_upper, He.
  rewrite (nonempty_length (upper letters))
    by (rewrite length_upper; lia).
  rewrite (nonempty_length digits) by lia.
  cbn [negb andb].
  unfold column_index_from_string.
  rewrite upper_idempotent, (all_upper_of_letters letters Hal), length_upper.
  destruct (Nat.leb_spec 1 (String.length letters)); [|lia].
  destruct (Nat.leb_spec (String.length letters) 3); [|lia].
  reflexivity.
Qed.

(** X2. On a text made of one to three letters, one to seven digits and
    nothing or a final newline, [get_cell_coordinates] gives the row
    written by the digits and the column written by the letters (in base
    26, whatever their case) when the row is at most 1,048,576 and the
    column at most 16,384, and fails with "Reference out of bounds"
    otherwise. *)
Theorem get_cell_coordinates_decodes (letters digits tail : string) :
  all_chars is_letter letters = true ->
  (1 <= String.length letters <= 3)%nat ->
  all_chars is_digit digits = true ->
  (1 <= String.length digits <= 7)%nat ->
  tail = "" \/ tail = String LF "" ->
  get_cell_coordinates (letters ++ digits ++ tail) =
    if (int digits >? 1048576)
       || (decode_letters 0 (upper letters) >? 16384)
    then Raise (InvalidCellReferenceError
                  ("Reference out of bounds: " ++ letters ++ digits ++ tail))
    else Ok (int digits, decode_letters 0 (upper letters)).
Proof.
  intros Hal Hl Had Hd Ht.
  assert (Hv : is_valid_cell_reference (letters ++ digits ++ tail) = true).
  { apply valid_cell_reference_of_shape; assumption. }
  destruct (get_cell_coordinates_by_runs _ Hv) as (_ & _ & _ & E).
  destruct (cell_text_runs letters digits tail Hal Had (proj1 Hd) Ht)
    as [E1 E2].
  cbv zeta in E. rewrite E1 in E. cbn [fst snd] in E.
  rewrite E2 in E. exact E.
Qed.

(** X2 on [bz5000] followed by a newline. *)
Lemma get_cell_coordinates_decodes_witness :
  get_cell_coordinates ("bz" ++ "5000" ++ String LF "") = Ok (5000, 78).
Proof.
  rewrite (get_cell_coordinates_decodes "bz" "5000" (String LF ""));
    [reflexivity | reflexivity | cbn; lia | reflexivity | cbn; lia
     | now right].
Defined.

Lemma digit_value (c : ascii) :
  is_digit c = true -> 0 <= Z.of_N (N_of_ascii c) - 48 <= 9.
Proof.
  unfold is_digit, in_range. intros H.
  apply andb_true_iff in H as [H1 H2].
  apply N.leb_le in H1, H2. lia.
Qed.

Lemma upper_value (c : ascii) :
  is_upper c = true -> 1 <= Z.of_N (N_of_ascii c) - 64 <= 26.
Proof.
  unfold is_upper, in_range. intros H.
  apply andb_true_iff in H as [H1 H2].
  apply N.leb_le in H1, H2. lia.
Qed.

Lemma int_of_digits_nonneg (s : string) :
  forall acc,
    all_chars is_digit s = true -> 0 <= acc -> 0 <= int_of_digits acc s.
Proof.
  induction s as [|c s IH]; intros acc H Hacc; cbn [int_of_digits];
    [assumption|].
  cbn [all_chars] in H. apply andb_true_iff in H as [Hc Hs].
  apply IH; [assumption|]. pose proof (digit_value c Hc). lia.
Qed.

Lemma decode_letters_grows (s : string) :
  forall acc,
    all_chars is_upper s = true -> 0 <= acc -> acc <= decode_letters acc s.
Proof.
  induction s as [|c s IH]; intros acc H Hacc; cbn [decode_letters]; [lia|].
  cbn [all_chars] in H. apply andb_true_iff in H as [Hc Hs].
  pose proof (upper_value c Hc).
  specialize (IH (acc * 26 + (Z.of_N (N_of_ascii c) - 64)) Hs). lia.
Qed.

Lemma decode_letters_positive (s : string) :
  all_chars is_upper s = true -> (1 <= String.length s)%nat ->
  1 <= decode_letters 0 s.
Proof.
  destruct s as [|c s]; cbn [String.length]; [lia|].
  cbn [all_chars decode_letters]. intros H _.
  apply andb_true_iff in H as [Hc Hs].
  pose proof (upper_value c Hc).
  pose proof (decode_letters_grows s
                (0 * 26 + (Z.of_N (N_of_ascii c) - 64)) Hs). lia.
Qed.

(** X3. Whatever the text, [get_cell_coordinates] either gives a row
    between 0 and 1,048,576 and a column between 1 and 16,384, or fails
    with an [InvalidCellReferenceError], "Invalid cell reference" or
    "Reference out of bounds"; it raises nothing else.  Row 0 is given for
    a text such as [A0]: the row has no lower bound of 1. *)
Theorem get_cell_coordinates_outcome (ref : string) :
  match get_cell_coordinates ref with
  | Ok (row, col) => 0 <= row <= 1048576 /\ 1 <= col <= 16384
  | Raise e =>
      e = InvalidCellReferenceError ("Invalid cell reference: " ++ ref)
      \/ e = InvalidCellReferenceError ("Reference out of bounds: " ++ ref)
  end
  /\ get_cell_coordinates "A0" = Ok (0, 1).
Proof.
  split; [|reflexivity].
  destruct (is_valid_cell_reference ref) eqn:Hv.
  - destruct (get_cell_coordinates_by_runs ref Hv) as (Hal & Hl & Had & ->).
    set (letters := fst (span is_letter ref)) in *.
    set (digits := fst (span is_digit (snd (span is_letter ref)))) in *.
    destruct ((int digits >? EXCEL_MAX_ROWS)
              || (decode_letters 0 (upper letters) >? EXCEL_MAX_COLS))
      eqn:Hb; [now right|].
    apply orb_false_iff in Hb as [Hr Hc].
    unfold EXCEL_MAX_ROWS in Hr. unfold EXCEL_MAX_COLS in Hc.
    pose proof (int_of_digits_nonneg digits 0 Had (Z.le_refl 0)) as Hrow.
    fold (int digits) in Hrow.
    pose proof (decode_letters_positive (upper letters)
                  (all_upper_of_letters letters Hal)) as Hcol.
    rewrite length_upper in Hcol. lia.
  - unfold get_cell_coordinates. rewrite Hv. now left.
Qed.

(** X4. The case of the letters does not matter: a text and its upper-case
    form give the same coordinates, or both fail. *)
Theorem get_cell_coordinates_ignores_case (ref : string) :
  coordinates_of (get_cell_coordinates (upper ref))
  = coordinates_of (get_cell_coordinates ref).
Proof.
  unfold get_cell_coordinates, is_valid_cell_reference.
  rewrite upper_empty, !upper_idempotent.
  destruct (ref =? "")%string; [reflexivity|].
  destruct (cell_pattern (upper ref)); [|reflexivity]. cbn [negb].
  destruct (match_col_row (upper ref)) as [[col_str row_str]|];
    [|reflexivity].
  destruct (column_index_from_string col_str) as [col_num|e];
    [|reflexivity].
  cbn [bind].
  destruct ((int row_str >? EXCEL_MAX_ROWS) || (col_num >? EXCEL_MAX_COLS));
    reflexivity.
Qed.

End CellCoordinates.

(* ------------------------------------------------------------------ *)
(** ** Ranges *)
(* ------------------------------------------------------------------ *)

Section RangeReferences.

Lemma contains_char_append (ch : ascii) (a b : string) :
  contains_char ch (a ++ b) = contains_char ch a || contains_char ch b.
Proof.
  induction a as [|c a IH]; cbn [append contains_char]; [reflexivity|].
  now rewrite IH, orb_assoc.
Qed.

Lemma all_chars_excludes (p : ascii -> bool) (ch : ascii) (s : string) :
  p ch = false -> all_chars p s = true -> contains_char ch s = false.
Proof.
  intros Hp. induction s as [|c s IH]; cbn [all_chars contains_char];
    [reflexivity|].
  intros H. apply andb_true_iff in H as [Hc Hs]. rewrite (IH Hs), orb_false_r.
  destruct (Ascii.eqb_spec c ch) as [->|]; [congruence | reflexivity].
Qed.

(** A valid cell reference holds letters, digits and at most a newline. *)
Lemma valid_cell_reference_excludes (ch : ascii) (ref : string) :
  is_letter ch = false -> is_digit ch = false -> ch <> LF ->
  is_valid_cell_reference ref = true -> contains_char ch ref = false.
Proof.
  intros Hl Hd Hn Hv.
  apply is_valid_cell_reference_runs in Hv as (_ & _ & He).
  destruct (span_parts is_letter ref) as [E1 Hal].
  destruct (span_parts is_digit (snd (span is_letter ref))) as [E2 Had].
  rewrite E1, E2, !contains_char_append.
  rewrite (all_chars_excludes is_letter ch _ Hl Hal).
  rewrite (all_chars_excludes is_digit ch _ Hd Had).
  unfold Re.eos in He. apply orb_true_iff in He as [He|He];
    apply String.eqb_eq in He; rewrite He; [reflexivity|].
  cbn [contains_char append]. rewrite !orb_false_r.
  destruct (Ascii.eqb_spec LF ch); [congruence | reflexivity].
Qed.

Lemma split_once_absent (sep : ascii) (s : string) :
  contains_char sep s = false -> split_once sep s = [s].
Proof.
  induction s as [|c s IH]; cbn [contains_char split_once]; [reflexivity|].
  intros H. apply orb_false_iff in H as [Hc Hs].
  now rewrite Hc, (IH Hs).
Qed.

Lemma split_absent (sep : ascii) (s : string) :
  contains_char sep s = false -> split sep s = [s].
Proof.
  induction s as [|c s IH]; cbn [contains_char split]; [reflexivity|].
  intros H. apply orb_false_iff in H as [Hc Hs].
  now rewrite Hc, (IH Hs).
Qed.

(** A text with a separator: what comes before the first one, and how the
    two ways of splitting go on from there. *)
Lemma split_present (sep : ascii) (s : string) :
  contains_char sep s = true ->
  exists a b,
    s = a ++ String sep b
    /\ contains_char sep a = false
    /\ split sep s = a :: split sep b
    /\ split_once sep s = [a; b].
Proof.
  induction s as [|c s IH]; cbn [contains_char split split_once];
    [discriminate|].
  destruct (Ascii.eqb_spec c sep) as [->|Hne]; cbn [orb].
  - intros _. exists "", s. repeat split.
  - intros H. destruct (IH H) as (a & b & -> & Ha & -> & ->).
    exists (String c a), b. repeat split.
    cbn [contains_char].
    destruct (Ascii.eqb_spec c sep); [contradiction | assumption].
Qed.

Lemma split_single (sep : ascii) (b : string) :
  (List.length (split sep b) =? 1)%nat = negb (contains_char sep b).
Proof.
  destruct (contains_char sep b) eqn:H.
  - destruct (split_present sep b H) as (a & b' & _ & _ & -> & _).
    cbn [List.length negb].
    destruct (split sep b') eqn:E; [|reflexivity].
    destruct b'; cbn in E; [discriminate|].
    destruct (Ascii.eqb a0 sep); [discriminate|].
    destruct (split sep b'); discriminate.
  - now rewrite (split_absent sep b H).
Qed.

(** The second stage of both functions, on a text without qualifier. *)
Lemma cells_of_range (cells : string) :
  (if negb (contains_char ":" cells) then is_valid_cell_reference cells
   else
     if negb (List.length (split ":" cells) =? 2)%nat then false
     else is_valid_cell_reference (nth 0 (split ":" cells) "")
          && is_valid_cell_reference (nth 1 (split ":" cells) "")) = true
  <->
  exists first last,
    (if negb (contains_char ":" cells) then Ok (cells, cells)
     else unpack2 (split_once ":" cells)) = Ok (first, last)
    /\ is_valid_cell_reference first = true
    /\ is_valid_cell_reference last = true.
Proof.
  destruct (contains_char ":" cells) eqn:Hc; cbn [negb].
  - destruct (split_present ":" cells Hc) as (a & b & -> & Ha & -> & ->).
    cbn [unpack2 List.length nth].
    change (S (List.length (split ":" b)) =? 2)%nat
      with (List.length (split ":" b) =? 1)%nat.
    rewrite split_single.
    destruct (contains_char ":" b) eqn:Hb; cbn [negb].
    + split; [discriminate|].
      intros (first & last & [= <- <-] & _ & Hv).
      apply (valid_cell_reference_excludes ":") in Hv;
        [congruence | reflexivity | reflexivity | discriminate].
    + rewrite (split_absent ":" b Hb). cbn [nth].
      rewrite andb_true_iff. split.
      * intros [H1 H2]. now exists a, b.
      * now intros (first & last & [= <- <-] & H1 & H2).
  - split.
    + intros H. now exists cells, cells.
    + now intros (first & last & [= <- <-] & H & _).
Qed.

(** X5. A range reference is valid exactly when [parse_range] cuts it into
    two valid cell references. *)
Theorem valid_range_reference_parses (range_ref : string) :
  is_valid_range_reference range_ref = true <->
  exists first last,
    parse_range range_ref = Ok (first, last)
    /\ is_valid_cell_reference first = true
    /\ is_valid_cell_reference last = true.
Proof.
  unfold is_valid_range_reference, parse_range.
  destruct (String.eqb_spec range_ref "") as [->|Hne].
  - split; [discriminate|]. cbn. now intros (first & last & [= <- <-] & H & _).
  - destruct (contains_char "!" range_ref) eqn:Hq.
    + destruct (split_present "!" range_ref Hq)
        as (sheet & cells & -> & _ & -> & ->).
      cbn [unpack2 bind snd List.length nth].
      change (S (List.length (split "!" cells)) =? 2)%nat
        with (List.length (split "!" cells) =? 1)%nat.
      rewrite split_single.
      destruct (contains_char "!" cells) eqn:Hc; cbn [negb].
      * split; [discriminate|].
        intros (first & last & Hp & H1 & H2). exfalso.
        assert (Hno : forall x, is_valid_cell_reference x = true ->
                                contains_char "!" x = false).
        { intros x Hx.
          apply (valid_cell_reference_excludes "!") in Hx;
            [assumption | reflexivity | reflexivity | discriminate]. }
        destruct (contains_char ":" cells) eqn:Hcol; cbn [negb] in Hp.
        -- destruct (split_present ":" cells Hcol)
             as (a & b & E & _ & _ & Ho).
           rewrite Ho in Hp. injection Hp as <- <-.
           rewrite E, contains_char_append in Hc. cbn [contains_char] in Hc.
           rewrite (Hno _ H1), (Hno _ H2) in Hc. discriminate.
        -- injection Hp as <- <-. rewrite (Hno _ H1) in Hc. discriminate.
      * rewrite (split_absent "!" cells Hc). cbn [nth].
        apply cells_of_range.
    + cbn [bind]. apply cells_of_range.
Qed.

Lemma parse_range_unqualified (cells : string) :
  contains_char "!" cells = false ->
  contains_char ":" cells = false ->
  parse_range cells = Ok (cells, cells).
Proof.
  intros Hq Hc. unfold parse_range. rewrite Hq. cbn [bind]. now rewrite Hc.
Qed.

Lemma split_once_at (sep : ascii) (a b : string) :
  contains_char sep a = false ->
  split_once sep (a ++ String sep b) = [a; b].
Proof.
  intros Ha. induction a as [|c a IH]; cbn [append split_once].
  - now rewrite Ascii.eqb_refl.
  - cbn [contains_char] in Ha. apply orb_false_iff in Ha as [Hc Ha].
    now rewrite Hc, (IH Ha).
Qed.

Lemma contains_char_at (sep : ascii) (a b : string) :
  contains_char sep (a ++ String sep b) = true.
Proof.
  rewrite contains_char_append. cbn [contains_char].
  now rewrite Ascii.eqb_refl, orb_true_r.
Qed.

(** X6. [parse_range] never fails.  It drops what stands before the first
    [!], gives a text without [:] twice, and cuts a text at its first [:];
    so a single cell and the range from that cell to itself parse
    alike. *)
Theorem parse_range_cuts (sheet first last : string) :
  contains_char "!" sheet = false ->
  contains_char "!" first = false ->
  contains_char "!" last = false ->
  contains_char ":" first = false ->
  parse_range first = Ok (first, first)
  /\ parse_range (first ++ ":" ++ last) = Ok (first, last)
  /\ parse_range (sheet ++ "!" ++ first) = Ok (first, first)
  /\ parse_range (sheet ++ "!" ++ first ++ ":" ++ last) = Ok (first, last)
  /\ parse_range (first ++ ":" ++ first) = Ok (first, first)
  /\ forall range_ref, exists a b, parse_range range_ref = Ok (a, b).
Proof.
  intros Hs Hf Hl Hc.
  assert (Hcut : forall x,
             (if negb (contains_char ":" (first ++ String ":" x))
              then Ok (first ++ String ":" x, first ++ String ":" x)
              else unpack2 (split_once ":" (first ++ String ":" x)))
             = Ok (first, x)).
  { intros x. now rewrite contains_char_at, split_once_at. }
  assert (Hnq : forall x, contains_char "!" x = false ->
                  contains_char "!" (first ++ String ":" x) = false).
  { intros x Hx. rewrite contains_char_append. cbn [contains_char].
    now rewrite Hf, Hx. }
  repeat split.
  - now apply parse_range_unqualified.
  - unfold parse_range. cbn [append]. rewrite (Hnq last Hl). cbn [bind].
    apply Hcut.
  - unfold parse_range. cbn [append].
    rewrite contains_char_at, split_once_at by assumption.
    cbn [unpack2 bind snd]. now rewrite Hc.
  - unfold parse_range. cbn [append].
    rewrite contains_char_at, split_once_at by assumption.
    cbn [unpack2 bind snd]. apply Hcut.
  - unfold parse_range. cbn [append]. rewrite (Hnq first Hf). cbn [bind].
    apply Hcut.
  - intros range_ref. unfold parse_range.
    assert (Hsecond : forall cells, exists a b,
               (if negb (contains_char ":" cells) then Ok (cells, cells)
                else unpack2 (split_once ":" cells)) = Ok (a, b)).
    { intros cells. destruct (contains_char ":" cells) eqn:E; cbn [negb].
      - destruct (split_present ":" cells E) as (a & b & _ & _ & _ & ->).
        now exists a, b.
      - now exists cells, cells. }
    destruct (contains_char "!" range_ref) eqn:E.
    + destruct (split_present "!" range_ref E) as (a & b & _ & _ & _ & ->).
      cbn [unpack2 bind snd]. apply Hsecond.
    + cbn [bind]. apply Hsecond.
Qed.

Lemma parse_range_cuts_witness :
  parse_range ("Data" ++ "!" ++ "A1" ++ ":" ++ "B10") = Ok ("A1", "B10")
  /\ parse_range ("A1" ++ ":" ++ "A1") = parse_range "A1".
Proof.
  destruct (parse_range_cuts "Data" "A1" "B10" eq_refl eq_refl eq_refl eq_refl)
    as (H1 & _ & _ & H4 & H5 & _).
  split; [exact H4 | now rewrite H5, H1].
Defined.

End RangeReferences.

(* ------------------------------------------------------------------ *)
(** ** Sheet names that need no change *)
(* ------------------------------------------------------------------ *)

Section ValidSheetNames.

Lemma existsb_orb {A} (f g : A -> bool) (l : list A) :
  existsb (fun x => f x || g x) l = existsb f l || existsb g l.
Proof.
  induction l as [|a l IH]; cbn [existsb]; [reflexivity|].
  rewrite IH. destruct (f a), (g a), (existsb f l); reflexivity.
Qed.

(** A text in which no forbidden character occurs is left as it is. *)
Lemma scrub_nothing (name : string) :
  existsb (fun char => contains_char char name) invalid_chars = false ->
  map_chars scrub_char name = name.
Proof.
  induction name as [|c name IH]; [reflexivity|].
  cbn [contains_char map_chars]. rewrite existsb_orb.
  intros H. apply orb_false_iff in H as [Hc Hn].
  rewrite (IH Hn). unfold scrub_char.
  change (existsb (Ascii.eqb c) invalid_chars = false) in Hc.
  now rewrite Hc.
Qed.

Lemma substring_short (m : nat) (s : string) :
  (String.length s <= m)%nat -> substring 0 m s = s.
Proof.
  revert m. induction s as [|c s IH]; intros [|m] H; cbn in *;
    try reflexivity; try lia.
  rewrite IH; [reflexivity | lia].
Qed.

(** The name that comes out is accepted. *)
Lemma sanitize_sheet_name_accepted (name : string) :
  is_valid_sheet_name (sanitize_sheet_name name) = true.
Proof.
  rewrite sanitize_sheet_name_shape. cbv zeta.
  destruct (String.eqb_spec (slice_to 31 (map_chars scrub_char name)) "")
    as [_|Hne]; [reflexivity|].
  unfold is_valid_sheet_name.
  destruct (String.eqb_spec (slice_to 31 (map_chars scrub_char name)) "")
    as [E|_]; [contradiction|].
  unfold slice_to at 1. rewrite length_substring_0.
  destruct (Nat.ltb_spec 31 (Nat.min 31 (String.length
                                           (map_chars scrub_char name))));
    [lia|].
  cbn [orb]. rewrite existsb_false_forall; [reflexivity|].
  intros char Hin. unfold slice_to. apply contains_char_substring.
  now apply contains_char_scrubbed.
Qed.

(** X7. The valid sheet names are exactly the names that
    [sanitize_sheet_name] returns unchanged, and sanitizing twice is
    sanitizing once. *)
Theorem valid_sheet_names_are_kept (name : string) :
  (is_valid_sheet_name name = true <-> sanitize_sheet_name name = name)
  /\ sanitize_sheet_name (sanitize_sheet_name name) = sanitize_sheet_name name.
Proof.
  assert (Hkeep : forall n, is_valid_sheet_name n = true ->
                            sanitize_sheet_name n = n).
  { intros n Hv. rewrite sanitize_sheet_name_shape. cbv zeta.
    unfold is_valid_sheet_name in Hv.
    destruct (String.eqb_spec n "") as [|Hne]; [discriminate|].
    destruct (Nat.ltb_spec 31 (String.length n)) as [|Hlen];
      [discriminate|].
    cbn [orb] in Hv. apply negb_true_iff in Hv.
    rewrite (scrub_nothing n Hv). unfold slice_to.
    rewrite (substring_short 31 n Hlen).
    destruct (String.eqb_spec n ""); [contradiction | reflexivity]. }
  split; [split|].
  - apply Hkeep.
  - intros E. rewrite <- E. apply sanitize_sheet_name_accepted.
  - apply Hkeep, sanitize_sheet_name_accepted.
Qed.

End ValidSheetNames.

(* ------------------------------------------------------------------ *)
(** ** The warnings of the sanitizer *)
(* ------------------------------------------------------------------ *)

Section PatternsFound.

(** [re.search] finds the pattern at the start of some suffix. *)
Lemma search_spec (m : Re.matcher) (s : string) :
  Re.search m s = true <->
  exists before rest, s = before ++ rest /\ m rest = true.
Proof.
  split.
  - induction s as [|c s IH]; cbn [Re.search]; intros H.
    + rewrite orb_false_r in H. now exists "", "".
    + apply orb_true_iff in H as [H|H].
      * now exists "", (String c s).
      * destruct (IH H) as (b & r & -> & Hm). now exists (String c b), r.
  - intros (b & r & -> & Hm). induction b as [|c b IH]; cbn [append].
    + destruct r; cbn [Re.search]; now rewrite Hm.
    + cbn [Re.search]. rewrite IH. apply orb_true_r.
Qed.

(** A literal under [re.IGNORECASE] takes a word that is the literal up to
    case. *)
Lemma lit_ci_spec (l : string) (k : Re.matcher) :
  forall s,
    Re.lit_ci l k s = true <->
    exists word rest,
      s = word ++ rest /\ upper word = upper l /\ k rest = true.
Proof.
  induction l as [|a l IH]; intros s; cbn [Re.lit_ci upper].
  - split.
    + intros H. now exists "", s.
    + intros (word & rest & -> & Hu & Hk).
      destruct word; [exact Hk | discriminate Hu].
  - unfold Re.chr. destruct s as [|c s].
    + split; [discriminate|]. intros (word & rest & E & Hu & _).
      destruct word; [discriminate Hu | discriminate E].
    + split.
      * intros H. apply andb_true_iff in H as [Hc H].
        apply IH in H as (word & rest & -> & Hu & Hk).
        exists (String c word), rest. cbn [append upper].
        repeat split; trivial.
        unfold Re.ignorecase in Hc. apply Ascii.eqb_eq in Hc.
        now rewrite Hc, Hu.
      * intros (word & rest & E & Hu & Hk).
        destruct word as [|c' word]; [discriminate Hu|].
        cbn [append upper] in E, Hu. injection E as -> ->.
        injection Hu as Hc Hu. apply andb_true_iff. split.
        -- unfold Re.ignorecase. now apply Ascii.eqb_eq.
        -- apply IH. now exists word, rest.
Qed.

(** [p*] takes a run of characters of the class. *)
Lemma star_spec (p : ascii -> bool) (k : Re.matcher) (s : string) :
  Re.star p k s = true <->
  exists run rest, s = run ++ rest /\ all_chars p run = true /\ k rest = true.
Proof.
  split.
  - induction s as [|c s IH]; cbn [Re.star]; intros H.
    + rewrite orb_false_r in H. now exists "", "".
    + apply orb_true_iff in H as [H|H].
      * now exists "", (String c s).
      * apply andb_true_iff in H as [Hc H].
        destruct (IH H) as (run & rest & -> & Ha & Hk).
        exists (String c run), rest. cbn [append all_chars].
        now rewrite Hc, Ha.
  - intros (run & rest & -> & Ha & Hk).
    induction run as [|c run IH]; cbn [append].
    + destruct rest; cbn [Re.star]; now rewrite Hk.
    + cbn [all_chars] in Ha. apply andb_true_iff in Ha as [Hc Ha].
      cbn [Re.star]. rewrite Hc, (IH Ha). apply orb_true_r.
Qed.

(** One given character. *)
Lemma chr_exactly_spec (a : ascii) (k : Re.matcher) (s : string) :
  Re.chr (Re.exactly a) k s = true <->
  exists rest, s = String a rest /\ k rest = true.
Proof.
  unfold Re.chr, Re.exactly. destruct s as [|c s].
  - split; [discriminate | now intros (rest & E & _)].
  - split.
    + intros H. apply andb_true_iff in H as [Hc H].
      apply Ascii.eqb_eq in Hc as ->. now exists s.
    + intros (rest & E & Hk). injection E as -> ->.
      now rewrite Ascii.eqb_refl.
Qed.

(** The signature of a function: [NAME\s*\(]. *)
Lemma function_call_found (name text : string) :
  Re.search (Re.lit_ci name (Re.star is_space (Re.chr open_paren Re.accept)))
            text = true
  <-> calls_function name text.
Proof.
  unfold calls_function, open_paren. rewrite search_spec. split.
  - intros (before & rest & -> & H).
    apply lit_ci_spec in H as (word & rest1 & -> & Hu & H).
    apply star_spec in H as (spaces & rest2 & -> & Hs & H).
    apply chr_exactly_spec in H as (after & -> & _).
    now exists before, word, spaces, after.
  - intros (before & word & spaces & after & -> & Hu & Hs).
    exists before, (word ++ spaces ++ "(" ++ after). split; [reflexivity|].
    apply lit_ci_spec. exists word, (spaces ++ "(" ++ after).
    split; [reflexivity|]. split; [assumption|].
    apply star_spec. exists spaces, ("(" ++ after). split; [reflexivity|]. split; [assumption|].
    apply chr_exactly_spec. now exists after.
Qed.

(** The signature of a reference to another workbook: [\[[\w\s]+\.xl]. *)
Lemma workbook_name_found (text : string) :
  Re.search
    (Re.chr (Re.exactly "[")
       (Re.plus (fun c => is_word c || is_space c)
          (Re.chr (Re.exactly ".") (Re.lit_ci "xl" Re.accept))))
    text = true
  <-> names_workbook text.
Proof.
  unfold names_workbook. rewrite search_spec. split.
  - intros (before & rest & -> & H).
    apply chr_exactly_spec in H as (rest1 & -> & H).
    unfold Re.plus, Re.chr in H. destruct rest1 as [|c rest1];
      [discriminate H|].
    apply andb_true_iff in H as [Hc H].
    apply star_spec in H as (run & rest2 & -> & Hr & H).
    apply chr_exactly_spec in H as (rest3 & -> & H).
    apply lit_ci_spec in H as (extension & after & -> & Hu & _).
    exists before, (String c run), extension, after.
    repeat split; trivial; [discriminate|].
    cbn [all_chars]. now rewrite Hc, Hr.
  - intros (before & inside & extension & after & -> & Hne & Hi & Hu).
    destruct inside as [|c run]; [contradiction|].
    cbn [all_chars] in Hi. apply andb_true_iff in Hi as [Hc Hr].
    exists before, ("[" ++ String c run ++ "." ++ extension ++ after).
    split; [reflexivity|].
    apply chr_exactly_spec.
    exists (String c run ++ "." ++ extension ++ after).
    split; [reflexivity|].
    unfold Re.plus, Re.chr. cbn [append]. rewrite Hc. cbn [andb].
    apply star_spec. exists run, ("." ++ extension ++ after).
    split; [reflexivity|]. split; [assumption|].
    apply chr_exactly_spec. exists (extension ++ after).
    split; [reflexivity|].
    apply lit_ci_spec. now exists extension, after.
Qed.

(** The signature of the combination: [INDIRECT\s*\(.*HYPERLINK]. *)
Lemma indirect_hyperlink_found (text : string) :
  Re.search
    (Re.lit_ci "INDIRECT"
       (Re.star is_space
          (Re.chr open_paren
             (Re.star Re.dot (Re.lit_ci "HYPERLINK" Re.accept)))))
    text = true
  <-> indirect_hyperlink text.
Proof.
  unfold indirect_hyperlink, open_paren. rewrite search_spec. split.
  - intros (before & rest & -> & H).
    apply lit_ci_spec in H as (word & rest1 & -> & Hu & H).
    apply star_spec in H as (spaces & rest2 & -> & Hs & H).
    apply chr_exactly_spec in H as (rest3 & -> & H).
    apply star_spec in H as (line & rest4 & -> & Hl & H).
    apply lit_ci_spec in H as (link & after & -> & Hk & _).
    now exists before, word, spaces, line, link, after.
  - intros (before & word & spaces & line & link & after
            & -> & Hu & Hs & Hl & Hk).
    exists before, (word ++ spaces ++ "(" ++ line ++ link ++ after).
    split; [reflexivity|].
    apply lit_ci_spec. exists word, (spaces ++ "(" ++ line ++ link ++ after).
    split; [reflexivity|]. split; [assumption|].
    apply star_spec. exists spaces, ("(" ++ line ++ link ++ after).
    split; [reflexivity|]. split; [assumption|].
    apply chr_exactly_spec. exists (line ++ link ++ after).
    split; [reflexivity|].
    apply star_spec. exists line, (link ++ after). split; [reflexivity|]. split; [assumption|].
    apply lit_ci_spec. now exists link, after.
Qed.

(** Which warnings of the table a text gets. *)
Lemma matching_warnings_In (text : string) :
  (In "WEBSERVICE function (network access)" (matching_warnings text)
   <-> calls_function "WEBSERVICE" text)
  /\ (In "HYPERLINK function (potential phishing)" (matching_warnings text)
      <-> calls_function "HYPERLINK" text)
  /\ (In "CALL function (external DLL execution)" (matching_warnings text)
      <-> calls_function "CALL" text)
  /\ (In "External workbook reference" (matching_warnings text)
      <-> names_workbook text)
  /\ (In "INDIRECT+HYPERLINK combination (security risk)"
         (matching_warnings text)
      <-> indirect_hyperlink text).
Proof.
  rewrite <- !function_call_found, <- workbook_name_found,
    <- indirect_hyperlink_found.
  unfold matching_warnings, dangerous_patterns. cbn [filter fst].
  repeat match goal with
         | |- context [if Re.search ?p text then _ else _] =>
             destruct (Re.search p text)
         end;
    cbn [map snd In];
    repeat split; intros H; try reflexivity; try discriminate H;
    auto 10;
    repeat (destruct H as [H|H]; try discriminate H); contradiction.
Qed.

End PatternsFound.

Section SanitizerWarnings.
Local Open Scope Z_scope.

Lemma threat_loop_collects (text : string)
      (table : list (Re.matcher * string)) :
  forall found,
    fold_left (fun warnings '(pattern, warning) =>
                 if Re.search pattern text
                 then list_append warnings warning else warnings)
              table found
    = (found
         ++ map snd (filter (fun entry => Re.search (fst entry) text) table))%list.
Proof.
  induction table as [|[p w] table IH]; intros found; cbn [fold_left filter].
  - now rewrite app_nil_r.
  - rewrite IH. cbn [fst]. destruct (Re.search p text); [|reflexivity].
    unfold list_append. cbn [map snd]. now rewrite <- app_assoc.
Qed.

(** The list of the warnings, in its order. *)
Lemma warnings_listed (formula : string) (allow_external : bool) :
  let text := fst (sanitize_formula formula allow_external) in
  let nesting := count_char "(" text - count_char ")" text in
  snd (sanitize_formula formula allow_external)
  = (matching_warnings text
       ++ (if len text >? MAX_FORMULA_LENGTH
           then [("Formula exceeds recommended length ("
                    ++ str_of_int (len text) ++ " chars)")%string]
           else [])
       ++ (if Z.abs nesting >? MAX_FORMULA_NESTING
           then [("Formula nesting depth suspicious ("
                    ++ str_of_int nesting ++ ")")%string]
           else []))%list.
Proof.
  intros text nesting.
  unfold nesting, text, sanitize_formula, matching_warnings.
  cbn [fst snd]. rewrite threat_loop_collects. cbn [app].
  unfold list_append.
  destruct (len _ >? MAX_FORMULA_LENGTH);
    destruct (Z.abs _ >? MAX_FORMULA_NESTING);
    rewrite <- ?app_assoc, ?app_nil_r; reflexivity.
Qed.

(** A warning of the table is among the warnings exactly when its
    signature is found: the two other warnings start otherwise. *)
Lemma table_warning_In (formula : string) (allow_external : bool)
      (c : ascii) (rest : string) :
  c <> "F"%char ->
  In (String c rest) (snd (sanitize_formula formula allow_external))
  <-> In (String c rest)
         (matching_warnings (fst (sanitize_formula formula allow_external))).
Proof.
  intros Hc. rewrite warnings_listed. rewrite !in_app_iff. split.
  - intros [H|[H|H]]; [exact H| |].
    + destruct (len _ >? MAX_FORMULA_LENGTH); [|contradiction].
      destruct H as [H|[]]. injection H as H _. congruence.
    + destruct (Z.abs _ >? MAX_FORMULA_NESTING); [|contradiction].
      destruct H as [H|[]]. injection H as H _. congruence.
  - intros H. now left.
Qed.

(** X8. For an ASCII formula, the warnings of [sanitize_formula] are, in
    this order: the warning of each threat signature found in the returned
    text, in the order of the table; the length warning when the text has
    more than 8000 characters; the nesting warning when its opening and
    closing parentheses differ by more than 64.  Nothing else is ever
    reported, so the list is empty exactly when none of the three applies.
    The warning of WEBSERVICE, of HYPERLINK and of CALL is reported
    exactly when the text holds that name, in whatever case, then any
    white space and an opening parenthesis; the warning of an external
    workbook exactly when it holds an opening bracket, one or more word
    characters and white space, then [.xl] in whatever case; the warning
    of the combination exactly when it holds a call of INDIRECT and,
    further on the same line, the name HYPERLINK.  (On a text outside
    ASCII the patterns of the source find more: a no-break space counts
    as white space there.) *)
Theorem sanitize_formula_warnings (formula : string) (allow_external : bool) :
  all_chars is_ascii formula = true ->
  let text := fst (sanitize_formula formula allow_external) in
  let nesting := count_char "(" text - count_char ")" text in
  let warnings := snd (sanitize_formula formula allow_external) in
  warnings
  = (matching_warnings text
       ++ (if len text >? MAX_FORMULA_LENGTH
           then [("Formula exceeds recommended length ("
                    ++ str_of_int (len text) ++ " chars)")%string]
           else [])
       ++ (if Z.abs nesting >? MAX_FORMULA_NESTING
           then [("Formula nesting depth suspicious ("
                    ++ str_of_int nesting ++ ")")%string]
           else []))%list
  /\ (warnings = [] <->
      matching_warnings text = []
      /\ len text <= MAX_FORMULA_LENGTH
      /\ Z.abs nesting <= MAX_FORMULA_NESTING)
  /\ (In "WEBSERVICE function (network access)"%string warnings
      <-> calls_function "WEBSERVICE" text)
  /\ (In "HYPERLINK function (potential phishing)"%string warnings
      <-> calls_function "HYPERLINK" text)
  /\ (In "CALL function (external DLL execution)"%string warnings
      <-> calls_function "CALL" text)
  /\ (In "External workbook reference"%string warnings
      <-> names_workbook text)
  /\ (In "INDIRECT+HYPERLINK combination (security risk)"%string warnings
      <-> indirect_hyperlink text).
Proof.
  intros _ text nesting warnings.
  assert (Hw := warnings_listed formula allow_external).
  cbv zeta in Hw. fold text in Hw. fold nesting in Hw. fold warnings in Hw.
  split; [exact Hw|]. split.
  - rewrite Hw.
    destruct (Z.gtb_spec (len text) MAX_FORMULA_LENGTH);
      destruct (Z.gtb_spec (Z.abs nesting) MAX_FORMULA_NESTING);
      destruct (matching_warnings text); cbn [app]; split;
      try discriminate; try (intros (? & ? & ?); lia + discriminate);
      intros _; repeat split; lia.
  - destruct (matching_warnings_In text) as (H1 & H2 & H3 & H4 & H5).
    unfold warnings, text in *.
    repeat split;
      try (intros H; apply table_warning_In in H; [|discriminate];
           first [now apply H1 | now apply H2 | now apply H3
                 | now apply H4 | now apply H5]);
      intros H; apply table_warning_In; try discriminate;
      first [now apply H1 | now apply H2 | now apply H3
            | now apply H4 | now apply H5].
Qed.

(** X8 on a call of WEBSERVICE in mixed case with a space before the
    parenthesis. *)
Lemma sanitize_formula_warnings_witness :
  snd (sanitize_formula "=WebService (A1)" false)
  = ["WEBSERVICE function (network access)"]
  /\ calls_function "WEBSERVICE" "=WebService (A1)"
  /\ ~ calls_function "CALL" "=WebService (A1)".
Proof.
  destruct (sanitize_formula_warnings "=WebService (A1)" false eq_refl)
    as (Hlist & _ & Hweb & _ & Hcall & _).
  split; [exact Hlist|]. split.
  - apply Hweb. left. reflexivity.
  - intros H. apply Hcall in H. cbn in H.
    destruct H as [H|[]]. discriminate H.
Defined.

(** X9. [sanitize_formula] ignores [allow_external], and what it returns
    for its own output is that output again with the same warnings. *)
Theorem sanitize_formula_idempotent (formula : string) (first second : bool) :
  sanitize_formula (fst (sanitize_formula formula first)) second
  = sanitize_formula formula first.
Proof.
  unfold sanitize_formula. cbn [fst].
  destruct (startswith "=" formula) eqn:E; cbn [negb].
  - now rewrite E.
  - assert (Hs : startswith "=" ("=" ++ formula) = true).
    { unfold startswith. cbn [append String.prefix].
      destruct (ascii_dec "=" "="); [now destruct formula | congruence]. }
    now rewrite Hs.
Qed.

End SanitizerWarnings.

(* ------------------------------------------------------------------ *)
(** ** Formulas and the sheets they may refer to *)
(* ------------------------------------------------------------------ *)

Section KnownSheets.

Variable set_order : list string -> list string.
Hypothesis set_order_elements :
  forall xs x, In x (set_order xs) <-> In x xs.

(** A name is only ever found in front of an exclamation mark. *)
Lemma extracted_names_need_mark (formula : string) :
  contains_char "!" formula = false -> extracted_names formula = [].
Proof.
  intros Hno. unfold extracted_names.
  assert (Hq : Re.findall quoted_ref_at 0 formula = []).
  { destruct (Re.findall quoted_ref_at 0 formula) as [|g l] eqn:E;
      [reflexivity|].
    assert (Hin : In g (Re.findall quoted_ref_at 0 formula))
      by (rewrite E; now left).
    apply findall_sound in Hin as (before & rest & n & -> & Hm).
    apply quoted_ref_at_shape in Hm as (_ & _ & tail & ->).
    rewrite contains_char_append in Hno.
    apply orb_false_iff in Hno as [_ Hno].
    cbn [append contains_char] in Hno.
    apply orb_false_iff in Hno as [_ Hno].
    rewrite contains_char_append in Hno.
    apply orb_false_iff in Hno as [_ Hno].
    cbn in Hno. discriminate. }
  assert (Hb : Re.findall bare_ref_at 0 formula = []).
  { destruct (Re.findall bare_ref_at 0 formula) as [|g l] eqn:E;
      [reflexivity|].
    assert (Hin : In g (Re.findall bare_ref_at 0 formula))
      by (rewrite E; now left).
    apply findall_sound in Hin as (before & rest & n & -> & Hm).
    apply bare_ref_at_shape in Hm as (_ & _ & tail & ->).
    rewrite contains_char_append in Hno.
    apply orb_false_iff in Hno as [_ Hno].
    rewrite contains_char_append in Hno.
    apply orb_false_iff in Hno as [_ Hno].
    cbn in Hno. discriminate. }
  now rewrite Hq, Hb.
Qed.

Lemma set_order_nil : set_order [] = [].
Proof.
  destruct (set_order []) as [|x l] eqn:E; [reflexivity|].
  exfalso. apply (set_order_elements [] x). rewrite E. now left.
Qed.

(** X10. A formula that is not empty and holds no exclamation mark refers
    to no sheet and passes whatever the known sheets are; and a formula
    that passes against some sheets passes against any list that has them
    all, whatever its order. *)
Theorem validate_formula_references_more_sheets
        (formula : string) (existing_sheets more_sheets : list string) :
  formula <> "" ->
  (contains_char "!" formula = false ->
   validate_formula_references set_order formula existing_sheets
   = (true, None))
  /\ (incl existing_sheets more_sheets ->
      validate_formula_references set_order formula existing_sheets
      = (true, None) ->
      validate_formula_references set_order formula more_sheets
      = (true, None)).
Proof.
  intros Hne.
  assert (Hv : forall sheets,
             validate_formula_references set_order formula sheets
             = check_sheet_refs (set_order (extracted_names formula)) sheets).
  { intros sheets. unfold validate_formula_references.
    destruct (String.eqb_spec formula ""); [contradiction | reflexivity]. }
  split.
  - intros Hno. rewrite Hv, (extracted_names_need_mark formula Hno).
    now rewrite set_order_nil.
  - intros Hincl. rewrite !Hv. intros Hok.
    destruct (check_sheet_refs_outcome (set_order (extracted_names formula))
                                       more_sheets)
      as [E|(bad & Hin & Hnot & _)]; [assumption|].
    exfalso. apply Hnot, Hincl.
    now apply (check_sheet_refs_true _ _ Hok).
Qed.

End KnownSheets.

(** X10 on a formula without any sheet reference and on one that refers to
    [Data]. *)
Lemma validate_formula_references_more_sheets_witness :
  validate_formula_references (nodup string_dec) "=A1+B2" [] = (true, None)
  /\ validate_formula_references (nodup string_dec) "=Data!B2"
                                 ["Sheet1"; "Data"]
     = (true, None).
Proof.
  assert (Hel : forall xs x, In x (nodup string_dec xs) <-> In x xs)
    by (intros; apply nodup_In).
  assert (Hplain : "=A1+B2" <> "") by discriminate.
  assert (Hdata : "=Data!B2" <> "") by discriminate.
  destruct (validate_formula_references_more_sheets
              (nodup string_dec) Hel "=A1+B2" [] [] Hplain) as [Hfree _].
  destruct (validate_formula_references_more_sheets
              (nodup string_dec) Hel "=Data!B2" ["Data"] ["Sheet1"; "Data"]
              Hdata) as [_ Hmore].
  split.
  - apply Hfree. reflexivity.
  - apply Hmore; [|reflexivity].
    intros x [<-|[]]. right. now left.
Defined.

(* ------------------------------------------------------------------ *)
(** ** Reports: what every scan returns, and how it is read *)
(* ------------------------------------------------------------------ *)

Section ReportShape.

Lemma dict_get_absent (d : buckets) (k : string) :
  dict_get d k = None <-> ~ In k (map fst d).
Proof.
  induction d as [|[k0 b0] d IH]; cbn [dict_get map fst In]; [tauto|].
  destruct (String.eqb_spec k0 k) as [->|Hne].
  - split; [discriminate | intros H; exfalso; apply H; now left].
  - rewrite IH. tauto.
Qed.

Lemma dict_get_In (d : buckets) (k : string) (b : bucket) :
  dict_get d k = Some b -> In (k, b) d.
Proof.
  induction d as [|[k0 b0] d IH]; cbn [dict_get]; [discriminate|].
  destruct (String.eqb_spec k0 k) as [->|Hne].
  - intros [= ->]. now left.
  - intros H. right. now apply IH.
Qed.

Lemma In_dict_get (d : buckets) (k : string) (b : bucket) :
  NoDup (map fst d) -> In (k, b) d -> dict_get d k = Some b.
Proof.
  induction d as [|[k0 b0] d IH]; cbn [dict_get map fst]; [intros _ []|].
  intros Hnd [E|Hin].
  - injection E as -> ->. now rewrite String.eqb_refl.
  - apply NoDup_cons_iff in Hnd as [Hk Hnd].
    destruct (String.eqb_spec k0 k) as [->|Hne]; [|now apply IH].
    exfalso. apply Hk. now apply (in_map fst) in Hin.
Qed.

Lemma dict_set_absent (d : buckets) (k : string) (b : bucket) :
  dict_get d k = None -> dict_set d k b = (d ++ [(k, b)])%list.
Proof.
  induction d as [|[k0 b0] d IH]; cbn [dict_get dict_set app];
    [reflexivity|].
  destruct (k0 =? k); [discriminate|]. intros H. now rewrite IH.
Qed.

Lemma dict_update_last (d : buckets) (k : string) (b : bucket)
      (f : bucket -> bucket) :
  dict_get d k = None ->
  dict_update (d ++ [(k, b)])%list k f = (d ++ [(k, f b)])%list.
Proof.
  induction d as [|[k0 b0] d IH]; cbn [dict_get dict_update app].
  - now rewrite String.eqb_refl.
  - destruct (k0 =? k); [discriminate|]. intros H. now rewrite IH.
Qed.

Lemma dict_update_keys (d : buckets) (k : string) (f : bucket -> bucket) :
  map fst (dict_update d k f) = map fst d.
Proof.
  induction d as [|[k0 b0] d IH]; cbn [dict_update map fst]; [reflexivity|].
  destruct (k0 =? k); cbn [map fst]; [reflexivity | now rewrite IH].
Qed.

Lemma Forall_dict_update (P : string * bucket -> Prop) (d : buckets)
      (k : string) (f : bucket -> bucket) :
  Forall P d -> (forall b, P (k, b) -> P (k, f b)) ->
  Forall P (dict_update d k f).
Proof.
  intros Hd Hf. induction Hd as [|[k0 b0] d H0 Hd IH]; cbn [dict_update];
    [constructor|].
  destruct (String.eqb_spec k0 k) as [->|Hne]; constructor;
    try assumption. now apply Hf.
Qed.

Lemma NoDup_snoc {A} (l : list A) (x : A) :
  NoDup l -> ~ In x l -> NoDup (l ++ [x])%list.
Proof.
  induction l as [|a l IH]; cbn [app]; intros Hnd Hx.
  - constructor; [intros [] | constructor].
  - apply NoDup_cons_iff in Hnd as [Ha Hnd]. constructor.
    + rewrite in_app_iff. intros [H|[->|[]]]; [contradiction|].
      apply Hx. now left.
    + apply IH; [assumption|]. intros H. apply Hx. now right.
Qed.

Lemma sum_counts_snoc (d : buckets) (k : string) (b : bucket) :
  sum_counts (d ++ [(k, b)])%list = (sum_counts d + count b)%Z.
Proof. unfold sum_counts. now rewrite fold_left_app. Qed.

Lemma sum_counts_nonneg (d : buckets) :
  Forall bucket_ok d -> (0 <= sum_counts d)%Z.
Proof.
  induction 1 as [|[k b] d (_ & _ & Hb) _ IH].
  - unfold sum_counts. cbn. lia.
  - rewrite sum_counts_cons. cbn [snd] in Hb. lia.
Qed.

(** One cell of the scan keeps the tally. *)
Lemma tallied_scan_cell (title : string) (st : buckets * Z) (c : cell) :
  tallied st -> tallied (scan_cell title st c).
Proof.
  destruct st as [d n]. intros (Hb & Hk & Hs). cbn [fst snd] in *.
  unfold scan_cell.
  destruct (data_type c =? "f"); [|now split; [|split]].
  destruct (is_error_value (cell_value c)) eqn:He.
  2:{ split; [|split]; cbn [fst snd]; try assumption. lia. }
  set (v := cell_value c) in *.
  set (loc := title ++ "!" ++ coordinate c).
  set (incr := fun b : bucket =>
                 {| count := (count b + 1)%Z;
                    locations := list_append (locations b) loc |}).
  destruct (dict_get d v) as [b|] eqn:Hg.
  - split; [|split]; cbn [fst snd].
    + apply Forall_dict_update; [assumption|].
      intros b0 (H1 & H2 & H3). cbn [fst snd] in *.
      split; [|split]; cbn [fst snd incr count locations];
        [assumption | | lia].
      unfold list_append. rewrite length_app. cbn [List.length]. lia.
    + now rewrite dict_update_keys.
    + rewrite (sum_counts_update d v incr b Hg). cbn [incr count]. lia.
  - rewrite (dict_set_absent d v _ Hg), (dict_update_last d v _ incr Hg).
    split; [|split]; cbn [fst snd].
    + apply Forall_app. split; [assumption|].
      constructor; [|constructor].
      split; [|split]; cbn; [assumption | reflexivity | lia].
    + rewrite map_app. cbn [map fst].
      apply NoDup_snoc; [assumption | now apply dict_get_absent].
    + rewrite sum_counts_snoc. cbn [incr count]. lia.
Qed.

Lemma tallied_cells (cells : list (string * cell)) :
  forall st, tallied st -> tallied (fold_left scan_step cells st).
Proof.
  induction cells as [|lc cells IH]; intros st H; [assumption|].
  cbn [fold_left]. apply IH. unfold scan_step. now apply tallied_scan_cell.
Qed.

Lemma tallied_scan_sheets (wb : workbook) (names : list string) :
  forall st st',
    tallied st -> scan_sheets wb names st = Ok st' -> tallied st'.
Proof.
  induction names as [|n names IH]; intros st st' H; cbn [scan_sheets].
  - now intros [= <-].
  - destruct (getitem wb n) as [ws|e]; [|discriminate]. cbn [bind].
    apply IH. rewrite scan_sheet_flat. now apply tallied_cells.
Qed.

Lemma tallied_start : tallied ([], 0%Z).
Proof.
  split; [constructor|]. split; [constructor|].
  unfold sum_counts. cbn. lia.
Qed.

(** How the loop of [get_error_locations] goes through a dictionary. *)
Lemma get_error_locations_loop (error_type : option string) (d : buckets) :
  forall found,
    fold_left
      (fun locations_so_far kb =>
         let '(err_type, details) := kb in
         if match error_type with
            | None => true
            | Some wanted => err_type =? wanted
            end
         then (locations_so_far ++ locations details)%list
         else locations_so_far)
      d found
    = (found
         ++ flat_map (fun kb => locations (snd kb))
              (filter (fun kb => match error_type with
                                 | None => true
                                 | Some wanted => fst kb =? wanted
                                 end) d))%list.
Proof.
  induction d as [|[k b] d IH]; intros found; cbn [fold_left filter].
  - now rewrite app_nil_r.
  - rewrite IH. cbn [fst].
    destruct (match error_type with
              | None => true
              | Some wanted => k =? wanted
              end); [|reflexivity].
    cbn [flat_map snd]. now rewrite app_assoc.
Qed.

Lemma locations_counted (d : buckets) :
  Forall bucket_ok d ->
  Z.of_nat (List.length (flat_map (fun kb => locations (snd kb)) d))
  = sum_counts d.
Proof.
  induction 1 as [|[k b] d (_ & Hb & _) _ IH].
  - reflexivity.
  - cbn [flat_map snd] in *. rewrite length_app, sum_counts_cons. lia.
Qed.

Lemma filter_all {A} (l : list A) : filter (fun _ => true) l = l.
Proof. induction l as [|a l IH]; cbn; [reflexivity | now rewrite IH]. Qed.

Lemma get_error_locations_of_type (r : ValidationReport) (d : buckets)
      (error_type : string) :
  error_summary r = Errors d ->
  get_error_locations r (Some error_type)
  = flat_map (fun kb => locations (snd kb))
             (filter (fun kb => fst kb =? error_type) d).
Proof.
  intros H. unfold get_error_locations. rewrite H.
  apply (get_error_locations_loop (Some error_type) d []).
Qed.

Lemma get_error_locations_all (r : ValidationReport) (d : buckets) :
  error_summary r = Errors d ->
  get_error_locations r None = flat_map (fun kb => locations (snd kb)) d.
Proof.
  intros H. unfold get_error_locations. rewrite H.
  rewrite (get_error_locations_loop None d []). cbn [app].
  now rewrite filter_all.
Qed.

(** X11. Whatever the files are, the report of [validate_workbook_python]
    names the method [python_fallback]; its status is one of [success],
    [errors_found] and [error]; [has_errors] holds of it exactly when the
    status is [errors_found]; it counts no more errors than formulas;
    [get_error_locations] without a type gives as many locations as
    [total_errors]; and every bucket stands under a sentinel with as many
    locations as its count, at least one. *)
Theorem scan_report_consistent (w : world) (filepath : path) :
  let report := validate_workbook_python w filepath in
  validation_method report = "python_fallback"
  /\ In (status report) ["success"; "errors_found"; "error"]
  /\ (has_errors report = true <-> status report = "errors_found")
  /\ (0 <= total_errors report <= total_formulas report)%Z
  /\ Z.of_nat (List.length (get_error_locations report None))
     = total_errors report
  /\ (forall sentinel b,
         report_bucket report sentinel = Some b ->
         In sentinel ERROR_VALUES
         /\ count b = Z.of_nat (List.length (locations b))
         /\ (1 <= count b)%Z).
Proof.
  intros report.
  assert (Hfail : forall e,
             report = error_report e ->
             validation_method report = "python_fallback"
             /\ In (status report) ["success"; "errors_found"; "error"]
             /\ (has_errors report = true <-> status report = "errors_found")
             /\ (0 <= total_errors report <= total_formulas report)%Z
             /\ Z.of_nat (List.length (get_error_locations report None))
                = total_errors report
             /\ (forall sentinel b,
                    report_bucket report sentinel = Some b ->
                    In sentinel ERROR_VALUES
                    /\ count b = Z.of_nat (List.length (locations b))
                    /\ (1 <= count b)%Z)).
  { intros e ->. unfold has_errors, report_bucket, get_error_locations.
    cbn [error_report validation_method status total_errors total_formulas
         error_summary].
    split; [reflexivity|]. split; [cbn; tauto|].
    split; [split; discriminate|]. split; [lia|]. split; [reflexivity|].
    discriminate. }
  unfold report, validate_workbook_python in *.
  destruct (load_workbook w filepath) as [wb|e]; cbn [bind] in *;
    [|now apply (Hfail e)].
  unfold scan_workbook in *.
  destruct (scan_sheets wb (sheetnames wb) ([], 0%Z)) as [[d n]|e] eqn:Hscan;
    cbn [bind] in *; [|now apply (Hfail e)].
  clear Hfail.
  destruct (tallied_scan_sheets wb (sheetnames wb) _ _ tallied_start Hscan)
    as (Hb & Hk & Hs).
  cbn [fst snd] in *.
  assert (Hpos := sum_counts_nonneg d Hb).
  assert (Hloc := locations_counted d Hb).
  destruct d as [|[k b] d].
  - unfold has_errors, report_bucket, get_error_locations.
    cbn [ValidationReport_success validation_method status total_errors
         total_formulas error_summary fold_left List.length dict_get].
    unfold sum_counts in Hs. cbn [fold_left] in Hs.
    split; [reflexivity|]. split; [cbn; tauto|].
    split; [split; discriminate|]. split; [lia|]. split; [reflexivity|].
    discriminate.
  - match goal with
    | |- context [get_error_locations ?r None] =>
        rewrite (get_error_locations_all r ((k, b) :: d) eq_refl)
    end.
    unfold has_errors, report_bucket.
    cbn [validation_method status total_errors total_formulas error_summary].
    assert (Hfirst : (1 <= sum_counts ((k, b) :: d))%Z).
    { rewrite sum_counts_cons.
      apply Forall_cons_iff in Hb as [(_ & _ & H1) Hrest].
      apply sum_counts_nonneg in Hrest. cbn [snd] in H1. lia. }
    split; [reflexivity|]. split; [cbn; tauto|].
    split; [split; [reflexivity | intros _; apply Z.gtb_lt; lia]|].
    split; [lia|]. split; [exact Hloc|].
    intros sentinel b0 Hg. apply dict_get_In in Hg.
    rewrite Forall_forall in Hb. destruct (Hb _ Hg) as (H1 & H2 & H3).
    cbn [fst snd] in *. split; [now apply is_error_value_In | now split].
Qed.

Lemma filter_key (d : buckets) (wanted : string) :
  NoDup (map fst d) ->
  filter (fun kb => fst kb =? wanted) d
  = match dict_get d wanted with
    | Some b => [(wanted, b)]
    | None => []
    end.
Proof.
  induction d as [|[k b] d IH]; cbn [filter dict_get map fst];
    [reflexivity|].
  intros Hnd. apply NoDup_cons_iff in Hnd as [Hk Hnd].
  destruct (String.eqb_spec k wanted) as [->|Hne]; [|now apply IH].
  rewrite (IH Hnd).
  apply dict_get_absent in Hk. now rewrite Hk.
Qed.

Lemma bucket_of_locations_some (l : list string) (b : bucket) :
  bucket_of_locations l = Some b -> locations b = l /\ l <> [].
Proof.
  unfold bucket_of_locations. destruct l; [discriminate|].
  intros [= <-]. now split.
Qed.

Lemma has_any_error_shows (lc : string * cell) :
  has_any_error lc = true <->
  exists sentinel, is_error_value sentinel = true
                   /\ has_error sentinel lc = true.
Proof.
  unfold has_any_error, has_error. split.
  - intros H. apply andb_true_iff in H as [Hf He].
    exists (cell_value (snd lc)). now rewrite Hf, He, String.eqb_refl.
  - intros (sentinel & He & H). apply andb_true_iff in H as [Hf Hv].
    apply String.eqb_eq in Hv. now rewrite Hf, Hv, He.
Qed.

(** X12. On a workbook that loads, with distinct sheet titles,
    [get_error_locations] with a type gives the locations of the cells of
    type ['f'] whose value, [str(cell.value)], is this sentinel, in the
    order of the scan, and nothing for a type that is no sentinel; without
    a type it gives the locations of the cells of type ['f'] whose value
    is any sentinel, and no other.  It is the value that counts, not the
    display value cached in the file: when the value of every formula
    cell starts with [=], as the text of a formula does, there is no
    location at all. *)
Theorem error_locations_read_back (w : world) (filepath : path)
        (wb : workbook) :
  files w filepath = Some (Loads wb) ->
  NoDup (sheetnames wb) ->
  let report := validate_workbook_python w filepath in
  let cells := located_cells wb in
  (forall error_type,
      get_error_locations report (Some error_type)
      = if is_error_value error_type
        then error_locations error_type cells else [])
  /\ (forall loc,
         In loc (get_error_locations report None) <->
         In loc (map location (filter has_any_error cells)))
  /\ ((forall lc, In lc cells -> is_formula lc = true ->
                  startswith "=" (cell_value (snd lc)) = true) ->
      forall error_type, get_error_locations report error_type = []).
Proof.
  intros Hfile Hnd report cells.
  cut ((forall error_type,
           get_error_locations report (Some error_type)
           = if is_error_value error_type
             then error_locations error_type cells else [])
       /\ (forall loc,
              In loc (get_error_locations report None) <->
              In loc (map location (filter has_any_error cells)))).
  { intros [Htyped Hall]. split; [exact Htyped|]. split; [exact Hall|].
    intros Htext.
    assert (Hnone : forall l, filter has_any_error l = []
                              \/ exists lc, In lc l /\ has_any_error lc = true).
    { induction l as [|lc l IH]; [now left|]. cbn [filter].
      destruct (has_any_error lc) eqn:E.
      - right. exists lc. split; [now left | assumption].
      - destruct IH as [->|(x & Hx & Ex)]; [now left|].
        right. exists x. split; [now right | assumption]. }
    assert (Hclean : filter has_any_error cells = []).
    { destruct (Hnone cells) as [E|(lc & Hin & Hany)]; [exact E|].
      exfalso. unfold has_any_error in Hany.
      apply andb_true_iff in Hany as [Hf He].
      apply (Htext lc Hin) in Hf.
      apply formula_text_is_no_sentinel in Hf. congruence. }
    intros [error_type|].
    - rewrite Htyped. destruct (is_error_value error_type) eqn:Ev;
        [|reflexivity].
      unfold error_locations.
      destruct (filter (has_error error_type) cells) as [|lc l] eqn:El;
        [reflexivity|].
      exfalso.
      assert (Hin : In lc (filter (has_error error_type) cells))
        by (rewrite El; now left).
      apply filter_In in Hin as [Hin Hh].
      assert (Hany : In lc (filter has_any_error cells)).
      { apply filter_In. split; [assumption|].
        apply has_any_error_shows. now exists error_type. }
      rewrite Hclean in Hany. exact Hany.
    - destruct (get_error_locations report None) as [|loc l] eqn:El;
        [reflexivity|].
      exfalso. assert (Hin : In loc (loc :: l)) by now left.
      apply Hall in Hin. rewrite Hclean in Hin. exact Hin. }
  assert (Hinv := scanned_fold cells).
  assert (Htal := tallied_cells cells _ tallied_start).
  assert (Hsum : exists d n,
             fold_left scan_step cells ([], 0%Z) = (d, n)
             /\ error_summary report = Errors d).
  { unfold report, validate_workbook_python, load_workbook.
    rewrite Hfile. cbn [bind]. unfold scan_workbook.
    rewrite (scan_workbook_loop wb Hnd). cbn [bind]. fold cells.
    destruct (fold_left scan_step cells ([], 0%Z)) as [d n].
    exists d, n. split; [reflexivity|]. now destruct d. }
  destruct Hsum as (d & n & Hst & Hsummary).
  rewrite Hst in Hinv, Htal.
  destruct Hinv as (_ & Hd & _). destruct Htal as (_ & Hk & _).
  cbn [fst snd] in *.
  split.
  - intros error_type.
    rewrite (get_error_locations_of_type report d error_type Hsummary).
    rewrite (filter_key d error_type Hk), Hd.
    destruct (is_error_value error_type); [|reflexivity].
    destruct (bucket_of_locations (error_locations error_type cells))
      as [b|] eqn:E.
    + apply bucket_of_locations_some in E as [E _].
      cbn [flat_map snd]. now rewrite app_nil_r.
    + unfold bucket_of_locations in E.
      now destruct (error_locations error_type cells).
  - intros loc. rewrite (get_error_locations_all report d Hsummary).
    rewrite in_flat_map, in_map_iff. split.
    + intros ([k b] & Hin & Hloc). cbn [snd] in Hloc.
      apply (In_dict_get d k b Hk) in Hin. rewrite Hd in Hin.
      destruct (is_error_value k) eqn:Ek; [|discriminate].
      apply bucket_of_locations_some in Hin as [E _].
      rewrite E in Hloc. unfold error_locations in Hloc.
      apply in_map_iff in Hloc as (lc & Hl & Hlc).
      apply filter_In in Hlc as [Hc Hh].
      exists lc. split; [assumption|]. apply filter_In.
      split; [assumption|]. apply has_any_error_shows. now exists k.
    + intros (lc & Hl & Hlc). apply filter_In in Hlc as [Hc Hany].
      apply has_any_error_shows in Hany as (k & Ek & Hh).
      assert (Hin : In loc (error_locations k cells)).
      { unfold error_locations. apply in_map_iff. exists lc.
        split; [assumption|]. now apply filter_In. }
      specialize (Hd k). rewrite Ek in Hd.
      destruct (bucket_of_locations (error_locations k cells)) as [b|] eqn:E.
      * apply bucket_of_locations_some in E as [E _].
        exists (k, b). split; [now apply dict_get_In|].
        cbn [snd]. now rewrite E.
      * unfold bucket_of_locations in E.
        destruct (error_locations k cells); [contradiction | discriminate].
Qed.

End ReportShape.

(** X12 on the example of the specification as it loads: the formula is
    cached as [#DIV/0!] and no location is given for it. *)
Lemma error_locations_read_back_witness :
  sf_cached example_formula = "#DIV/0!"
  /\ get_error_locations
       (validate_workbook_python spec_example_world sample_path)
       (Some "#DIV/0!")
     = []
  /\ get_error_locations
       (validate_workbook_python spec_example_world sample_path) None
     = [].
Proof.
  assert (Hnd : NoDup (sheetnames spec_example_workbook)).
  { repeat constructor. intros []. }
  destruct (error_locations_read_back spec_example_world sample_path
              spec_example_workbook eq_refl Hnd) as (Htyped & _ & Hloaded).
  split; [reflexivity|]. split; [exact (Htyped "#DIV/0!")|].
  apply Hloaded. intros lc Hin Hf. cbn in Hin.
  repeat (destruct Hin as [<-|Hin]; [try discriminate Hf; reflexivity|]).
  contradiction.
Defined.

(* ------------------------------------------------------------------ *)
(** ** The entry point of the scan *)
(* ------------------------------------------------------------------ *)

Section ScanEntry.

Lemma validate_workbook_known (w : world) (filepath : path) (method : string)
      (timeout : Z) :
  path_exists w filepath = true ->
  In method known_methods ->
  validate_workbook w filepath method timeout
  = Ok (validate_workbook_python w filepath).
Proof.
  intros He Hin. unfold validate_workbook. rewrite He. cbn [negb].
  destruct Hin as [<-|[<-|[<-|[]]]]; cbn.
  - now destruct (check_libreoffice_available w).
  - reflexivity.
  - reflexivity.
Qed.

Lemma validate_workbook_python_file (w w' : world) (filepath : path) :
  files w filepath = files w' filepath ->
  validate_workbook_python w filepath = validate_workbook_python w' filepath.
Proof.
  intros H. unfold validate_workbook_python, load_workbook. now rewrite H.
Qed.

(** X13. For a known method the outcome of [validate_workbook] depends on
    nothing but the content of the file: the method asked for, the
    timeout and whether LibreOffice answers make no difference, and on a
    file that exists the outcome is the report of the Python scan. *)
Theorem validate_workbook_ignores_method
        (w w' : world) (filepath : path) (method method' : string)
        (timeout timeout' : Z) :
  files w filepath = files w' filepath ->
  In method known_methods ->
  In method' known_methods ->
  validate_workbook w filepath method timeout
  = validate_workbook w' filepath method' timeout'
  /\ (path_exists w filepath = true ->
      validate_workbook w filepath method timeout
      = Ok (validate_workbook_python w filepath)).
Proof.
  intros Hf Hm Hm'. split; [|intros He; now apply validate_workbook_known].
  destruct (path_exists w filepath) eqn:He.
  - assert (He' : path_exists w' filepath = true)
      by (unfold path_exists in *; now rewrite <- Hf).
    rewrite !validate_workbook_known by assumption.
    f_equal. now apply validate_workbook_python_file.
  - assert (He' : path_exists w' filepath = false)
      by (unfold path_exists in *; now rewrite <- Hf).
    unfold validate_workbook. now rewrite He, He'.
Qed.

Lemma validate_workbook_ignores_method_witness :
  validate_workbook sample_world sample_path "python" 30
  = validate_workbook office_world sample_path "auto" 5.
Proof.
  assert (Hpython : In "python" known_methods) by (right; right; now left).
  assert (Hauto : In "auto" known_methods) by now left.
  exact (proj1 (validate_workbook_ignores_method
                  sample_world office_world sample_path "python" "auto" 30 5
                  eq_refl Hpython Hauto)).
Defined.

End ScanEntry.

(* ------------------------------------------------------------------ *)
(** ** What a repair writes *)
(* ------------------------------------------------------------------ *)

Section RepairWrites.
Local Open Scope Z_scope.

Lemma unsettled_cons (c : cell) (cells : list cell) :
  unsettled (c :: cells)
  = (if settled c then 0 else 1) + unsettled cells.
Proof.
  unfold unsettled. cbn [filter].
  destruct (settled c); cbn [negb List.length]; lia.
Qed.

Lemma unsettled_app (a b : list cell) :
  unsettled (a ++ b)%list = unsettled a + unsettled b.
Proof. unfold unsettled. rewrite filter_app, length_app. lia. Qed.

Lemma repair_cell_wrapped (counts : Z * Z) (c : cell) :
  repair_cell counts c
  = (wrapped c,
     (fst counts + (if settled c then 0 else 1),
      snd counts + (if settled c then 0 else 1))).
Proof.
  destruct counts as [a b]. unfold repair_cell, wrapped, settled.
  cbn [fst snd].
  destruct (value c); rewrite ?Z.add_0_r; try reflexivity.
  destruct ((data_type c =? "f")%string
            && negb (contains "IFERROR" (upper s)));
    cbn [negb]; rewrite ?Z.add_0_r; reflexivity.
Qed.

Lemma repair_row_wrapped (row : list cell) :
  forall counts,
    map_accum repair_cell counts row
    = (map wrapped row,
       (fst counts + unsettled row, snd counts + unsettled row)).
Proof.
  induction row as [|c row IH]; intros [a b]; cbn [map_accum map fst snd].
  - unfold unsettled. cbn. now rewrite !Z.add_0_r.
  - rewrite repair_cell_wrapped, IH, unsettled_cons. cbn [fst snd].
    do 2 f_equal; lia.
Qed.

Lemma repair_sheet_wrapped (ws : worksheet) :
  forall counts,
    repair_sheet ws counts
    = (map (map wrapped) ws,
       (fst counts + unsettled (List.concat ws),
        snd counts + unsettled (List.concat ws))).
Proof.
  unfold repair_sheet.
  induction ws as [|row ws IH]; intros [a b];
    cbn [map_accum map fst snd List.concat].
  - unfold unsettled. cbn. now rewrite !Z.add_0_r.
  - rewrite repair_row_wrapped, IH, unsettled_app. cbn [fst snd].
    do 2 f_equal; lia.
Qed.

Lemma setitem_skip (pre : workbook) (title : string) (ws ws' : worksheet)
      (rest : workbook) :
  ~ In title (sheetnames pre) ->
  setitem (pre ++ (title, ws) :: rest)%list title ws'
  = (pre ++ (title, ws') :: rest)%list.
Proof.
  induction pre as [|[t w] pre IH]; intros Hnot; cbn [setitem app].
  - now rewrite String.eqb_refl.
  - destruct (String.eqb_spec t title) as [->|].
    + exfalso. apply Hnot. now left.
    + rewrite IH; [reflexivity|]. intros Hin. apply Hnot. now right.
Qed.

Lemma sheetnames_wrapped (wb : workbook) :
  sheetnames (wrapped_workbook wb) = sheetnames wb.
Proof.
  unfold sheetnames, wrapped_workbook. rewrite map_map. reflexivity.
Qed.

(** The loop over the sheets, under distinct titles: each sheet is gone
    through once. *)
Lemma repair_sheets_wrapped (post : workbook) :
  forall (pre : workbook) (counts : Z * Z),
    NoDup (sheetnames (pre ++ post)%list) ->
    repair_sheets (pre ++ post)%list (sheetnames post) counts
    = Ok ((pre ++ wrapped_workbook post)%list,
          (fst counts + unsettled (workbook_cells post),
           snd counts + unsettled (workbook_cells post))).
Proof.
  induction post as [|[title ws] post IH]; intros pre [a b] Hnd.
  - cbn [sheetnames map repair_sheets wrapped_workbook workbook_cells
         flat_map fst snd].
    unfold unsettled. cbn. now rewrite !Z.add_0_r.
  - cbn [sheetnames map fst repair_sheets].
    assert (Hnot : ~ In title (sheetnames pre)).
    { unfold sheetnames in Hnd. rewrite map_app in Hnd. cbn [map fst] in Hnd.
      apply NoDup_remove_2 in Hnd. rewrite in_app_iff in Hnd.
      unfold sheetnames. tauto. }
    rewrite (getitem_skip pre title ws post Hnot). cbn [bind].
    rewrite repair_sheet_wrapped, (setitem_skip pre title ws _ post Hnot).
    cbn [fst snd].
    specialize (IH (pre ++ [(title, map (map wrapped) ws)])%list
                   (a + unsettled (List.concat ws),
                    b + unsettled (List.concat ws))).
    rewrite <- app_assoc in IH. cbn [app] in IH.
    fold (sheetnames post).
    assert (Hnd' : NoDup (sheetnames
                            (pre ++ (title, map (map wrapped) ws) :: post)%list)).
    { unfold sheetnames in *. rewrite map_app in *. exact Hnd. }
    etransitivity; [exact (IH Hnd')|].
    cbn [wrapped_workbook map fst snd workbook_cells flat_map].
    rewrite unsettled_app, <- app_assoc. cbn [app fst snd].
    do 3 f_equal; unfold workbook_cells; lia.
Qed.

Lemma repair_loaded_wrapped (wb : workbook)
      (error_types : option (list string)) (backup_file : option string) :
  NoDup (sheetnames wb) ->
  selects_div0 error_types = true ->
  repair_loaded wb error_types (initial_results backup_file)
  = Ok (wrapped_workbook wb,
        repaired_results backup_file (unsettled (workbook_cells wb))).
Proof.
  intros Hnd Hsel. unfold repair_loaded. rewrite Hsel.
  assert (H := repair_sheets_wrapped wb [] (0, 0) Hnd).
  cbn [app fst snd] in H. rewrite H. cbn [bind].
  reflexivity.
Qed.

(** X14. On a file that holds a workbook with distinct sheet titles and
    can be written, a repair that selects [#DIV/0!] saves the workbook in
    which every formula held as text that does not name [IFERROR] is
    wrapped, and every other cell is as it was; the repairs attempted and
    successful are the number of cells so rewritten, also under
    [#DIV/0!] in the details, and no error is reported. *)
Theorem repair_errors_wraps
        (w : world) (now : string) (filepath : path) (wb : workbook)
        (error_types : option (list string)) :
  files w filepath = Some (Loads wb) ->
  NoDup (sheetnames wb) ->
  writable w filepath = true ->
  selects_div0 error_types = true ->
  repair_errors w now filepath error_types false
  = (Ok (repaired_results None (unsettled (workbook_cells wb))),
     write w filepath (Loads (wrapped_workbook wb))).
Proof.
  intros Hfile Hnd Hw Hsel. unfold repair_errors, load_workbook.
  rewrite Hfile. fold (initial_results None).
  rewrite (repair_loaded_wrapped wb error_types None Hnd Hsel).
  unfold save. now rewrite Hw.
Qed.

Lemma repair_errors_wraps_witness :
  repair_errors healthy_world "20240115_143022" sample_path None false
  = (Ok (repaired_results None 1),
     write healthy_world sample_path
           (Loads (wrapped_workbook healthy_workbook))).
Proof.
  assert (Hnd : NoDup (sheetnames healthy_workbook)).
  { repeat constructor. intros []. }
  exact (repair_errors_wraps healthy_world "20240115_143022" sample_path
           healthy_workbook None eq_refl Hnd eq_refl eq_refl).
Defined.

End RepairWrites.

(* ------------------------------------------------------------------ *)
(** ** What a repair leaves alone *)
(* ------------------------------------------------------------------ *)

Section RepairFrame.

Lemma files_write_other (w : world) (p q : path) (f : file) :
  q <> p -> files (write w p f) q = files w q.
Proof.
  intros Hne. cbn [write files].
  destruct (path_eqb q p) eqn:E; [|reflexivity].
  now apply path_eqb_eq in E.
Qed.

Lemma files_write_same (w : world) (p : path) (f : file) :
  files (write w p f) p = Some f.
Proof. cbn [write files]. now rewrite path_eqb_refl. Qed.

Lemma backup_path_other (filepath : path) (now : string) :
  filepath <> backup_path_of filepath now.
Proof.
  intros E. assert (H := backup_path_distinct filepath now).
  rewrite <- E, path_eqb_refl in H. discriminate.
Qed.

(** X15. A repair changes the content of no path other than the file and,
    when a backup is asked for, the backup path. *)
Theorem repair_errors_touches_two_paths
        (w : world) (now : string) (filepath : path)
        (error_types : option (list string)) (backup : bool) (other : path) :
  other <> filepath ->
  (backup = true -> other <> backup_path_of filepath now) ->
  files (snd (repair_errors w now filepath error_types backup)) other
  = files w other.
Proof.
  intros Hfile Hbackup. unfold repair_errors.
  assert (Hrest : forall w1 backup_file,
             files w1 other = files w other ->
             files (snd (match load_workbook w1 filepath with
                         | Raise e =>
                             (Ok (with_error (initial_results backup_file) e),
                              w1)
                         | Ok wb =>
                             match repair_loaded wb error_types
                                     (initial_results backup_file) with
                             | Raise e =>
                                 (Ok (with_error
                                        (initial_results backup_file) e), w1)
                             | Ok (wb', results') =>
                                 match save w1 filepath wb' with
                                 | Raise e => (Ok (with_error results' e), w1)
                                 | Ok w2 => (Ok results', w2)
                                 end
                             end
                         end)) other
             = files w other).
  { intros w1 bf H1.
    destruct (load_workbook w1 filepath) as [wb|e]; [|exact H1].
    destruct (repair_loaded wb error_types (initial_results bf))
      as [[wb' results']|e]; [|exact H1].
    unfold save. destruct (writable w1 filepath); [|exact H1].
    cbn [snd]. now rewrite files_write_other. }
  destruct backup.
  - unfold copy2. destruct (files w filepath) as [f|]; [|reflexivity].
    destruct (writable w (backup_path_of filepath now)); [|reflexivity].
    cbn [bind]. apply Hrest. apply files_write_other. now apply Hbackup.
  - now apply Hrest.
Qed.

Lemma repair_errors_touches_two_paths_witness :
  files (snd (repair_errors healthy_world "20240115_143022" sample_path
                            None true)) missing_path
  = None.
Proof.
  assert (Hfile : missing_path <> sample_path) by discriminate.
  assert (Hbackup : true = true ->
                    missing_path
                    <> backup_path_of sample_path "20240115_143022")
    by (intros _; discriminate).
  exact (repair_errors_touches_two_paths
           healthy_world "20240115_143022" sample_path None true missing_path
           Hfile Hbackup).
Defined.

(** X16. A repair whose error types do not name [#DIV/0!] rewrites
    nothing: the file holds the workbook it held, and a result, when there
    is one, counts no repair and has no details, whatever errors the types
    name. *)
Theorem repair_errors_other_types
        (w : world) (now : string) (filepath : path) (wb : workbook)
        (error_types : option (list string)) (backup : bool) :
  selects_div0 error_types = false ->
  files w filepath = Some (Loads wb) ->
  files (snd (repair_errors w now filepath error_types backup)) filepath
  = Some (Loads wb)
  /\ forall results,
       fst (repair_errors w now filepath error_types backup) = Ok results ->
       repairs_attempted results = 0%Z
       /\ repairs_successful results = 0%Z
       /\ details results = [].
Proof.
  intros Hsel Hfile. unfold repair_errors.
  assert (Hrest : forall w1 backup_file,
             files w1 filepath = Some (Loads wb) ->
             let outcome :=
               match load_workbook w1 filepath with
               | Raise e =>
                   (Ok (with_error (initial_results backup_file) e), w1)
               | Ok wb =>
                   match repair_loaded wb error_types
                           (initial_results backup_file) with
                   | Raise e =>
                       (Ok (with_error (initial_results backup_file) e), w1)
                   | Ok (wb', results') =>
                       match save w1 filepath wb' with
                       | Raise e => (Ok (with_error results' e), w1)
                       | Ok w2 => (Ok results', w2)
                       end
                   end
               end in
             files (snd outcome) filepath = Some (Loads wb)
             /\ forall results,
                  fst outcome = Ok results ->
                  repairs_attempted results = 0%Z
                  /\ repairs_successful results = 0%Z
                  /\ details results = []).
  { intros w1 bf H1. unfold load_workbook, repair_loaded.
    rewrite H1, Hsel. unfold save.
    destruct (writable w1 filepath); cbn [fst snd]; split;
      try assumption; try apply files_write_same;
      intros results [= <-]; now repeat split. }
  destruct backup.
  - unfold copy2. rewrite Hfile.
    destruct (writable w (backup_path_of filepath now)); cbn [bind].
    + apply Hrest. rewrite files_write_other; [assumption|].
      apply backup_path_other.
    + cbn [fst snd]. split; [assumption | discriminate].
  - now apply Hrest.
Qed.

Lemma repair_errors_other_types_witness :
  files (snd (repair_errors sample_world "20240115_143022" sample_path
                            (Some ["#REF!"; "#VALUE!"]) true)) sample_path
  = Some (Loads sample_workbook).
Proof.
  exact (proj1 (repair_errors_other_types
                  sample_world "20240115_143022" sample_path sample_workbook
                  (Some ["#REF!"; "#VALUE!"]) true eq_refl eq_refl)).
Defined.

End RepairFrame.

(* ------------------------------------------------------------------ *)
(** ** A scan after a repair *)
(* ------------------------------------------------------------------ *)

Section RepairThenScan.

Lemma starts_with_equals (body : string) :
  startswith "=" ("=" ++ body) = true.
Proof.
  unfold startswith. cbn [append String.prefix].
  destruct (ascii_dec "=" "="); [now destruct body | congruence].
Qed.

Lemma located_cells_wrapped (wb : workbook) :
  located_cells (wrapped_workbook wb)
  = map (fun lc => (fst lc, wrapped (snd lc))) (located_cells wb).
Proof.
  unfold located_cells, wrapped_workbook.
  induction wb as [|[t ws] wb IH]; cbn [map flat_map fst snd];
    [reflexivity|].
  rewrite map_app, IH. f_equal.
  rewrite <- concat_map, !map_map. reflexivity.
Qed.

(** The wrapper is a formula, and its text is what the scan reads. *)
Lemma wrapper_cell (c : cell) (body : string) :
  data_type (set_str_value c ("=IFERROR(" ++ body ++ ", 0)")) = "f"
  /\ cell_value (set_str_value c ("=IFERROR(" ++ body ++ ", 0)"))
     = "=IFERROR(" ++ body ++ ", 0)".
Proof.
  unfold set_str_value, cell_value. cbn [data_type value truthy str].
  split; [|reflexivity].
  change ("=IFERROR(" ++ body ++ ", 0)")
    with ("=" ++ ("IFERROR(" ++ body ++ ", 0)")).
  rewrite starts_with_equals. reflexivity.
Qed.

Lemma sentinel_names_no_wrapper (v : string) :
  is_error_value v = true -> contains "IFERROR" (upper v) = false.
Proof.
  intros H. apply is_error_value_In in H. unfold ERROR_VALUES in H.
  cbn [In] in H.
  repeat (destruct H as [<-|H]; [reflexivity|]). contradiction.
Qed.

Lemma is_formula_wrapped (lc : string * cell) :
  is_formula (fst lc, wrapped (snd lc)) = is_formula lc.
Proof.
  destruct lc as [t c]. unfold is_formula, wrapped. cbn [fst snd].
  destruct (value c) as [|formula| | |] eqn:Hv; try reflexivity.
  destruct (settled c) eqn:Hs; [reflexivity|].
  rewrite (proj1 (wrapper_cell c _)).
  unfold settled in Hs. rewrite Hv in Hs. apply negb_false_iff in Hs.
  apply andb_true_iff in Hs as [Hf _]. now rewrite Hf.
Qed.

(** After the repair a cell shows an error exactly when it showed one
    before and does not hold text. *)
Lemma has_any_error_wrapped (lc : string * cell) :
  has_any_error (fst lc, wrapped (snd lc))
  = has_any_error lc && negb (holds_text (snd lc)).
Proof.
  unfold has_any_error. rewrite is_formula_wrapped.
  destruct lc as [t c]. cbn [fst snd]. unfold holds_text, wrapped.
  destruct (value c) as [|formula| | |] eqn:Hv; cbn [negb];
    rewrite ?andb_true_r; try reflexivity.
  rewrite andb_false_r.
  destruct (is_formula (t, c)) eqn:Hf; [|reflexivity]. cbn [andb].
  unfold is_formula in Hf. cbn [snd] in Hf.
  destruct (settled c) eqn:Hs.
  - unfold settled in Hs. rewrite Hv, Hf in Hs. cbn [andb] in Hs.
    apply negb_true_iff, negb_false_iff in Hs.
    destruct (is_error_value (cell_value c)) eqn:He; [|reflexivity].
    assert (Hc : cell_value c = formula).
    { unfold cell_value. rewrite Hv. cbn [truthy str].
      destruct (String.eqb_spec formula ""); [now subst | reflexivity]. }
    rewrite Hc in He. apply sentinel_names_no_wrapper in He. congruence.
  - rewrite (proj2 (wrapper_cell c _)).
    apply formula_text_is_no_sentinel.
    change ("=IFERROR("
              ++ (if startswith "=" formula then slice_from_1 formula
                  else formula) ++ ", 0)")
      with ("=" ++ ("IFERROR("
                      ++ (if startswith "=" formula then slice_from_1 formula
                          else formula) ++ ", 0)")).
    apply starts_with_equals.
Qed.

Lemma length_filter_map {A B} (f : A -> B) (p : B -> bool) (l : list A) :
  List.length (filter p (map f l))
  = List.length (filter (fun x => p (f x)) l).
Proof.
  induction l as [|a l IH]; cbn [map filter]; [reflexivity|].
  destruct (p (f a)); cbn [List.length]; now rewrite IH.
Qed.

(** The report of a scan of a workbook that loads. *)
Lemma scan_of_loaded (w : world) (filepath : path) (wb : workbook) :
  files w filepath = Some (Loads wb) ->
  NoDup (sheetnames wb) ->
  let cells := located_cells wb in
  let report := validate_workbook_python w filepath in
  total_formulas report = Z.of_nat (List.length (filter is_formula cells))
  /\ total_errors report
     = Z.of_nat (List.length (filter has_any_error cells))
  /\ status report
     = (if (List.length (filter has_any_error cells) =? 0)%nat
        then "success" else "errors_found")
  /\ ((List.length (filter has_any_error cells) =? 0)%nat = true ->
      report
      = ValidationReport_success
          (Z.of_nat (List.length (filter is_formula cells)))
          "python_fallback").
Proof.
  intros Hfile Hnd cells report.
  assert (Hinv := scanned_fold cells).
  assert (Htal := tallied_cells cells _ tallied_start).
  unfold report, validate_workbook_python, load_workbook.
  rewrite Hfile. cbn [bind]. unfold scan_workbook.
  rewrite (scan_workbook_loop wb Hnd). cbn [bind]. fold cells.
  destruct (fold_left scan_step cells ([], 0%Z)) as [d n].
  destruct Hinv as (Hn & _ & Hs). destruct Htal as (Hb & _ & _).
  cbn [fst snd] in *.
  destruct d as [|[k b] d];
    cbn [ValidationReport_success total_formulas total_errors status].
  - unfold sum_counts in Hs. cbn [fold_left] in Hs.
    assert (Hz : List.length (filter has_any_error cells) = 0%nat) by lia.
    rewrite Hz, Hn. cbn [Nat.eqb]. now repeat split.
  - assert (Hfirst : (1 <= sum_counts ((k, b) :: d))%Z).
    { rewrite sum_counts_cons.
      apply Forall_cons_iff in Hb as [(_ & _ & H1) Hrest].
      apply sum_counts_nonneg in Hrest. cbn [snd] in H1. lia. }
    destruct (List.length (filter has_any_error cells)) eqn:El; [lia|].
    cbn [Nat.eqb]. repeat split; try assumption. discriminate.
Qed.

(** A repair that ended without an error has saved the wrapped
    workbook. *)
Lemma repair_errors_saved (w after : world) (now : string) (filepath : path)
      (wb : workbook) (error_types : option (list string)) (backup : bool)
      (results : repair_results) :
  files w filepath = Some (Loads wb) ->
  NoDup (sheetnames wb) ->
  selects_div0 error_types = true ->
  repair_errors w now filepath error_types backup = (Ok results, after) ->
  error results = None ->
  files after filepath = Some (Loads (wrapped_workbook wb))
  /\ results
     = repaired_results (backup_file results)
                        (unsettled (workbook_cells wb)).
Proof.
  intros Hfile Hnd Hsel Hrun Herr. unfold repair_errors in Hrun.
  assert (Hrest : forall w1 bf,
             files w1 filepath = Some (Loads wb) ->
             match load_workbook w1 filepath with
             | Raise e => (Ok (with_error (initial_results bf) e), w1)
             | Ok wb =>
                 match repair_loaded wb error_types (initial_results bf) with
                 | Raise e => (Ok (with_error (initial_results bf) e), w1)
                 | Ok (wb', results') =>
                     match save w1 filepath wb' with
                     | Raise e => (Ok (with_error results' e), w1)
                     | Ok w2 => (Ok results', w2)
                     end
                 end
             end = (Ok results, after) ->
             files after filepath = Some (Loads (wrapped_workbook wb))
             /\ results
                = repaired_results (backup_file results)
                                   (unsettled (workbook_cells wb))).
  { intros w1 bf H1. unfold load_workbook. rewrite H1.
    rewrite (repair_loaded_wrapped wb error_types bf Hnd Hsel).
    unfold save. destruct (writable w1 filepath).
    - intros [= <- <-]. split; [apply files_write_same | reflexivity].
    - intros [= <- _]. discriminate. }
  destruct backup.
  - unfold copy2 in Hrun. rewrite Hfile in Hrun.
    destruct (writable w (backup_path_of filepath now)); cbn [bind] in Hrun;
      [|discriminate].
    apply (Hrest _ _ ) in Hrun; [assumption|].
    rewrite files_write_other; [assumption | apply backup_path_other].
  - now apply (Hrest _ _ Hfile) in Hrun.
Qed.

(** X17. After a repair that selects [#DIV/0!] and ends without an error,
    on a workbook with distinct sheet titles, a scan of the file counts
    the same formulas as before, and the errors it finds are those of the
    formula cells that do not hold text: whatever sentinel a formula held
    as text showed, it is wrapped and shows none.  So when every formula
    cell holds text the scan reports success. *)
Theorem scan_after_repair
        (w after : world) (now : string) (filepath : path) (wb : workbook)
        (error_types : option (list string)) (backup : bool)
        (results : repair_results) :
  files w filepath = Some (Loads wb) ->
  NoDup (sheetnames wb) ->
  selects_div0 error_types = true ->
  repair_errors w now filepath error_types backup = (Ok results, after) ->
  error results = None ->
  let cells := located_cells wb in
  let left :=
    filter (fun lc => has_any_error lc && negb (holds_text (snd lc))) cells in
  let report := validate_workbook_python after filepath in
  total_formulas report = Z.of_nat (List.length (filter is_formula cells))
  /\ total_errors report = Z.of_nat (List.length left)
  /\ status report
     = (if (List.length left =? 0)%nat then "success" else "errors_found")
  /\ (forallb (fun lc => negb (is_formula lc) || holds_text (snd lc)) cells
      = true ->
      report
      = ValidationReport_success
          (Z.of_nat (List.length (filter is_formula cells)))
          "python_fallback").
Proof.
  intros Hfile Hnd Hsel Hrun Herr cells left report.
  destruct (repair_errors_saved _ _ _ _ _ _ _ _ Hfile Hnd Hsel Hrun Herr)
    as [Hsaved _].
  assert (Hnd' : NoDup (sheetnames (wrapped_workbook wb)))
    by now rewrite sheetnames_wrapped.
  destruct (scan_of_loaded after filepath _ Hsaved Hnd')
    as (Hf & He & Hs & Hok).
  fold report in Hf, He, Hs, Hok.
  assert (Hformulas :
            List.length (filter is_formula
                                (located_cells (wrapped_workbook wb)))
            = List.length (filter is_formula cells)).
  { rewrite located_cells_wrapped, length_filter_map.
    now rewrite (filter_ext _ _ is_formula_wrapped). }
  assert (Herrors :
            List.length (filter has_any_error
                                (located_cells (wrapped_workbook wb)))
            = List.length left).
  { rewrite located_cells_wrapped, length_filter_map.
    now rewrite (filter_ext _ _ has_any_error_wrapped). }
  rewrite Hformulas in Hf. rewrite Herrors in He, Hs.
  split; [assumption|]. split; [assumption|]. split; [assumption|].
  intros Htext. rewrite <- Hformulas. apply Hok. rewrite Herrors.
  assert (Hnone : left = []).
  { unfold left. clear -Htext.
    induction cells as [|lc cells IH]; [reflexivity|].
    cbn [forallb] in Htext. apply andb_true_iff in Htext as [H1 H2].
    cbn [filter]. rewrite (IH H2). unfold has_any_error.
    destruct (is_formula lc); [|reflexivity].
    cbn [negb orb] in H1. now rewrite H1, andb_false_r. }
  now rewrite Hnone.
Qed.

(** X17 on the sample workbook, whose cell of type ['f'] has [#DIV/0!] as
    value. *)
Lemma scan_after_repair_witness :
  validate_workbook_python
    (snd (repair_errors sample_world "20240115_143022" sample_path None true))
    sample_path
  = ValidationReport_success 1 "python_fallback".
Proof.
  assert (Hnd : NoDup (sheetnames sample_workbook)).
  { repeat constructor. intros []. }
  destruct (scan_after_repair
              sample_world
              (snd (repair_errors sample_world "20240115_143022" sample_path
                                  None true))
              "20240115_143022" sample_path sample_workbook None true
              (repaired_results
                 (Some "/work/model_backup_20240115_143022.xlsx") 1)
              eq_refl Hnd eq_refl eq_refl eq_refl)
    as (_ & _ & _ & Hok).
  exact (Hok eq_refl).
Defined.

End RepairThenScan.

(* ------------------------------------------------------------------ *)
(** ** The repair tool *)
(* ------------------------------------------------------------------ *)

Section RepairTool.

Lemma path_exists_file (w : world) (p : path) (f : file) :
  files w p = Some f -> path_exists w p = true.
Proof. intros H. unfold path_exists. now rewrite H. Qed.

(** X18. A dry run of [repair_workbook_errors] leaves every file as it
    is, and so does any call that validates first and finds no error.  A
    report of such a call has no repair and no second validation; its
    status is [dry_run], or [success] when the first validation found no
    error. *)
Theorem repair_tool_dry_run
        (w : world) (now : string) (filepath : path)
        (validate_first backup : bool) (error_types : option (list string))
        (dry_run : bool) :
  let outcome :=
    repair_workbook_errors w now filepath validate_first backup error_types
                           dry_run in
  let found_nothing :=
    validate_first
    && match validate_workbook w filepath "auto" 30 with
       | Ok pre => negb (has_errors pre)
       | Raise _ => false
       end in
  (dry_run || found_nothing = true ->
   snd outcome = w
   /\ forall report,
        fst outcome = Ok report ->
        rr_repair report = None
        /\ rr_post_validation report = None
        /\ rr_remaining_errors report = None
        /\ rr_status report
           = (if found_nothing then "success" else "dry_run"))
  /\ (path_exists w filepath = false ->
      outcome
      = (Raise (FileNotFoundError
                  ("File not found: " ++ str_of_path filepath)), w)).
Proof.
  intros outcome found_nothing. unfold outcome, found_nothing.
  unfold repair_workbook_errors.
  destruct (path_exists w filepath) eqn:He; cbn [negb].
  2:{ split; [|reflexivity]. intros _. split; [reflexivity|].
      intros report. discriminate. }
  split; [|discriminate].
  destruct validate_first; cbn [andb bind].
  - destruct (validate_workbook w filepath "auto" 30) as [pre|e];
      cbn [bind].
    + destruct (has_errors pre); cbn [negb].
      * rewrite orb_false_r. intros ->. split; [reflexivity|].
        now intros report [= <-].
      * intros _. split; [reflexivity|]. now intros report [= <-].
    + intros _. split; [reflexivity|]. intros report. discriminate.
  - rewrite orb_false_r. intros ->. split; [reflexivity|].
    now intros report [= <-].
Qed.

Lemma repair_tool_dry_run_witness :
  snd (repair_workbook_errors sample_world "20240115_143022" sample_path
                              true true None true)
  = sample_world.
Proof.
  exact (proj1 (proj1 (repair_tool_dry_run
                         sample_world "20240115_143022" sample_path
                         true true None true) eq_refl)).
Defined.

(** X19. On a writable file that holds a workbook with distinct sheet
    titles, the tool asked to repair at once (no first validation, no
    backup, no dry run, [#DIV/0!] selected) saves the wrapped workbook and
    reports the repairs made.  Its status is [success] exactly when no
    formula cell that does not hold text shows a sentinel, and
    [partial_success] with that number of remaining errors otherwise:
    every sentinel shown by a formula held as text counts as repaired,
    whatever the sentinel. *)
Theorem repair_tool_reports
        (w : world) (now : string) (filepath : path) (wb : workbook)
        (error_types : option (list string)) :
  files w filepath = Some (Loads wb) ->
  NoDup (sheetnames wb) ->
  writable w filepath = true ->
  selects_div0 error_types = true ->
  let remaining :=
    Z.of_nat
      (List.length
         (filter (fun lc => has_any_error lc && negb (holds_text (snd lc)))
                 (located_cells wb))) in
  let repairs := unsettled (workbook_cells wb) in
  let after := write w filepath (Loads (wrapped_workbook wb)) in
  repair_workbook_errors w now filepath false false error_types false
  = (Ok {| rr_file := str_of_path filepath;
           rr_dry_run := false;
           rr_pre_validation := None;
           rr_status :=
             if (remaining =? 0)%Z then "success" else "partial_success";
           rr_message :=
             if (remaining =? 0)%Z then "All errors repaired successfully"
             else str_of_int repairs ++ " repairs made, "
                  ++ str_of_int remaining ++ " errors remain";
           rr_errors_that_would_be_repaired := None;
           rr_repair := Some (repaired_results None repairs);
           rr_post_validation :=
             Some (validate_workbook_python after filepath);
           rr_remaining_errors :=
             if (remaining =? 0)%Z then None else Some remaining |},
     after)
  /\ total_errors (validate_workbook_python after filepath) = remaining.
Proof.
  intros Hfile Hnd Hw Hsel remaining repairs after.
  assert (Hrun : repair_errors w now filepath error_types false
                 = (Ok (repaired_results None repairs), after)).
  { unfold repair_errors, load_workbook. rewrite Hfile.
    fold (initial_results None).
    rewrite (repair_loaded_wrapped wb error_types None Hnd Hsel).
    unfold save. now rewrite Hw. }
  assert (Hsaved : files after filepath
                   = Some (Loads (wrapped_workbook wb)))
    by apply files_write_same.
  assert (Hnd' : NoDup (sheetnames (wrapped_workbook wb)))
    by now rewrite sheetnames_wrapped.
  assert (Hleft : total_errors (validate_workbook_python after filepath)
                  = remaining).
  { destruct (scan_of_loaded after filepath _ Hsaved Hnd')
      as (_ & He & _ & _).
    rewrite He, located_cells_wrapped, length_filter_map.
    now rewrite (filter_ext _ _ has_any_error_wrapped). }
  split; [|exact Hleft].
  unfold repair_workbook_errors.
  rewrite (path_exists_file w filepath _ Hfile). cbn [negb].
  rewrite Hrun.
  assert (Hknown : In "auto" known_methods) by now left.
  rewrite (validate_workbook_known after filepath "auto" 30
             (path_exists_file _ _ _ Hsaved) Hknown).
  rewrite Hleft.
  destruct (remaining =? 0)%Z; reflexivity.
Qed.

(** X19 on the sample workbook: its cell of type ['f'] counts as repaired. *)
Lemma repair_tool_reports_witness :
  exists report after,
    repair_workbook_errors sample_world "20240115_143022" sample_path
                           false false None false
    = (Ok report, after)
    /\ rr_status report = "success"
    /\ rr_message report = "All errors repaired successfully".
Proof.
  assert (Hnd : NoDup (sheetnames sample_workbook)).
  { repeat constructor. intros []. }
  destruct (repair_tool_reports sample_world "20240115_143022" sample_path
              sample_workbook None eq_refl Hnd eq_refl eq_refl)
    as [Hrun _].
  eexists. eexists. split; [exact Hrun|]. split; reflexivity.
Defined.

(** X20. On a file that exists and cannot be read as a workbook the tool
    never reports a failure.  Asked to validate first, it takes the error
    report for a report without errors, touches nothing and answers
    [success], no repairs needed.  Asked to repair at once without
    backup, it records the exception in the repair result, changes no
    file, and answers [success], all errors repaired. *)
Theorem repair_tool_unreadable
        (w : world) (now : string) (filepath : path) (e : exception)
        (backup : bool) (error_types : option (list string)) (dry_run : bool) :
  path_exists w filepath = true ->
  load_workbook w filepath = Raise e ->
  repair_workbook_errors w now filepath true backup error_types dry_run
  = (Ok {| rr_file := str_of_path filepath;
           rr_dry_run := dry_run;
           rr_pre_validation := Some (error_report e);
           rr_status := "success";
           rr_message := "No errors found, no repairs needed";
           rr_errors_that_would_be_repaired := None;
           rr_repair := None;
           rr_post_validation := None;
           rr_remaining_errors := None |},
     w)
  /\ repair_workbook_errors w now filepath false false error_types false
     = (Ok {| rr_file := str_of_path filepath;
              rr_dry_run := false;
              rr_pre_validation := None;
              rr_status := "success";
              rr_message := "All errors repaired successfully";
              rr_errors_that_would_be_repaired := None;
              rr_repair := Some (with_error (initial_results None) e);
              rr_post_validation := Some (error_report e);
              rr_remaining_errors := None |},
        w).
Proof.
  intros He Hload.
  assert (Hpy : validate_workbook_python w filepath = error_report e).
  { unfold validate_workbook_python. now rewrite Hload. }
  assert (Hknown : In "auto" known_methods) by now left.
  assert (Hscan := validate_workbook_known w filepath "auto" 30 He Hknown).
  rewrite Hpy in Hscan.
  unfold repair_workbook_errors. rewrite He. cbn [negb].
  split.
  - rewrite Hscan. reflexivity.
  - unfold repair_errors. rewrite Hload. rewrite Hscan. reflexivity.
Qed.

Lemma repair_tool_unreadable_witness :
  exists report,
    repair_workbook_errors corrupt_world "20240115_143022" sample_path
                           true true None false
    = (Ok report, corrupt_world)
    /\ rr_status report = "success".
Proof.
  eexists. split.
  - exact (proj1 (repair_tool_unreadable
                    corrupt_world "20240115_143022" sample_path
                    (InvalidFileException "File is not a zip file")
                    true None false eq_refl eq_refl)).
  - reflexivity.
Defined.

End RepairTool.

(* ------------------------------------------------------------------ *)
(** ** The validation tool *)
(* ------------------------------------------------------------------ *)

Section ValidationToolFacts.

Variable format_rate : Z -> Z -> string.

Lemma python_scan_method (w : world) (filepath : path) :
  validation_method (validate_workbook_python w filepath) = "python_fallback".
Proof.
  unfold validate_workbook_python.
  destruct (load_workbook w filepath) as [wb|e]; cbn [bind];
    [|reflexivity].
  unfold scan_workbook.
  destruct (scan_sheets wb (sheetnames wb) ([], 0%Z)) as [[d n]|e];
    cbn [bind]; [|reflexivity].
  now destruct d.
Qed.

(** What a report of the Python scan is made of. *)
Lemma scan_report_tallied (w : world) (filepath : path) (d : buckets) :
  error_summary (validate_workbook_python w filepath) = Errors d ->
  tallied (d, total_formulas (validate_workbook_python w filepath))
  /\ total_errors (validate_workbook_python w filepath) = sum_counts d.
Proof.
  unfold validate_workbook_python.
  destruct (load_workbook w filepath) as [wb|e]; cbn [bind];
    [|discriminate].
  unfold scan_workbook.
  destruct (scan_sheets wb (sheetnames wb) ([], 0%Z)) as [[d0 n]|e] eqn:Hscan;
    cbn [bind]; [|discriminate].
  assert (Htal := tallied_scan_sheets wb (sheetnames wb) _ _
                    tallied_start Hscan).
  destruct d0 as [|kb d0];
    cbn [ValidationReport_success error_summary total_formulas total_errors];
    intros [= <-]; split; try assumption; reflexivity.
Qed.

Lemma first_five_shorten (b : bucket) :
  count b = Z.of_nat (List.length (locations b)) ->
  shorten false b = first_five b.
Proof.
  intros Hc. unfold shorten, first_five. cbn [negb]. f_equal.
  rewrite length_firstn, Hc.
  destruct (Z.ltb_spec 5 (Z.of_nat (List.length (locations b))));
    destruct (Z.ltb_spec (Z.of_nat (Nat.min 5 (List.length (locations b))))
                         (Z.of_nat (List.length (locations b))));
    try reflexivity; lia.
Qed.

(** X21. On a file that exists, with a known method, [validate_formulas]
    repeats the status, the totals and the method of the scan.  Unless
    details are asked for, each bucket keeps its count and the first five
    of its locations, and is marked as truncated exactly when it counts
    more than five; with details the buckets are as the scan made them.
    The summary line of a report with errors always prints a rate
    computed from a positive number of formulas. *)
Theorem validate_formulas_shows
        (w : world) (filepath : path) (method : string) (timeout : Z)
        (detailed : bool) :
  path_exists w filepath = true ->
  In method known_methods ->
  let report := validate_workbook_python w filepath in
  exists shown,
    validate_formulas format_rate w filepath method timeout detailed
    = Ok shown
    /\ fr_status shown = status report
    /\ fr_total_errors shown = total_errors report
    /\ fr_total_formulas shown = total_formulas report
    /\ fr_validation_method shown = "python_fallback"
    /\ fr_error_summary shown
       = match error_summary report with
         | Errors d =>
             ShownErrors
               (map (fun kb =>
                       (fst kb,
                        if detailed
                        then {| shown_count := count (snd kb);
                                shown_locations := locations (snd kb);
                                truncated := false |}
                        else first_five (snd kb))) d)
         | Failure message => ShownFailure message
         end
    /\ fr_summary shown
       = (if has_errors report then
            str_of_int (total_errors report) ++ " errors found in "
              ++ str_of_int (total_formulas report) ++ " formulas ("
              ++ format_rate (total_errors report) (total_formulas report)
              ++ "% error rate)"
          else
            "All " ++ str_of_int (total_formulas report)
              ++ " formulas validated successfully")
    /\ (has_errors report = true -> (0 < total_formulas report)%Z).
Proof.
  intros He Hin report.
  unfold validate_formulas. rewrite He. cbn [negb].
  rewrite (validate_workbook_known w filepath method timeout He Hin).
  cbn [bind]. fold report.
  assert (Hpos : has_errors report = true -> (0 < total_formulas report)%Z).
  { unfold has_errors. intros H. apply Z.gtb_lt in H.
    destruct (error_summary report) as [d|m] eqn:Hd.
    - destruct (scan_report_tallied w filepath d Hd) as [(_ & _ & Hs) Ht].
      fold report in Hs, Ht. cbn [fst snd] in Hs. lia.
    - unfold report, validate_workbook_python in H, Hd.
      destruct (bind (load_workbook w filepath) (fun wb => scan_workbook wb))
        as [r|e] eqn:Hr; [|cbn in H; lia].
      exfalso. unfold scan_workbook in Hr.
      destruct (load_workbook w filepath) as [wb|]; cbn [bind] in Hr;
        [|discriminate].
      destruct (scan_sheets wb (sheetnames wb) ([], 0%Z)) as [[d0 n]|];
        cbn [bind] in Hr; [|discriminate].
      destruct d0; injection Hr as <-; discriminate. }
  eexists. split; [reflexivity|].
  cbn [fr_status fr_total_errors fr_total_formulas fr_validation_method
       fr_error_summary fr_summary].
  split; [reflexivity|]. split; [reflexivity|]. split; [reflexivity|].
  split; [apply (python_scan_method w filepath)|].
  split; [|split; [|exact Hpos]].
  - destruct (error_summary report) as [d|m] eqn:Hd; [|reflexivity].
    f_equal. apply map_ext_in. intros [k b] Hkb. cbn [fst snd].
    destruct detailed; [reflexivity|]. f_equal.
    apply first_five_shorten.
    destruct (scan_report_tallied w filepath d Hd) as [(Hb & _ & _) _].
    cbn [fst] in Hb. rewrite Forall_forall in Hb.
    now destruct (Hb _ Hkb) as (_ & Hc & _).
  - destruct (has_errors report) eqn:Hh; [|reflexivity].
    specialize (Hpos eq_refl). apply Z.gtb_lt in Hpos. now rewrite Hpos.
Qed.

End ValidationToolFacts.

(** X21 on the sample workbook. *)
Lemma validate_formulas_shows_witness :
  exists shown,
    validate_formulas sample_rate sample_world sample_path "auto" 30 false
    = Ok shown
    /\ fr_summary shown = "1 errors found in 1 formulas (100.0% error rate)".
Proof.
  assert (Hauto : In "auto" known_methods) by now left.
  destruct (validate_formulas_shows sample_rate sample_world sample_path
              "auto" 30 false eq_refl Hauto)
    as (shown & Hrun & _ & _ & _ & _ & _ & Hsummary & _).
  exists shown. split; [exact Hrun | exact Hsummary].
Defined.

(* ------------------------------------------------------------------ *)
(** ** The agent: ranges *)
(* ------------------------------------------------------------------ *)

Example str_replace_from_the_left :
  map (fun s => Agent.str_replace "aa" "b" s) ["aaa"; "aaaa"; "xaay"; "a"]
  = ["ba"; "bb"; "xby"; "a"].
Proof. reflexivity. Qed.

Example filled_template :
  filled "{cell}*{col}{row}+{row}" 7 28 = "=AB7*AB7+7".
Proof. reflexivity. Qed.

Section AgentRanges.
Local Open Scope Z_scope.

Variable L : Agent.library.

Lemma range_length (a b : Z) :
  List.length (Agent.range a b) = Z.to_nat (b - a).
Proof. unfold Agent.range. now rewrite length_map, length_seq. Qed.

Lemma range_In (a b x : Z) : In x (Agent.range a b) <-> a <= x < b.
Proof.
  unfold Agent.range. rewrite in_map_iff. split.
  - intros (i & <- & Hi). apply in_seq in Hi. lia.
  - intros H. exists (Z.to_nat (x - a)). split; [lia|].
    apply in_seq. lia.
Qed.

Lemma rectangle_length (start_row start_col end_row end_col : Z) :
  Z.of_nat (List.length (rectangle start_row start_col end_row end_col))
  = Z.max 0 (end_row - start_row + 1) * Z.max 0 (end_col - start_col + 1).
Proof.
  unfold rectangle.
  assert (H : forall rows cols : list Z,
             List.length (flat_map (fun row => map (pair row) cols) rows)
             = (List.length rows * List.length cols)%nat).
  { intros rows cols. induction rows as [|r rows IH]; [reflexivity|].
    cbn [flat_map List.length]. now rewrite length_app, length_map, IH. }
  rewrite H, !range_length, Nat2Z.inj_mul. lia.
Qed.

Lemma get_column_letter_in_range (n : Z) :
  1 <= n <= 16384 -> exists letter, get_column_letter n = Ok letter.
Proof.
  intros Hn. assert (H := column_round_trip_in_range n Hn).
  unfold column_round_trip in H.
  destruct (get_column_letter n) as [letter|]; [now exists letter|].
  discriminate.
Qed.

Lemma get_cell_coordinates_bounds (ref : string) (row col : Z) :
  get_cell_coordinates ref = Ok (row, col) ->
  0 <= row <= 1048576 /\ 1 <= col <= 16384.
Proof.
  destruct (is_valid_cell_reference ref) eqn:Hv.
  - destruct (get_cell_coordinates_by_runs ref Hv) as (Hal & Hl & Had & ->).
    set (letters := fst (span is_letter ref)) in *.
    set (digits := fst (span is_digit (snd (span is_letter ref)))) in *.
    destruct ((int digits >? EXCEL_MAX_ROWS)
              || (decode_letters 0 (upper letters) >? EXCEL_MAX_COLS))
      eqn:Hb; [discriminate|].
    intros [= <- <-].
    apply orb_false_iff in Hb as [Hr Hc].
    unfold EXCEL_MAX_ROWS in Hr. unfold EXCEL_MAX_COLS in Hc.
    pose proof (int_of_digits_nonneg digits 0 Had (Z.le_refl 0)) as Hrow.
    fold (int digits) in Hrow.
    pose proof (decode_letters_positive (upper letters)
                  (all_upper_of_letters letters Hal)) as Hcol.
    rewrite length_upper in Hcol. lia.
  - unfold get_cell_coordinates. rewrite Hv. discriminate.
Qed.

(** *** Runs of calls *)

Lemma run_calls_keeps_workbook (calls : list Agent.call) :
  forall b, exists b', snd (run_calls L calls (Some b)) = Some b'.
Proof.
  induction calls as [|c calls IH]; intros b; cbn [run_calls].
  - now exists b.
  - unfold Agent.and_then, Agent.do_call.
    destruct (Agent.perform L c b) as [[e|] b'].
    + now exists b'.
    + apply IH.
Qed.

Lemma run_calls_app (calls1 calls2 : list Agent.call)
      (wb : option (Agent.book L)) :
  run_calls L (calls1 ++ calls2)%list wb
  = match run_calls L calls1 wb with
    | (Agent.Returns _, wb') => run_calls L calls2 wb'
    | (Agent.Raises e, wb') => (Agent.Raises e, wb')
    end.
Proof.
  revert wb. induction calls1 as [|c calls1 IH]; intros wb;
    cbn [app run_calls]; [reflexivity|].
  unfold Agent.and_then.
  destruct (Agent.do_call L c wb) as [[u|e] wb']; [apply IH | reflexivity].
Qed.

(** A loop whose body makes calls and adds [step] to the count. *)
Lemma for_each_calls {A : Type} (items : list A)
      (body : A -> Z -> Agent.agent L Z) (calls_of : A -> list Agent.call)
      (step : Z) :
  (forall item, In item items ->
   forall count b,
     body item count (Some b)
     = counted (count + step) (run_calls L (calls_of item) (Some b))) ->
  forall count b,
    Agent.for_each L items body count (Some b)
    = counted (count + step * Z.of_nat (List.length items))
              (run_calls L (flat_map calls_of items) (Some b)).
Proof.
  induction items as [|item items IH]; intros Hbody count b;
    cbn [Agent.for_each flat_map List.length run_calls].
  - unfold Agent.ret, counted. do 2 f_equal. lia.
  - unfold Agent.and_then at 1.
    rewrite (Hbody item (or_introl eq_refl)), run_calls_app.
    destruct (run_calls_keeps_workbook (calls_of item) b) as [b' Hb'].
    destruct (run_calls L (calls_of item) (Some b)) as [[u|e] wb'];
      cbn [snd counted] in *; [|reflexivity].
    subst wb'. rewrite IH by (intros; apply Hbody; now right).
    replace (count + step + step * Z.of_nat (List.length items))
      with (count + step * Z.of_nat (S (List.length items))) by lia.
    reflexivity.
Qed.

Lemma flat_map_rows {B : Type} (calls_at : Z -> Z -> list B)
      (rows cols : list Z) :
  flat_map (fun row => flat_map (fun col => calls_at row col) cols) rows
  = flat_map (fun rc => calls_at (fst rc) (snd rc))
             (flat_map (fun row => map (pair row) cols) rows).
Proof.
  induction rows as [|row rows IH]; cbn [flat_map]; [reflexivity|].
  rewrite flat_map_app, IH. f_equal.
  clear. induction cols as [|col cols IH]; cbn [flat_map map fst snd];
    [reflexivity | now rewrite IH].
Qed.

(** The two loops over a rectangle, for a body that makes the calls of a
    cell and counts one. *)
Lemma rectangle_loops (calls_at : Z -> Z -> list Agent.call)
      (body : Z -> Z -> Z -> Agent.agent L Z)
      (start_row start_col end_row end_col : Z) (b : Agent.book L) :
  (forall row col,
      start_col <= col <= end_col ->
      forall count b,
        body row col count (Some b)
        = counted (count + 1) (run_calls L (calls_at row col) (Some b))) ->
  Agent.for_each L (Agent.range start_row (end_row + 1))
    (fun row count =>
       Agent.for_each L (Agent.range start_col (end_col + 1))
                      (fun col count => body row col count) count)
    0 (Some b)
  = counted
      (Z.of_nat (List.length
                   (rectangle start_row start_col end_row end_col)))
      (run_calls L
         (flat_map (fun rc => calls_at (fst rc) (snd rc))
                   (rectangle start_row start_col end_row end_col))
         (Some b)).
Proof.
  intros Hbody. unfold rectangle. rewrite <- flat_map_rows.
  set (cols := Agent.range start_col (end_col + 1)).
  set (rows := Agent.range start_row (end_row + 1)).
  rewrite (for_each_calls rows _
             (fun row => flat_map (fun col => calls_at row col) cols)
             (1 * Z.of_nat (List.length cols))).
  - f_equal.
    assert (H : forall rs cs : list Z,
               List.length (flat_map (fun row => map (pair row) cs) rs)
               = (List.length rs * List.length cs)%nat).
    { intros rs cs. induction rs as [|r rs IH]; [reflexivity|].
      cbn [flat_map List.length]. now rewrite length_app, length_map, IH. }
    rewrite H, Nat2Z.inj_mul. lia.
  - intros row _ count b0.
    apply (for_each_calls cols (fun col count => body row col count)
                          (fun col => calls_at row col) 1).
    intros col Hcol count0 b1. apply Hbody.
    apply range_In in Hcol. lia.
Qed.

Lemma get_sheet_known (sheet : string) (b : Agent.book L) :
  In sheet (Agent.sheetnames_of L b) ->
  Agent.get_sheet L sheet (Some b) = (Agent.Returns sheet, Some b).
Proof.
  intros Hin. unfold Agent.get_sheet.
  apply mem_In in Hin. now rewrite Hin.
Qed.

Lemma str_replace_absent (old new s : string) :
  contains old s = false -> Agent.str_replace old new s = s.
Proof.
  unfold Agent.str_replace.
  induction s as [|c s IH]; [reflexivity|].
  cbn [contains Agent.replace_from]. intros H.
  apply orb_false_iff in H as [Hp Hs].
  unfold startswith. rewrite Hp. now rewrite (IH Hs).
Qed.

Lemma filled_starts_with_equals (formula_template : string) (row col : Z) :
  startswith "=" (filled formula_template row col) = true.
Proof.
  unfold filled. cbv zeta.
  match goal with
  | |- context [if startswith "=" ?f then _ else _] =>
      destruct (startswith "=" f) eqn:E
  end; [exact E | apply starts_with_equals].
Qed.

(** X22. For a sheet of the workbook and a range that parses,
    [apply_range_formula] makes one library call for each cell of the
    rectangle from the start to the end cell, row after row: writing the
    template with the row, the column letters and the cell put in for
    [{row}], [{col}] and [{cell}], behind [=] when it does not start with
    one.  It returns the number of cells unless a call raises, which ends
    it there.  That number is the height times the width, and zero, with
    no call at all, when the end cell is above or left of the start cell.
    A template without the three markers is written as it is to every
    cell. *)
Theorem apply_range_formula_writes
        (b : Agent.book L) (sheet range_ref formula_template : string)
        (start_cell end_cell : string)
        (start_row start_col end_row end_col : Z) :
  In sheet (Agent.sheetnames_of L b) ->
  parse_range range_ref = Ok (start_cell, end_cell) ->
  get_cell_coordinates start_cell = Ok (start_row, start_col) ->
  get_cell_coordinates end_cell = Ok (end_row, end_col) ->
  let cells := rectangle start_row start_col end_row end_col in
  Agent.apply_range_formula L sheet range_ref formula_template (Some b)
  = counted
      (Z.of_nat (List.length cells))
      (run_calls L
         (flat_map
            (fun rc =>
               [Agent.CellAt sheet (fst rc) (snd rc)
                  (Some (PyStr (filled formula_template (fst rc) (snd rc))))])
            cells)
         (Some b))
  /\ Z.of_nat (List.length cells)
     = Z.max 0 (end_row - start_row + 1) * Z.max 0 (end_col - start_col + 1)
  /\ (end_row < start_row \/ end_col < start_col ->
      Agent.apply_range_formula L sheet range_ref formula_template (Some b)
      = (Agent.Returns 0, Some b))
  /\ (forall row col,
         startswith "=" (filled formula_template row col) = true)
  /\ (contains "{row}" formula_template = false ->
      contains "{col}" formula_template = false ->
      contains "{cell}" formula_template = false ->
      forall row col,
        filled formula_template row col
        = if startswith "=" formula_template then formula_template
          else "=" ++ formula_template).
Proof.
  intros Hsheet Hparse Hstart Hend cells.
  destruct (get_cell_coordinates_bounds _ _ _ Hstart) as [_ Hsc].
  destruct (get_cell_coordinates_bounds _ _ _ Hend) as [_ Hec].
  assert (Hrun :
            Agent.apply_range_formula L sheet range_ref formula_template
                                      (Some b)
            = counted
                (Z.of_nat (List.length cells))
                (run_calls L
                   (flat_map
                      (fun rc =>
                         [Agent.CellAt sheet (fst rc) (snd rc)
                            (Some (PyStr (filled formula_template
                                                 (fst rc) (snd rc))))])
                      cells)
                   (Some b))).
  { unfold Agent.apply_range_formula.
    unfold Agent.and_then at 1. rewrite (get_sheet_known sheet b Hsheet).
    unfold Agent.and_then at 1. rewrite Hparse. cbn [Agent.lift Agent.ret].
    unfold Agent.and_then at 1. rewrite Hstart. cbn [Agent.lift Agent.ret].
    unfold Agent.and_then at 1. rewrite Hend. cbn [Agent.lift Agent.ret].
    apply (rectangle_loops
             (fun row col =>
                [Agent.CellAt sheet row col
                   (Some (PyStr (filled formula_template row col)))])).
    intros row col Hcol count b0.
    destruct (get_column_letter_in_range col) as [letter Hletter]; [lia|].
    unfold filled. rewrite Hletter.
    unfold Agent.and_then, Agent.lift, Agent.ret, Agent.do_call.
    cbn [run_calls]. unfold Agent.and_then, Agent.do_call, Agent.ret.
    destruct (startswith "=" _); cbn [negb];
      destruct (Agent.perform L _ b0) as [[e|] b1]; reflexivity. }
  split; [exact Hrun|]. split; [apply rectangle_length|].
  split; [|split].
  - intros Hrev. rewrite Hrun.
    assert (Hnone : cells = []).
    { apply length_zero_iff_nil. apply Nat2Z.inj.
      unfold cells. rewrite rectangle_length. cbn [Z.of_nat]. nia. }
    now rewrite Hnone.
  - apply filled_starts_with_equals.
  - intros Hrow Hcol Hcell row col. unfold filled.
    rewrite (str_replace_absent "{row}" _ _ Hrow).
    rewrite (str_replace_absent "{col}" _ _ Hcol).
    now rewrite (str_replace_absent "{cell}" _ _ Hcell).
Qed.

(** X23. For a sheet of the workbook and a range that parses,
    [format_range] makes two library calls for each cell of the rectangle
    from the start to the end cell, row after row: it asks for the cell
    and assigns its number format.  It returns the number of cells unless
    a call raises, and zero, with no call at all, when the end cell is
    above or left of the start cell. *)
Theorem format_range_writes
        (b : Agent.book L) (sheet range_ref number_format : string)
        (start_cell end_cell : string)
        (start_row start_col end_row end_col : Z) :
  In sheet (Agent.sheetnames_of L b) ->
  parse_range range_ref = Ok (start_cell, end_cell) ->
  get_cell_coordinates start_cell = Ok (start_row, start_col) ->
  get_cell_coordinates end_cell = Ok (end_row, end_col) ->
  let cells := rectangle start_row start_col end_row end_col in
  Agent.format_range L sheet range_ref number_format (Some b)
  = counted
      (Z.of_nat (List.length cells))
      (run_calls L
         (flat_map
            (fun rc =>
               [Agent.CellAt sheet (fst rc) (snd rc) None;
                Agent.SetNumberFormatAt sheet (fst rc) (snd rc)
                                        number_format])
            cells)
         (Some b))
  /\ Z.of_nat (List.length cells)
     = Z.max 0 (end_row - start_row + 1) * Z.max 0 (end_col - start_col + 1)
  /\ (end_row < start_row \/ end_col < start_col ->
      Agent.format_range L sheet range_ref number_format (Some b)
      = (Agent.Returns 0, Some b)).
Proof.
  intros Hsheet Hparse Hstart Hend cells.
  assert (Hrun :
            Agent.format_range L sheet range_ref number_format (Some b)
            = counted
                (Z.of_nat (List.length cells))
                (run_calls L
                   (flat_map
                      (fun rc =>
                         [Agent.CellAt sheet (fst rc) (snd rc) None;
                          Agent.SetNumberFormatAt sheet (fst rc) (snd rc)
                                                  number_format])
                      cells)
                   (Some b))).
  { unfold Agent.format_range.
    unfold Agent.and_then at 1. rewrite (get_sheet_known sheet b Hsheet).
    unfold Agent.and_then at 1. rewrite Hparse. cbn [Agent.lift Agent.ret].
    unfold Agent.and_then at 1. rewrite Hstart. cbn [Agent.lift Agent.ret].
    unfold Agent.and_then at 1. rewrite Hend. cbn [Agent.lift Agent.ret].
    apply (rectangle_loops
             (fun row col =>
                [Agent.CellAt sheet row col None;
                 Agent.SetNumberFormatAt sheet row col number_format])).
    intros row col _ count b0. cbn [run_calls].
    unfold Agent.and_then, Agent.ret, Agent.do_call.
    destruct (Agent.perform L _ b0) as [[e|] b1]; [reflexivity|].
    destruct (Agent.perform L _ b1) as [[e|] b2]; reflexivity. }
  split; [exact Hrun|]. split; [apply rectangle_length|].
  intros Hrev. rewrite Hrun.
  assert (Hnone : cells = []).
  { apply length_zero_iff_nil. apply Nat2Z.inj.
    unfold cells. rewrite rectangle_length. cbn [Z.of_nat]. nia. }
  now rewrite Hnone.
Qed.

End AgentRanges.

(** X22 and X23 on a library that keeps the calls made: a template over
    two rows and two columns, whatever sheet the range names; and a range
    given from its end. *)
Lemma apply_range_formula_writes_witness :
  Agent.apply_range_formula log_library "Sheet1" "Other!A1:B2" "{cell}*2"
                            (Some [])
  = (Agent.Returns 4%Z,
     Some [Agent.CellAt "Sheet1" 1 1 (Some (PyStr "=A1*2"));
           Agent.CellAt "Sheet1" 1 2 (Some (PyStr "=B1*2"));
           Agent.CellAt "Sheet1" 2 1 (Some (PyStr "=A2*2"));
           Agent.CellAt "Sheet1" 2 2 (Some (PyStr "=B2*2"))]).
Proof.
  assert (Hsheet : In "Sheet1" (Agent.sheetnames_of log_library []))
    by now left.
  destruct (apply_range_formula_writes
              log_library [] "Sheet1" "Other!A1:B2" "{cell}*2" "A1" "B2"
              1 1 2 2 Hsheet eq_refl eq_refl eq_refl) as [Hrun _].
  exact (eq_trans Hrun eq_refl).
Defined.

Lemma format_range_writes_witness :
  Agent.format_range log_library "Sheet1" "B2:A1" "0.0%" (Some [])
  = (Agent.Returns 0%Z, Some []).
Proof.
  assert (Hsheet : In "Sheet1" (Agent.sheetnames_of log_library []))
    by now left.
  destruct (format_range_writes
              log_library [] "Sheet1" "B2:A1" "0.0%" "B2" "A1"
              2 2 1 1 Hsheet eq_refl eq_refl eq_refl) as (_ & _ & Hrev).
  apply Hrev. left. reflexivity.
Defined.

(* ------------------------------------------------------------------ *)
(** ** The agent: formulas *)
(* ------------------------------------------------------------------ *)

Section AgentFormulas.
Local Open Scope Z_scope.

Variable L : Agent.library.
Hypothesis set_order_elements :
  forall xs x, In x (Agent.set_order L xs) <-> In x xs.

Lemma sanitized_starts_with_equals (formula : string) (allow_external : bool) :
  startswith "=" (fst (sanitize_formula formula allow_external)) = true.
Proof.
  unfold sanitize_formula. cbn [fst].
  destruct (startswith "=" formula) eqn:E; cbn [negb];
    [exact E | apply starts_with_equals].
Qed.

Lemma no_warning_is_clean (formula : string) (allow_external : bool) :
  let text := fst (sanitize_formula formula allow_external) in
  snd (sanitize_formula formula allow_external) = [] ->
  matching_warnings text = []
  /\ len text <= MAX_FORMULA_LENGTH
  /\ Z.abs (count_char "(" text - count_char ")" text) <= MAX_FORMULA_NESTING.
Proof.
  unfold sanitize_formula, matching_warnings. cbn [fst snd].
  rewrite threat_loop_collects. cbn [app]. unfold list_append.
  set (text := if negb (startswith "=" formula) then "=" ++ formula
               else formula).
  destruct (Z.gtb_spec (len text) MAX_FORMULA_LENGTH);
    destruct (Z.gtb_spec (Z.abs (count_char "(" text - count_char ")" text))
                         MAX_FORMULA_NESTING);
    intros Hnone; try (repeat split; assumption); exfalso;
    repeat match goal with
           | Hnil : (_ ++ _)%list = [] |- _ =>
               apply app_eq_nil in Hnil; destruct Hnil
           end;
    discriminate.
Qed.

(** *** Methods that raise no exception of the two guards *)

Lemma unguarded_ret {A : Type} (a : A) : unguarded (Agent.ret L a).
Proof. intros wb message. split; discriminate. Qed.

Lemma unguarded_lift {A : Type} (r : result A) : unguarded (Agent.lift L r).
Proof. intros wb message. destruct r; split; discriminate. Qed.

Lemma unguarded_do_call (c : Agent.call) : unguarded (Agent.do_call L c).
Proof.
  intros wb message. unfold Agent.do_call.
  destruct wb as [b|]; [|split; discriminate].
  destruct (Agent.perform L c b) as [[e|] b']; split; discriminate.
Qed.

Lemma unguarded_get_sheet (name : string) : unguarded (Agent.get_sheet L name).
Proof.
  intros wb message. unfold Agent.get_sheet.
  destruct wb as [b|]; [|split; discriminate].
  destruct (negb (mem name (Agent.sheetnames_of L b))); split; discriminate.
Qed.

Lemma unguarded_named_styles : unguarded (Agent.named_styles L).
Proof. intros wb message. destruct wb; split; discriminate. Qed.

Lemma unguarded_and_then {A B : Type} (m : Agent.agent L A)
      (k : A -> Agent.agent L B) :
  unguarded m -> (forall a, unguarded (k a)) ->
  unguarded (Agent.and_then L m k).
Proof.
  intros Hm Hk wb message. unfold Agent.and_then.
  specialize (Hm wb message).
  destruct (m wb) as [[a|e] wb']; [apply Hk|].
  cbn [fst] in *. destruct Hm as [Hs Hf].
  split; intros [= E]; [apply Hs | apply Hf]; now rewrite E.
Qed.

Lemma unguarded_for_each {A : Type} (items : list A)
      (body : A -> Z -> Agent.agent L Z) :
  (forall item count, unguarded (body item count)) ->
  forall count, unguarded (Agent.for_each L items body count).
Proof.
  intros Hbody. induction items as [|item items IH]; intros count;
    cbn [Agent.for_each].
  - apply unguarded_ret.
  - apply unguarded_and_then; [apply Hbody | exact IH].
Qed.

Lemma unguarded_set_cell_value (sheet cell : string) (v : pyvalue)
      (style number_format : option string) :
  unguarded (Agent.set_cell_value L sheet cell v style number_format).
Proof.
  unfold Agent.set_cell_value.
  apply unguarded_and_then; [apply unguarded_get_sheet | intros ws].
  apply unguarded_and_then; [apply unguarded_do_call | intros _].
  apply unguarded_and_then; [apply unguarded_do_call | intros _].
  apply unguarded_and_then.
  - destruct style as [style|]; [|apply unguarded_ret].
    destruct (negb (style =? "")%string); [|apply unguarded_ret].
    apply unguarded_and_then; [apply unguarded_named_styles | intros styles].
    destruct (mem style styles);
      [apply unguarded_do_call | apply unguarded_ret].
  - intros _. destruct number_format as [number_format|];
      [|apply unguarded_ret].
    destruct (negb (number_format =? "")%string);
      [apply unguarded_do_call | apply unguarded_ret].
Qed.

(** X24. [apply_range_formula] and [format_range] never raise
    [SecurityError] or [FormulaError]: a template goes to the library
    without passing the sanitizer or the validation of references, and so
    does the formula of ["=WEBSERVICE(A1)"], which [add_formula] refuses
    when [allow_external] is unset. *)
Theorem range_methods_unguarded
        (sheet range_ref text : string) (wb : option (Agent.book L)) :
  (forall message,
      fst (Agent.apply_range_formula L sheet range_ref text wb)
      <> Agent.Raises (Agent.SecurityError message)
      /\ fst (Agent.apply_range_formula L sheet range_ref text wb)
         <> Agent.Raises (Agent.FormulaError message)
      /\ fst (Agent.format_range L sheet range_ref text wb)
         <> Agent.Raises (Agent.SecurityError message)
      /\ fst (Agent.format_range L sheet range_ref text wb)
         <> Agent.Raises (Agent.FormulaError message))
  /\ filled "=WEBSERVICE(A1)" 1 1 = "=WEBSERVICE(A1)"
  /\ fst (Agent.add_formula L sheet "A1" "=WEBSERVICE(A1)" true false wb)
     = Agent.Raises
         (Agent.SecurityError
            "Formula contains potentially unsafe operations: WEBSERVICE function (network access)").
Proof.
  assert (Hfill : unguarded
                    (Agent.apply_range_formula L sheet range_ref text)).
  { unfold Agent.apply_range_formula.
    apply unguarded_and_then; [apply unguarded_get_sheet | intros ws].
    apply unguarded_and_then; [apply unguarded_lift | intros [c1 c2]].
    apply unguarded_and_then; [apply unguarded_lift | intros [r1 k1]].
    apply unguarded_and_then; [apply unguarded_lift | intros [r2 k2]].
    apply unguarded_for_each. intros row count.
    apply unguarded_for_each. intros col count0.
    apply unguarded_and_then; [apply unguarded_lift | intros letter].
    apply unguarded_and_then; [apply unguarded_lift | intros letter'].
    apply unguarded_and_then; [apply unguarded_do_call | intros _].
    apply unguarded_ret. }
  assert (Hformat : unguarded (Agent.format_range L sheet range_ref text)).
  { unfold Agent.format_range.
    apply unguarded_and_then; [apply unguarded_get_sheet | intros ws].
    apply unguarded_and_then; [apply unguarded_lift | intros [c1 c2]].
    apply unguarded_and_then; [apply unguarded_lift | intros [r1 k1]].
    apply unguarded_and_then; [apply unguarded_lift | intros [r2 k2]].
    apply unguarded_for_each. intros row count.
    apply unguarded_for_each. intros col count0.
    apply unguarded_and_then; [apply unguarded_do_call | intros _].
    apply unguarded_and_then; [apply unguarded_do_call | intros _].
    apply unguarded_ret. }
  split; [|split; reflexivity].
  intros message.
  destruct (Hfill wb message) as [H1 H2].
  destruct (Hformat wb message) as [H3 H4].
  now repeat split.
Qed.

(** X25. [add_formula] writes the sanitized text, which starts with [=].
    With [allow_external] unset any warning of the sanitizer makes it
    raise [SecurityError] with the warnings, before any call on the
    library; a reference to a sheet that is not there, when references
    are to be validated, makes it raise [FormulaError], also before any
    call.  So whenever it goes on to the library, the text has passed the
    guards asked for: no threat signature, no more than 8000 characters
    and parentheses that differ by no more than 64; and every sheet it
    names is in the workbook.  With [allow_external] set and no
    validation nothing is ever refused. *)
Theorem add_formula_guards
        (wb : option (Agent.book L)) (sheet cell formula : string)
        (validate_refs allow_external : bool) :
  let text := fst (sanitize_formula formula allow_external) in
  let warnings := snd (sanitize_formula formula allow_external) in
  let run :=
    Agent.add_formula L sheet cell formula validate_refs allow_external wb in
  startswith "=" text = true
  /\ (allow_external = false -> warnings <> [] ->
      run
      = (Agent.Raises
           (Agent.SecurityError
              ("Formula contains potentially unsafe operations: "
                 ++ Agent.join "; " warnings)),
         wb))
  /\ (forall message,
         fst run = Agent.Raises (Agent.FormulaError message) ->
         snd run = wb /\ validate_refs = true)
  /\ ((forall message,
          fst run <> Agent.Raises (Agent.SecurityError message)) ->
      (forall message,
          fst run <> Agent.Raises (Agent.FormulaError message)) ->
      (allow_external = false ->
       matching_warnings text = []
       /\ len text <= MAX_FORMULA_LENGTH
       /\ Z.abs (count_char "(" text - count_char ")" text)
          <= MAX_FORMULA_NESTING)
      /\ (validate_refs = true ->
          forall b, wb = Some b ->
          forall name, In name (extracted_names text) ->
                       In name (Agent.sheetnames_of L b)))
  /\ (allow_external = true -> validate_refs = false ->
      run
      = Agent.set_cell_value L sheet cell (PyStr text)
                             (Some Agent.STYLE_FORMULA) None wb).
Proof.
  intros text warnings run.
  assert (Hstart := sanitized_starts_with_equals formula allow_external).
  fold text in Hstart.
  assert (Hne : text <> "") by (intros E; rewrite E in Hstart; discriminate).
  assert (Hclean := no_warning_is_clean formula allow_external).
  cbv zeta in Hclean. fold text warnings in Hclean.
  assert (Hform : forall message,
             fst (Agent.set_cell_value L sheet cell (PyStr text)
                    (Some Agent.STYLE_FORMULA) None wb)
             <> Agent.Raises (Agent.FormulaError message)).
  { intros message.
    apply (unguarded_set_cell_value sheet cell (PyStr text)
             (Some Agent.STYLE_FORMULA) None wb message). }
  assert (Hrun : run
                 = (if negb (match warnings with
                             | [] => true
                             | _ :: _ => false
                             end)
                       && negb allow_external
                    then
                      Agent.raise L
                        (Agent.SecurityError
                           ("Formula contains potentially unsafe operations: "
                              ++ Agent.join "; " warnings))
                    else
                     Agent.and_then L
                       (if validate_refs then
                          Agent.and_then L (Agent.sheetnames L)
                            (fun names =>
                               let '(is_valid, error) :=
                                 validate_formula_references
                                   (Agent.set_order L) text names in
                               if negb is_valid then
                                 Agent.raise L
                                   (Agent.FormulaError
                                      ("Invalid reference: "
                                         ++ Agent.str_of_optional error))
                               else Agent.ret L tt)
                        else Agent.ret L tt)
                       (fun _ =>
                          Agent.set_cell_value L sheet cell (PyStr text)
                            (Some Agent.STYLE_FORMULA) None)) wb).
  { unfold run, Agent.add_formula, text, warnings.
    now destruct (sanitize_formula formula allow_external). }
  split; [exact Hstart|]. split; [|split; [|split]].
  - intros -> Hw. rewrite Hrun.
    destruct warnings; [contradiction | reflexivity].
  - intros message Hm. rewrite Hrun in Hm |- *.
    destruct (negb (match warnings with [] => true | _ :: _ => false end)
              && negb allow_external); [discriminate|].
    unfold Agent.and_then in Hm |- *.
    destruct validate_refs.
    + unfold Agent.sheetnames in Hm |- *.
      destruct wb as [b|]; [|discriminate].
      destruct (validate_formula_references (Agent.set_order L) text
                  (Agent.sheetnames_of L b)) as [[|] error];
        cbn [negb Agent.raise Agent.ret fst snd] in Hm |- *;
        [now apply Hform in Hm | now split].
    + cbn [Agent.ret] in Hm. now apply Hform in Hm.
  - intros Hnosec Hnoform. rewrite Hrun in Hnosec, Hnoform. split.
    + intros ->. apply Hclean.
      destruct warnings as [|w ws]; [reflexivity|].
      cbn [negb andb Agent.raise fst] in Hnosec.
      now destruct (Hnosec _ eq_refl).
    + intros -> b -> name Hin.
      destruct (negb (match warnings with [] => true | _ :: _ => false end)
                && negb allow_external).
      { cbn [Agent.raise fst] in Hnosec. now destruct (Hnosec _ eq_refl). }
      unfold Agent.and_then, Agent.sheetnames in Hnoform.
      destruct (validate_outcome (Agent.set_order L) set_order_elements
                  text (Agent.sheetnames_of L b) Hne)
        as [[_ Hall]|(bad & _ & _ & E)]; [now apply Hall|].
      cbv zeta in E. rewrite E in Hnoform.
      cbn [negb Agent.raise fst] in Hnoform.
      now destruct (Hnoform _ eq_refl).
  - intros -> ->. rewrite Hrun. rewrite andb_false_r.
    reflexivity.
Qed.

End AgentFormulas.

(** X25 on the library that keeps the calls made: a formula that calls
    [WEBSERVICE] is refused before any call when [allow_external] is
    unset. *)
Lemma add_formula_guards_witness :
  Agent.add_formula log_library "Sheet1" "A1" "=WEBSERVICE(B1)" true false
                    (Some [])
  = (Agent.Raises
       (Agent.SecurityError
          "Formula contains potentially unsafe operations: WEBSERVICE function (network access)"),
     Some []).
Proof.
  assert (Hel : forall xs x,
             In x (Agent.set_order log_library xs) <-> In x xs)
    by (intros; apply nodup_In).
  destruct (add_formula_guards log_library Hel (Some []) "Sheet1" "A1"
              "=WEBSERVICE(B1)" true false) as (_ & Hrefused & _).
  apply Hrefused; [reflexivity | discriminate].
Defined.

(* ------------------------------------------------------------------ *)
(** ** The agent: new sheets *)
(* ------------------------------------------------------------------ *)

Section AgentSheets.

Variable L : Agent.library.

(** X26. [add_sheet] asks the library for a sheet only under a name that
    is valid and not yet in the workbook, and refuses any other with a
    [ValueError] before any call.  A name that went through
    [sanitize_sheet_name] is never refused as invalid: the sheet is asked
    for unless the workbook has one of that name. *)
Theorem add_sheet_checks (b : Agent.book L) (name : string)
        (index : option Z) :
  let created (name : string) :=
    Agent.and_then L (Agent.do_call L (Agent.CreateSheet name index))
                   (fun _ => Agent.ret L name) (Some b) in
  (Agent.add_sheet L name index (Some b) = created name
   \/ snd (Agent.add_sheet L name index (Some b)) = Some b
      /\ exists message,
           fst (Agent.add_sheet L name index (Some b))
           = Agent.Raises (Agent.Builtin (ValueError message)))
  /\ (Agent.add_sheet L name index (Some b) = created name <->
      is_valid_sheet_name name = true
      /\ ~ In name (Agent.sheetnames_of L b))
  /\ Agent.add_sheet L (sanitize_sheet_name name) index (Some b)
     = if mem (sanitize_sheet_name name) (Agent.sheetnames_of L b)
       then (Agent.Raises
               (Agent.Builtin
                  (ValueError ("Sheet '" ++ sanitize_sheet_name name
                                 ++ "' already exists"))),
             Some b)
       else created (sanitize_sheet_name name).
Proof.
  intros created.
  assert (Hcases : forall n,
             Agent.add_sheet L n index (Some b)
             = if negb (is_valid_sheet_name n) then
                 (Agent.Raises
                    (Agent.Builtin (ValueError ("Invalid sheet name: " ++ n))),
                  Some b)
               else if mem n (Agent.sheetnames_of L b) then
                 (Agent.Raises
                    (Agent.Builtin
                       (ValueError ("Sheet '" ++ n ++ "' already exists"))),
                  Some b)
               else created n) by reflexivity.
  assert (Hcreated : forall n,
             created n
             <> (Agent.Raises
                   (Agent.Builtin (ValueError ("Invalid sheet name: " ++ n))),
                 Some b)
             /\ created n
                <> (Agent.Raises
                      (Agent.Builtin
                         (ValueError ("Sheet '" ++ n ++ "' already exists"))),
                    Some b)).
  { intros n. unfold created, Agent.and_then, Agent.do_call, Agent.ret.
    destruct (Agent.perform L _ b) as [[e|] b']; split; discriminate. }
  split; [|split].
  - rewrite Hcases.
    destruct (is_valid_sheet_name name); cbn [negb];
      [|right; split; [reflexivity | eexists; reflexivity]].
    destruct (mem name (Agent.sheetnames_of L b));
      [right; split; [reflexivity | eexists; reflexivity] | now left].
  - rewrite Hcases. destruct (Hcreated name) as [Hinvalid Hexists].
    destruct (is_valid_sheet_name name); cbn [negb].
    + destruct (mem name (Agent.sheetnames_of L b)) eqn:Hm.
      * split; [intros E; now symmetry in E|].
        intros [_ Hnot]. now apply mem_In in Hm.
      * split; [|reflexivity]. intros _. split; [reflexivity|].
        intros Hin. apply mem_In in Hin. congruence.
    + split; [intros E; now symmetry in E | now intros [? _]].
  - rewrite Hcases, sanitize_sheet_name_accepted. reflexivity.
Qed.

End AgentSheets.

(* ------------------------------------------------------------------ *)
(** ** The scan and the cached values *)
(* ------------------------------------------------------------------ *)

Section CachedValues.

(** C1 (code bug). The formula cell of the example of the specification is
    cached as [#DIV/0!] and loads, as the scan loads the file, with the
    text of its formula as value; the scan of the example then reports
    success with one formula, no error and no bucket for [#DIV/0!], where
    the claim has one error at [Sheet1!B1].  In general, on a workbook
    whose formula cells load with the text of a formula, which starts
    with [=], the scan reports success whatever values are cached: the
    cached value is never compared with a sentinel. *)
Theorem C1_scan_misses_cached_error :
  sf_cached example_formula = "#DIV/0!"
  /\ In ("Sheet1", loaded_formula example_formula)
        (located_cells spec_example_workbook)
  /\ validate_workbook_python spec_example_world sample_path
     = ValidationReport_success 1 "python_fallback"
  /\ report_bucket (validate_workbook_python spec_example_world sample_path)
                   "#DIV/0!"
     = None
  /\ get_error_locations
       (validate_workbook_python spec_example_world sample_path) None
     = []
  /\ (forall (w : world) (filepath : path) (wb : workbook),
         files w filepath = Some (Loads wb) ->
         NoDup (sheetnames wb) ->
         (forall lc, In lc (located_cells wb) -> is_formula lc = true ->
                     exists stored,
                       snd lc = loaded_formula stored
                       /\ startswith "=" (sf_formula stored) = true) ->
         validate_workbook_python w filepath
         = ValidationReport_success
             (Z.of_nat (List.length (filter is_formula (located_cells wb))))
             "python_fallback").
Proof.
  split; [reflexivity|]. split; [cbn; tauto|].
  split; [reflexivity|]. split; [reflexivity|]. split; [reflexivity|].
  intros w filepath wb Hfile Hnd Hloaded.
  destruct (scan_of_loaded w filepath wb Hfile Hnd) as (_ & _ & _ & Hok).
  apply Hok. apply Nat.eqb_eq.
  assert (Hnone : forall l,
             (forall lc, In lc l -> has_any_error lc = false) ->
             filter has_any_error l = []).
  { induction l as [|lc l IH]; intros Hl; [reflexivity|]. cbn [filter].
    rewrite (Hl lc (or_introl eq_refl)). apply IH.
    intros x Hx. apply Hl. now right. }
  rewrite Hnone; [reflexivity|].
  intros lc Hin. unfold has_any_error.
  destruct (is_formula lc) eqn:Hf; [|reflexivity]. cbn [andb].
  destruct (Hloaded lc Hin Hf) as (stored & E & Hstart).
  unfold cell_value. rewrite E. cbn [loaded_formula value].
  destruct (sf_formula stored) as [|c text]; [discriminate Hstart|].
  apply formula_text_is_no_sentinel in Hstart. exact Hstart.
Qed.

End CachedValues.
